(** * LocalEGA ingestion worker: messaging and processing core

    A shallow embedding of
      - [lega/ingest.py]              (the per-message pipeline [work]),
      - [lega/utils/amqp.py]          (TLS arguments, [publish], the dispatcher),
      - [ingestion/lega/conf/__init__.py]  (the sensitive-value resolver and the
                                       [Configuration] object),
      - [src/lega/utils/db.py]        (the database calls),
      - [deploy/bootstrap/run/lega/backup.py]  (the bootstrap helper),
    followed by the properties of these functions.

    Python dictionaries and JSON objects are finite maps ([gmap string _]);
    exceptions are values of an error type threaded through a small
    state-and-exception monad; calls to the broker, the database, the vault and
    the operating system are recorded in a trace. *)

From Stdlib Require Import ZArith String Ascii List Lia.
From Stdlib Require Import DecimalString.
From stdpp Require Import base strings gmap list fin_maps.

#[local] Set Warnings "-register-all".
#[local] Open Scope Z_scope.

(* ================================================================== *)
(** * Python values                                                    *)
(* ================================================================== *)

(** JSON documents, as [json.loads] builds them and [json.dumps] prints them
    (numbers are the integers; the pipeline never computes with a float). *)
Inductive json : Type :=
  | JNull
  | JBool (b : bool)
  | JInt (z : Z)
  | JStr (s : string)
  | JList (l : list json)
  | JDict (d : gmap string json).

(** Python's truth value of a JSON document. *)
Definition json_truthy (j : json) : bool :=
  match j with
  | JNull => false
  | JBool b => b
  | JInt z => negb (z =? 0)
  | JStr s => negb (String.eqb s EmptyString)
  | JList l => match l with [] => false | _ :: _ => true end
  | JDict d => negb (Nat.eqb (size d) 0)
  end.

(** The [content] object of the dispatcher: a JSON document (the parsed
    body, or a body that is a [str]), or a [bytes] object, which is no JSON
    document. *)
Inductive content_t : Type :=
  | Doc (j : json)
  | Raw (b : string).

Coercion Doc : json >-> content_t.

(** [if not content] *)
Definition truthy (content : content_t) : bool :=
  match content with
  | Doc j => json_truthy j
  | Raw b => negb (String.eqb b EmptyString)
  end.

Definition as_dict (j : json) : option (gmap string json) :=
  match j with JDict d => Some d | _ => None end.

(** [j[key]] for reading, [None] when [j] is no dict or has no such key. *)
Definition field (key : string) (j : json) : option json :=
  d ← as_dict j; d !! key.

(** Values handed around as plain arguments: [None], a [str], or an object
    that is no JSON document (a broker channel). *)
Inductive pyarg : Type :=
  | PyNone
  | PyStr (s : string)
  | PyObj (name : string).

(** A [str] where any argument may stand. *)
Coercion PyStr : string >-> pyarg.

(** [isinstance(a, str)] *)
Definition is_string (a : pyarg) : bool :=
  match a with PyStr _ => true | _ => false end.

Definition arg_truthy (a : pyarg) : bool :=
  match a with
  | PyNone => false
  | PyStr s => negb (String.eqb s EmptyString)
  | PyObj _ => true
  end.

(** [a or b]: [b] is only looked at when [a] is falsy. *)
Definition py_or (a b : pyarg) : pyarg := if arg_truthy a then a else b.

Definition of_option (o : option string) : pyarg :=
  match o with Some s => PyStr s | None => PyNone end.

(** ** Strings *)

(** [s.startswith(p)] *)
Fixpoint startswith (p s : string) : bool :=
  match p with
  | EmptyString => true
  | String a p' =>
      match s with
      | EmptyString => false
      | String b s' => Ascii.eqb a b && startswith p' s'
      end
  end.

(** [s[n:]] *)
Fixpoint str_drop (n : nat) (s : string) : string :=
  match n with
  | O => s
  | S n' => match s with EmptyString => EmptyString | String _ s' => str_drop n' s' end
  end.

(** [s.lstrip(c)] for a single character [c] *)
Fixpoint lstrip (c : ascii) (s : string) : string :=
  match s with
  | EmptyString => EmptyString
  | String a s' => if Ascii.eqb a c then lstrip c s' else s
  end.

Definition lower_ascii (a : ascii) : ascii :=
  let n := nat_of_ascii a in
  if (Nat.leb 65 n && Nat.leb n 90)%bool then ascii_of_nat (n + 32) else a.

(** [s.lower()] on ASCII text *)
Fixpoint lower (s : string) : string :=
  match s with
  | EmptyString => EmptyString
  | String a s' => String (lower_ascii a) (lower s')
  end.

Definition hex_digit (n : nat) : ascii :=
  match n with
  | 0 => "0" | 1 => "1" | 2 => "2" | 3 => "3" | 4 => "4" | 5 => "5" | 6 => "6"
  | 7 => "7" | 8 => "8" | 9 => "9" | 10 => "a" | 11 => "b" | 12 => "c"
  | 13 => "d" | 14 => "e" | _ => "f"
  end%nat%char.

(** [bytes.hex()]: two lowercase digits per byte. *)
Fixpoint hex (b : string) : string :=
  match b with
  | EmptyString => EmptyString
  | String a b' =>
      let n := nat_of_ascii a in
      String (hex_digit (n / 16)) (String (hex_digit (n mod 16)) (hex b'))
  end.

(* ================================================================== *)
(** * Exceptions                                                       *)
(* ================================================================== *)

(** The exception classes the three modules raise or catch.  [RejectMessage],
    [FromUser] and [NotFoundInInbox] belong to [lega.utils.exceptions]. *)
Inductive exn_class : Type :=
  | RejectMessage
  | FromUser
  | NotFoundInInbox
  | FromUserSubclass (name : string)
  | JSONDecodeError
  | AssertionError
  | TypeError
  | KeyError
  | AttributeError
  | ValueError
  | UnicodeDecodeError
  | FileNotFoundError
  | PermissionError
  | NoSectionError
  | NoOptionError
  | OtherException (name : string)
  | KeyboardInterrupt
  | SystemExit.

(** An exception object: its class, [str(e)], [repr(e)] and [e.__cause__]. *)
Inductive exn : Type :=
  | Exn (cls : exn_class) (str repr : string) (cause : option exn).

Definition exn_cls (e : exn) : exn_class := let 'Exn c _ _ _ := e in c.
Definition exn_str (e : exn) : string := let 'Exn _ s _ _ := e in s.
Definition exn_repr (e : exn) : string := let 'Exn _ _ r _ := e in r.
Definition exn_cause (e : exn) : option exn := let 'Exn _ _ _ c := e in c.

(** [e.__cause__ or e] *)
Definition cause_or_self (e : exn) : exn := default e (exn_cause e).

(** Modelled from the spec: the class hierarchy of [lega.utils.exceptions],
    which is not part of the sources at hand.  [FromUser] is the marker for
    errors attributable to the submitter, [NotFoundInInbox] is one of its
    subclasses, [RejectMessage] asks for a requeue. *)
Definition is_FromUser (c : exn_class) : bool :=
  match c with
  | FromUser | NotFoundInInbox | FromUserSubclass _ => true
  | _ => false
  end.

Definition is_RejectMessage (c : exn_class) : bool :=
  match c with RejectMessage => true | _ => false end.

Definition is_JSONDecodeError (c : exn_class) : bool :=
  match c with JSONDecodeError => true | _ => false end.

(** [isinstance(e, Exception)]: everything but the two [BaseException]-only
    classes. *)
Definition is_Exception (c : exn_class) : bool :=
  match c with KeyboardInterrupt | SystemExit => false | _ => true end.

Definition quote (s : string) : string := "'" +:+ s +:+ "'".

Definition mk_exn (c : exn_class) (name msg : string) : exn :=
  Exn c msg (name +:+ "(" +:+ quote msg +:+ ")") None.

Definition assertion_error (msg : string) : exn :=
  mk_exn AssertionError "AssertionError" msg.

Definition with_cause (e from : exn) : exn :=
  let 'Exn c s r _ := e in Exn c s r (Some from).

(* ================================================================== *)
(** * A state-and-exception monad                                      *)
(* ================================================================== *)

Inductive res (A : Type) : Type :=
  | Ok (a : A)
  | Raise (e : exn).
Arguments Ok {A} a.
Arguments Raise {A} e.

(** A computation reads and writes a state and either returns or raises; what
    it did to the state before raising stays done. *)
Definition M (St A : Type) : Type := St -> res A * St.

Definition ret {St A} (a : A) : M St A := fun st => (Ok a, st).
Definition raise {St A} (e : exn) : M St A := fun st => (Raise e, st).
Definition bind {St A B} (m : M St A) (k : A -> M St B) : M St B :=
  fun st => match m st with
            | (Ok a, st') => k a st'
            | (Raise e, st') => (Raise e, st')
            end.
Definition get {St} : M St St := fun st => (Ok st, st).
Definition modify {St} (f : St -> St) : M St unit := fun st => (Ok tt, f st).
Definition lift {St A} (r : res A) : M St A := fun st => (r, st).

(** [try: m  except <classes accepted by h>: handler].  A class the handler
    does not accept passes through. *)
Definition try_except {St A} (m : M St A) (h : exn -> option (M St A)) : M St A :=
  fun st => match m st with
            | (Ok a, st') => (Ok a, st')
            | (Raise e, st') =>
                match h e with
                | Some handler => handler st'
                | None => (Raise e, st')
                end
            end.

(** [try: m  finally: fin].  An exception of [fin] replaces the outcome of
    [m]. *)
Definition try_finally {St A} (m : M St A) (fin : M St unit) : M St A :=
  fun st => match m st with
            | (r, st') =>
                match fin st' with
                | (Ok _, st'') => (r, st'')
                | (Raise e, st'') => (Raise e, st'')
                end
            end.

#[global] Instance M_ret {St} : MRet (M St) := fun A => @ret St A.
#[global] Instance M_bind {St} : MBind (M St) := fun A B k m => bind m k.

(* ================================================================== *)
(** * The sensitive-value resolver ([ingestion/lega/conf/__init__.py]) *)
(* ================================================================== *)

Module Conf.

(** A file as the resolver can observe it: its mode bits, its bytes, and
    whether this process may open it for reading or unlink it. *)
Record file : Type := File {
  st_mode : Z;
  content : string;
  readable : bool;
  removable : bool;
}.

Inductive open_mode : Type := rb | rt.

Inductive syscall : Type :=
  | SysGetenv (name : string)
  | SysStat (path : string)
  | SysOpen (path : string) (mode : open_mode)
  | SysRemove (path : string).

Inductive log_record : Type :=
  | LogDebug (fmt arg : string)
  | LogWarning (fmt arg : string).

(** What the resolver runs in: the environment variables, the file system,
    the codec of text-mode reads, and what has been called, logged and
    warned about so far. *)
Record world : Type := World {
  env : gmap string string;
  fs : gmap string file;
  decode : string -> option string;
  calls : list syscall;
  log : list log_record;
  warnings : list string;
}.

Definition called (c : syscall) : M world unit :=
  modify (fun w => World (env w) (fs w) (decode w) (calls w ++ [c]) (log w) (warnings w)).
Definition logged (r : log_record) : M world unit :=
  modify (fun w => World (env w) (fs w) (decode w) (calls w) (log w ++ [r]) (warnings w)).
Definition warn (msg : string) : M world unit :=
  modify (fun w => World (env w) (fs w) (decode w) (calls w) (log w) (warnings w ++ [msg])).
Definition unlink (path : string) : M world unit :=
  modify (fun w => World (env w) (delete path (fs w)) (decode w) (calls w) (log w) (warnings w)).

(** A resolved value: [str] or [bytes]. *)
Inductive sval : Type :=
  | SStr (s : string)
  | SBytes (b : string).

Definition S_IRGRP : Z := 32.  (* 0o040 *)
Definition S_IROTH : Z := 4.   (* 0o004 *)

Definition no_such_file (path : string) : exn :=
  mk_exn FileNotFoundError "FileNotFoundError" ("No such file or directory: " +:+ path).
Definition permission_denied (path : string) : exn :=
  mk_exn PermissionError "PermissionError" ("Permission denied: " +:+ path).

(** [os.getenv(name, None)] *)
Definition os_getenv (name : string) : M world (option string) :=
  called (SysGetenv name) ;;
  w ← get;
  ret (env w !! name).

(** [os.stat(path)] *)
Definition os_stat (path : string) : M world Z :=
  called (SysStat path) ;;
  w ← get;
  match fs w !! path with
  | Some f => ret (st_mode f)
  | None => raise (no_such_file path)
  end.

(** [os.remove(path)] *)
Definition os_remove (path : string) : M world unit :=
  called (SysRemove path) ;;
  w ← get;
  match fs w !! path with
  | Some f => if removable f then unlink path else raise (permission_denied path)
  | None => raise (no_such_file path)
  end.

(** [with open(filepath, mode) as s: return s.read()] *)
Definition open_read (filepath : string) (mode : open_mode) : M world sval :=
  called (SysOpen filepath mode) ;;
  w ← get;
  match fs w !! filepath with
  | None => raise (no_such_file filepath)
  | Some f =>
      if readable f then
        match mode with
        | rb => ret (SBytes (content f))
        | rt =>
            match decode w (content f) with
            | Some s => ret (SStr s)
            | None => raise (mk_exn UnicodeDecodeError "UnicodeDecodeError" "invalid start byte")
            end
        end
      else raise (permission_denied filepath)
  end.

Definition load_error (filepath : string) (from : exn) : exn :=
  with_cause (mk_exn ValueError "ValueError" ("Error loading " +:+ filepath)) from.

(** [get_from_file(filepath, mode='rb', remove_after=False)] *)
Definition get_from_file (filepath : string) (mode : open_mode) (remove_after : bool)
  : M world sval :=
  try_finally
    (try_except (open_read filepath mode)
       (fun e => if is_Exception (exn_cls e)
                 then Some (raise (load_error filepath e))
                 else None))
    (if remove_after then
       try_except (os_remove filepath)
         (fun e => if is_Exception (exn_cls e)
                   then Some (logged (LogWarning "Could not remove %s" filepath))
                   else None)
     else ret tt).

Definition env_deprecated : string :=
  "Loading sensitive data from environment variable is not recommended and might be removed in future versions. Use secret:// instead".
Definition file_deprecated : string :=
  "Loading sensitive data from a file that is group or world readable is not recommended and might be removed in future versions. Use secret:// instead".

(** [convert_sensitive(value)] *)
Definition convert_sensitive (value : option string) : M world (option sval) :=
  match value with
  | None => ret None
  | Some value =>
      if startswith "value://" value then
        ret (Some (SStr (str_drop 8 value)))
      else if startswith "env://" value then
        let envvar := str_drop 6 value in
        logged (LogDebug "Loading value from env var: %s" envvar) ;;
        warn env_deprecated ;;
        envvalue ← os_getenv envvar;
        match envvalue with
        | None => raise (mk_exn ValueError "ValueError"
                           ("Environment variable " +:+ envvar +:+ " not found"))
        | Some v => ret (Some (SStr v))
        end
      else if startswith "file://" value then
        let path := str_drop 7 value in
        logged (LogDebug "Loading value from path: %s" path) ;;
        mode ← os_stat path;
        (if negb (Z.land mode S_IRGRP =? 0) || negb (Z.land mode S_IROTH =? 0)
         then warn file_deprecated else ret tt) ;;
        v ← get_from_file path rt false;
        ret (Some v)
      else if startswith "secret://" value then
        let path := str_drop 9 value in
        logged (LogDebug "Loading secret from path: %s" path) ;;
        v ← get_from_file path rb true;
        ret (Some v)
      else
        ret (Some (SStr value))
  end.

End Conf.

(* ================================================================== *)
(** * Effects on the outside world                                     *)
(* ================================================================== *)

(** A Python value inside a dictionary the pipeline mutates: a JSON document
    held by value (nobody mutates it), or a reference to a dictionary object. *)
Definition loc : Type := nat.

Inductive pyval : Type :=
  | VJson (j : json)
  | VRef (l : loc).

(** What a worker does to the broker, the database, the inbox and the vault,
    in the order it does it.  A call is recorded when it is made, whether it
    then returns or raises. *)
Inductive event : Type :=
  | EvPublish (body : json) (exchange routing_key correlation_id : pyarg)
  | EvAck
  | EvReject (requeue : bool)
  | EvInsertFile (filepath : pyval) (user_id : string)
  | EvMarkInProgress (file_id : Z)
  | EvSetInfo (file_id : Z) (target : string) (target_size : Z) (header_hex : string)
  | EvSetError (file_id : pyval) (error : exn)
  | EvExists (path : string)
  | EvOpen (path : string)
  | EvGetHeader (path : string)
  | EvLocation (file_id : Z)
  | EvCopy (path target : string).

(** The broker context a publishing function reaches through module globals:
    the ambient correlation id [_cid] and the shared [connection]. *)
Class Broker (St : Type) : Type := {
  ctx_cid : St -> pyarg;
  record : event -> St -> St;
}.

Definition emit {St} `{Broker St} (e : event) : M St unit := modify (record e).

#[global] Instance res_ret : MRet res := fun A a => Ok a.
#[global] Instance res_bind : MBind res :=
  fun A B k r => match r with Ok a => k a | Raise e => Raise e end.
#[global] Instance res_fmap : FMap res :=
  fun A B f r => match r with Ok a => Ok (f a) | Raise e => Raise e end.

(* ================================================================== *)
(** * Configuration ([configparser.RawConfigParser])                   *)
(* ================================================================== *)

Module Config.

(** The parsed configuration: the [DEFAULT] section and the named ones. *)
Record conf : Type := Conf {
  defaults : gmap string string;
  sections : gmap string (gmap string string);
}.

Definition no_section (section : string) : exn :=
  mk_exn NoSectionError "NoSectionError" ("No section: " +:+ section).
Definition no_option (opt section : string) : exn :=
  mk_exn NoOptionError "NoOptionError"
    ("No option " +:+ opt +:+ " in section: " +:+ section).

(** The options visible in a section: its own, then those of [DEFAULT]. *)
Definition unify_values (c : conf) (section : string) : res (gmap string string) :=
  if String.eqb section "DEFAULT" then Ok (defaults c)
  else match sections c !! section with
       | Some d => Ok (d ∪ defaults c)
       | None => Raise (no_section section)
       end.

(** [CONF.get(section, option)] *)
Definition get (c : conf) (section opt : string) : res string :=
  d ← unify_values c section;
  match d !! opt with
  | Some v => Ok v
  | None => Raise (no_option opt section)
  end.

(** [CONF.get(section, option, fallback=...)] *)
Definition get_or (c : conf) (section opt : string) (fallback : pyarg) : pyarg :=
  match get c section opt with
  | Ok v => PyStr v
  | Raise _ => fallback
  end.

(** [CONF.get(section, option, fallback=<a str>)] *)
Definition get_str (c : conf) (section opt fallback : string) : string :=
  match get c section opt with
  | Ok v => v
  | Raise _ => fallback
  end.

Definition BOOLEAN_STATES (v : string) : option bool :=
  if String.eqb v "1" || String.eqb v "yes" || String.eqb v "true" || String.eqb v "on"
  then Some true
  else if String.eqb v "0" || String.eqb v "no" || String.eqb v "false" || String.eqb v "off"
  then Some false
  else None.

(** [CONF.getboolean(section, option, fallback=...)]: the fallback stands in
    for a missing section or option, not for a value that is no boolean. *)
Definition getboolean (c : conf) (section opt : string) (fallback : bool) : res bool :=
  match get c section opt with
  | Ok v =>
      match BOOLEAN_STATES (lower v) with
      | Some b => Ok b
      | None => Raise (mk_exn ValueError "ValueError" ("Not a boolean: " +:+ v))
      end
  | Raise _ => Ok fallback
  end.

(** [CONF.getint(section, option, fallback=...)], over Python's [int]. *)
Definition getint (int : string -> option Z) (c : conf) (section opt : string)
    (fallback : Z) : res Z :=
  match get c section opt with
  | Ok v =>
      match int v with
      | Some n => Ok n
      | None => Raise (mk_exn ValueError "ValueError"
                         ("invalid literal for int() with base 10: " +:+ quote v))
      end
  | Raise _ => Ok fallback
  end.

(** [CONF.getsensitive(section, option, raw=True)]: the raw value run through
    the [sensitive] converter. *)
Definition getsensitive (c : conf) (section opt : string)
  : M Conf.world (option Conf.sval) :=
  v ← lift (get c section opt);
  Conf.convert_sensitive (Some v).

End Config.

(* ================================================================== *)
(** * The broker connection and the dispatcher ([lega/utils/amqp.py])  *)
(* ================================================================== *)

Module Amqp.

(** ** TLS arguments *)

Inductive verify_mode_t : Type := CERT_NONE | CERT_OPTIONAL | CERT_REQUIRED.

(** The part of an [ssl.SSLContext] that [fetch_args] sets. *)
Record SSLContext : Type := Context {
  verify_mode : verify_mode_t;
  check_hostname : bool;
  cafile : option string;
  cert_chain : option (string * string);
}.

(** [ssl.SSLContext(protocol=ssl.PROTOCOL_TLS)] *)
Definition new_context : SSLContext := Context CERT_NONE false None None.

Definition set_verify_mode (m : verify_mode_t) (c : SSLContext) : SSLContext :=
  Context m (check_hostname c) (cafile c) (cert_chain c).

(** [context.check_hostname = b]: turning the check on in a context that
    verifies nothing makes the context require a certificate. *)
Definition set_check_hostname (b : bool) (c : SSLContext) : SSLContext :=
  let m := match b, verify_mode c with
           | true, CERT_NONE => CERT_REQUIRED
           | _, m => m
           end in
  Context m b (cafile c) (cert_chain c).

(** What the [ssl] module and [int] do with the strings of the
    configuration: loading a CA file or a certificate chain may fail. *)
Record runtime : Type := Runtime {
  int : string -> option Z;
  load_verify_locations : string -> res unit;
  load_cert_chain : string -> string -> res unit;
}.

Record ssl_options_t : Type := SSLOptions {
  context : SSLContext;
  server_hostname : pyarg;
}.

(** The attributes of [AMQPConnection] that [fetch_args] assigns. *)
Record connection_args : Type := Args {
  connection_params : string;
  interval : Z;
  attempts : Z;
  ssl_options : option ssl_options_t;
}.

Definition hostname_unset : exn :=
  assertion_error "server_hostname must be set if verify_hostname is".

(** Lines 88-95 of [fetch_args]: "Require server verification". *)
Definition peer_verification (rt : runtime) (c : Config.conf) (conf_section : string)
  : res SSLContext :=
  let context := set_verify_mode CERT_NONE new_context in
  verify_peer ← Config.getboolean c conf_section "verify_peer" false;
  if verify_peer : bool then
    let context := set_verify_mode CERT_REQUIRED context in
    let cacertfile := Config.get_or c conf_section "cacertfile" PyNone in
    match cacertfile with
    | PyStr f =>
        if arg_truthy cacertfile then
          load_verify_locations rt f ;;
          Ok (Context (verify_mode context) (check_hostname context) (Some f)
                (cert_chain context))
        else Ok context
    | _ => Ok context
    end
  else Ok context.

(** Lines 97-103: "Check the server's hostname". *)
Definition hostname_verification (c : Config.conf) (conf_section : string)
    (context : SSLContext) : res (SSLContext * pyarg) :=
  let server_hostname := Config.get_or c conf_section "server_hostname" PyNone in
  verify_hostname ← Config.getboolean c conf_section "verify_hostname" false;
  if verify_hostname : bool then
    if arg_truthy server_hostname then
      let context := set_check_hostname true context in
      let context := set_verify_mode CERT_REQUIRED context in
      Ok (context, server_hostname)
    else Raise hostname_unset
  else Ok (context, server_hostname).

(** Lines 105-110: "If client verification is required". *)
Definition client_verification (rt : runtime) (c : Config.conf) (conf_section : string)
    (context : SSLContext) : res SSLContext :=
  let certfile := Config.get_or c conf_section "certfile" PyNone in
  match certfile with
  | PyStr f =>
      if arg_truthy certfile then
        keyfile ← Config.get c conf_section "keyfile";
        load_cert_chain rt f keyfile ;;
        Ok (Context (verify_mode context) (check_hostname context) (cafile context)
              (Some (f, keyfile)))
      else Ok context
  | _ => Ok context
  end.

(** The [if params.startswith('amqps')] block of [fetch_args], lines 83-113. *)
Definition tls_options (rt : runtime) (c : Config.conf) (conf_section : string)
  : res ssl_options_t :=
  context ← peer_verification rt c conf_section;
  '(context, server_hostname) ← hostname_verification c conf_section context;
  context ← client_verification rt c conf_section context;
  Ok (SSLOptions context server_hostname).

(** Lines 71-73 of [fetch_args]: the connection URI, a secret turned from
    [bytes] to [str]. *)
Definition connection_uri (c : Config.conf) (conf_section : string)
  : M Conf.world string :=
  params ← Config.getsensitive c conf_section "connection";
  match params with
  | Some (Conf.SStr s) => ret s
  | Some (Conf.SBytes b) =>
      w ← get;
      match Conf.decode w b with
      | Some s => ret s
      | None => raise (mk_exn UnicodeDecodeError "UnicodeDecodeError" "invalid start byte")
      end
  | None => raise (mk_exn AttributeError "AttributeError"
                     "'NoneType' object has no attribute 'startswith'")
  end.

(** [AMQPConnection.fetch_args] *)
Definition fetch_args (rt : runtime) (c : Config.conf) (conf_section : string)
  : M Conf.world connection_args :=
  params ← connection_uri c conf_section;
  interval ← lift (Config.getint (int rt) c conf_section "try_interval" 1);
  attempts ← lift (Config.getint (int rt) c conf_section "try" 30);
  if startswith "amqps" params then
    o ← lift (tls_options rt c conf_section);
    ret (Args params interval attempts (Some o))
  else
    ret (Args params interval attempts None).

(** ** Publishing *)

Definition circular : exn :=
  mk_exn ValueError "ValueError" "Circular reference detected".

(** What [amqpstorm] raises for a routing key or an exchange that is no
    [str], before anything is sent. *)
Definition invalid_argument (name : string) : exn :=
  mk_exn (OtherException "AMQPInvalidArgument") "AMQPInvalidArgument"
    (name +:+ " should be a string").

(** What [json.dumps] raises for a [bytes] object. *)
Definition not_serializable : exn :=
  mk_exn TypeError "TypeError" "Object of type bytes is not JSON serializable".

(** [json.dumps(content, indent=4)] on the dispatcher's content object. *)
Definition content_dumps (content : content_t) : res json :=
  match content with
  | Doc j => Ok j
  | Raw _ => Raise not_serializable
  end.

(** [AMQPConnection.publish]: the message handed to the broker.  [content]
    is what [json.dumps] makes of the content object: the document, or the
    exception it raises.  [message.publish(routing_key, exchange=exchange)]
    then checks its arguments, the routing key first, and sends nothing when
    it refuses one. *)
Definition connection_publish {St} `{Broker St}
    (content : res json) (exchange routing_key correlation_id : pyarg) : M St unit :=
  document ← lift content;
  if negb (is_string routing_key) then raise (invalid_argument "routing_key")
  else if negb (is_string exchange) then raise (invalid_argument "exchange")
  else emit (EvPublish document exchange routing_key correlation_id).

(** [publish(content, exchange=None, routing_key=None, correlation_id=None)] *)
Definition publish {St} `{Broker St} (c : Config.conf)
    (content : res json) (exchange routing_key correlation_id : pyarg) : M St unit :=
  st ← get;
  let correlation_id := py_or correlation_id (ctx_cid st) in
  if arg_truthy correlation_id then
    let exchange :=
      py_or exchange (Config.get_or c "DEFAULT" "exchange" (PyStr "ingestion.v1")) in
    routing_key ←
      (if arg_truthy routing_key then ret routing_key
       else k ← lift (Config.get c "DEFAULT" "routing_key"); ret (PyStr k));
    connection_publish content exchange routing_key correlation_id
  else
    raise (assertion_error "You should not publish without a correlation id").

(** ** The dispatcher *)

(** [message.body]: [amqpstorm] decodes the payload as UTF-8 and hands over
    a [str]; an empty payload, and one that does not decode, it hands over as
    the [bytes] they are. *)
Inductive payload : Type :=
  | Text (s : string)
  | Bytes (b : string).

(** [content = message.body] *)
Definition as_content (body : payload) : content_t :=
  match body with
  | Text s => Doc (JStr s)
  | Bytes b => Raw b
  end.

(** A delivery, as [amqpstorm] hands it to the callback. *)
Record Message : Type := Delivery {
  correlation_id : pyarg;
  delivery_tag : Z;
  content_type : pyarg;
  body : payload;
}.

(** The dispatcher's state: the [content] object the handlers share with
    [work], the ambient correlation id, and the trace. *)
Record dstate : Type := DState {
  content : content_t;
  cid : pyarg;
  trace : list event;
}.

#[global] Instance dstate_broker : Broker dstate := {
  ctx_cid := cid;
  record := fun e st => DState (content st) (cid st) (trace st ++ [e]);
}.

Definition set_content (j : content_t) : M dstate unit :=
  modify (fun st => DState j (cid st) (trace st)).
Definition set_cid (a : pyarg) : M dstate unit :=
  modify (fun st => DState (content st) a (trace st)).

(** [content[key] = v] *)
Definition setitem (key : string) (v : json) : M dstate unit :=
  st ← get;
  match content st with
  | Doc (JDict d) => set_content (JDict (<[key := v]> d))
  | Doc (JList _) => raise (mk_exn TypeError "TypeError"
                              "list indices must be integers or slices, not str")
  | _ => raise (mk_exn TypeError "TypeError"
                  "object does not support item assignment")
  end.

(** Modelled from the spec: [clean_message] of [lega.utils], which is not
    part of the sources at hand.  It removes the internal-only fields
    [file_id], [org_msg], [header] and [vault_path] from the message. *)
Definition clean_message (d : gmap string json) : gmap string json :=
  delete "vault_path" (delete "header" (delete "org_msg" (delete "file_id" d))).

Definition clean_content : M dstate unit :=
  st ← get;
  match content st with
  | Doc (JDict d) => set_content (JDict (clean_message d))
  | _ => ret tt
  end.

(** One call [work(content)]: what it sends out, how it leaves the
    [content] object, and whether it returns or raises. *)
Record work_run : Type := Run {
  run_events : list event;
  run_content : content_t;
  run_outcome : res json;
}.

Definition call_work (work : content_t -> work_run) : M dstate json :=
  fun st =>
    let r := work (content st) in
    (run_outcome r, DState (run_content r) (cid st) (trace st ++ run_events r)).

Definition ack : M dstate unit := emit EvAck.
Definition reject (requeue : bool) : M dstate unit := emit (EvReject requeue).

(** [_handle_request(work, message, content, exchange, error_key,
    user_error_key)] *)
Definition _handle_request (c : Config.conf) (work : content_t -> work_run)
    (exchange error_key user_error_key : pyarg) : M dstate unit :=
  try_except
    (call_work work ;; ack)
    (fun e =>
       if is_RejectMessage (exn_cls e) then
         Some (reject true)
       else if is_FromUser (exn_cls e) then
         Some (let cause := cause_or_self e in
               st ← get;
               match content st with
               | Doc (JDict _) =>
                   setitem "reason" (JStr (exn_str cause)) ;;
                   clean_content ;;
                   st ← get;
                   publish c (content_dumps (content st)) PyNone user_error_key PyNone ;;
                   ack ;;
                   raise e
               | _ => raise (assertion_error "We should have a dict here")
               end)
       else None).

(** The routing configuration [consume] reads before it registers the
    callback: four values of [CONF.get], each a [str]. *)
Record routing : Type := Routing {
  exchange : string;
  from_queue : string;
  error_key : string;
  user_error_key : string;
}.

Definition read_routing (c : Config.conf) : res routing :=
  let exchange := Config.get_str c "DEFAULT" "exchange" "ingestion.v1" in
  from_queue ← Config.get c "DEFAULT" "queue";
  let error_key := Config.get_str c "DEFAULT" "error" "error.system" in
  let user_error_key := Config.get_str c "DEFAULT" "user_error" "error" in
  Ok (Routing exchange from_queue error_key user_error_key).

Definition malformed (je : exn) (content : json) : json :=
  JDict (<["informal" := JStr "Malformed JSON-message"]>
         (<["formal" := JStr (exn_repr je)]>
         (<["message" := content]> ∅))).

Definition error_of (cause : exn) : json :=
  JDict (<["informal" := JStr (exn_str cause)]>
         (<["formal" := JStr (exn_repr cause)]> ∅)).

(** [process_request(message)], the callback defined inside [consume];
    [loads] is [json.loads], which takes a [str] or [bytes]. *)
Definition process_request (c : Config.conf) (loads : payload -> res json)
    (work : content_t -> work_run) (r : routing) (message : Message) : M dstate unit :=
  let correlation_id := correlation_id message in
  set_cid correlation_id ;;
  set_content (as_content (body message)) ;;
  try_finally
    (try_except
       ((match content_type message with
         | PyStr "application/json" =>
             j ← lift (loads (body message)); set_content (Doc j)
         | _ => ret tt
         end) ;;
        st ← get;
        if negb (truthy (content st)) then ack
        else _handle_request c work (exchange r) (error_key r) (user_error_key r))
       (fun e =>
          if is_JSONDecodeError (exn_cls e) then
            Some (st ← get;
                  connection_publish
                    (document ← content_dumps (content st); Ok (malformed e document))
                    (exchange r) (error_key r) correlation_id ;;
                  reject false)
          else if is_Exception (exn_cls e) then
            Some (let cause := cause_or_self e in
                  setitem "error" (error_of cause) ;;
                  st ← get;
                  connection_publish (content_dumps (content st))
                    (exchange r) (error_key r) correlation_id ;;
                  reject false)
          else None))
    (set_cid PyNone).

(** [consume(work)]: read the routing configuration, then serve a delivery
    with [process_request]. *)
Definition consume (c : Config.conf) (loads : payload -> res json)
    (work : content_t -> work_run) (message : Message) : M dstate unit :=
  r ← lift (read_routing c);
  process_request c loads work r message.

(** The dispatcher before its first delivery. *)
Definition idle : dstate := DState JNull PyNone [].

End Amqp.

(* ================================================================== *)
(** * The ingestion pipeline ([lega/ingest.py])                        *)
(* ================================================================== *)

Module Ingest.

(** ** The object store *)

(** The dictionaries [work] mutates live in a heap, so that
    [data['org_msg']] and [org_msg] are one object. *)
Record istate : Type := IState {
  heap : gmap loc (gmap string pyval);
  next : loc;
  cid : pyarg;
  trace : list event;
}.

#[global] Instance istate_broker : Broker istate := {
  ctx_cid := cid;
  record := fun e st => IState (heap st) (next st) (cid st) (trace st ++ [e]);
}.

Definition deref (st : istate) (l : loc) : gmap string pyval :=
  default ∅ (heap st !! l).

Definition store (l : loc) (d : gmap string pyval) : M istate unit :=
  modify (fun st => IState (<[l := d]> (heap st)) (next st) (cid st) (trace st)).

Definition key_error (key : string) : exn :=
  Exn KeyError (quote key) ("KeyError(" +:+ quote key +:+ ")") None.

(** [d[key]] *)
Definition getitem (l : loc) (key : string) : M istate pyval :=
  st ← get;
  match deref st l !! key with
  | Some v => ret v
  | None => raise (key_error key)
  end.

(** [d[key] = v] *)
Definition setitem (l : loc) (key : string) (v : pyval) : M istate unit :=
  st ← get; store l (<[key := v]> (deref st l)).

(** [d.pop(key, None)] *)
Definition pop (l : loc) (key : string) : M istate unit :=
  st ← get; store l (delete key (deref st l)).

(** [d.copy()]: a new dictionary with the same items. *)
Definition copy (l : loc) : M istate loc :=
  st ← get;
  let l' := next st in
  modify (fun st => IState (<[l' := deref st l]> (heap st)) (S l') (cid st) (trace st)) ;;
  ret l'.

(** ** [json.dumps] over the heap *)

Definition dict_dumps (f : pyval -> option json) (d : gmap string pyval)
  : option (gmap string json) :=
  if decide (map_Forall (fun _ v => is_Some (f v)) d) then Some (omap f d) else None.

(** The document a value denotes; [None] when references run in a circle
    ([fuel] bounds their depth). *)
Fixpoint dumps (fuel : nat) (h : gmap loc (gmap string pyval)) (v : pyval)
  : option json :=
  match v with
  | VJson j => Some j
  | VRef l =>
      match fuel with
      | O => None
      | S n => d ← h !! l; d' ← dict_dumps (dumps n h) d; Some (JDict d')
      end
  end.

Definition json_dumps (st : istate) (v : pyval) : option json :=
  dumps (S (size (heap st))) (heap st) v.

(** [publish] of [lega.utils.amqp], called on an object of the heap. *)
Definition publish (c : Config.conf) (content : pyval)
    (exchange routing_key correlation_id : pyarg) : M istate unit :=
  st ← get;
  Amqp.publish c
    (match json_dumps st content with
     | Some document => Ok document
     | None => Raise Amqp.circular
     end)
    exchange routing_key correlation_id.

(** ** Collaborators *)

(** The DB gateway. *)
Record DB : Type := Gateway {
  insert_file : pyval -> string -> res Z;
  mark_in_progress : Z -> res unit;
  set_info : Z -> string -> Z -> string -> res unit;
  set_error : pyval -> exn -> res unit;
}.

(** The storage capability of the vault: [fs.location(file_id)], and
    [fs.copy(infile, target)], which copies what is left of the open inbox
    file and returns its size. *)
Record Storage : Type := Vault {
  location : Z -> res string;
  copy_rest : string -> string -> res Z;
}.

(** The rest of what [work] calls: the user-id sanitizer, the inbox
    template [CONF.get_value('inbox', 'location', raw=True) % user_id],
    [pathlib]'s [/] and [exists], [open] and the Crypt4GH [get_header]. *)
Record Inbox : Type := Sys {
  sanitize_user_id : pyval -> res string;
  inbox_location : string -> res string;
  path_join : string -> string -> string;
  path_exists : string -> bool;
  open_rb : string -> res unit;
  get_header : string -> res (string * string);
}.

Section Pipeline.

Variable conf : Config.conf.
Variable db : DB.
Variable sys : Inbox.

Definition call {A} (e : event) (r : res A) : M istate A := emit e ;; lift r.

Definition not_a_str : exn :=
  mk_exn AttributeError "AttributeError" "object has no attribute 'lstrip'".

(** Modelled from the spec: [NotFoundInInbox(filepath)] of
    [lega.utils.exceptions], a [FromUser] error whose text carries the file
    path. *)
Definition not_found_in_inbox (filepath : string) : exn :=
  mk_exn NotFoundInInbox "NotFoundInInbox" filepath.

(** [work(fs, channel, data)], the function as written (lines 36-89). *)
Definition work (fs : Storage) (channel : pyarg) (data : loc) : M istate loc :=
  filepath ← getitem data "filepath";
  user ← getitem data "user";
  user_id ← lift (sanitize_user_id sys user);
  (* Insert in database *)
  file_id ← call (EvInsertFile filepath user_id) (insert_file db filepath user_id);
  setitem data "file_id" (VJson (JInt file_id)) ;;
  org_msg ← copy data;
  setitem data "org_msg" (VRef org_msg) ;;
  (* Find inbox *)
  inbox ← lift (inbox_location sys user_id);
  (* Check if file is in inbox *)
  path ← match filepath with
          | VJson (JStr s) => ret s
          | _ => raise not_a_str
          end;
  let inbox_filepath := path_join sys inbox (lstrip "/" path) in
  emit (EvExists inbox_filepath) ;;
  if negb (path_exists sys inbox_filepath) then
    raise (not_found_in_inbox path)
  else
    (* Record in database *)
    call (EvMarkInProgress file_id) (mark_in_progress db file_id) ;;
    (* Sending a progress message to CentralEGA *)
    setitem org_msg "status" (VJson (JStr "PROCESSING")) ;;
    publish conf (VRef org_msg) channel (PyStr "cega") (PyStr "files.processing") ;;
    pop org_msg "status" ;;
    (* Strip the header out and copy the rest of the file to the vault *)
    call (EvOpen inbox_filepath) (open_rb sys inbox_filepath) ;;
    bh ← call (EvGetHeader inbox_filepath) (get_header sys inbox_filepath);
    let '(beginning, header) := bh in
    target ← call (EvLocation file_id) (location fs file_id);
    target_size ← call (EvCopy inbox_filepath target) (copy_rest fs inbox_filepath target);
    let header_hex := hex (beginning +:+ header) in
    call (EvSetInfo file_id target target_size header_hex)
         (set_info db file_id target target_size header_hex) ;;
    setitem data "header" (VJson (JStr header_hex)) ;;
    setitem data "vault_path" (VJson (JStr target)) ;;
    ret data.

(** Modelled from the spec: the wrapper [db.crypt4gh_to_user_errors], which
    is not part of the sources at hand.  It turns the errors of the header
    parser into [FromUser] errors and keeps the original as the cause. *)
Definition crypt4gh_to_user_errors {A} (is_header_error : exn_class -> bool)
    (m : M istate A) : M istate A :=
  try_except m
    (fun e => if is_header_error (exn_cls e)
              then Some (raise (Exn FromUser (exn_str e) (exn_repr e) (Some e)))
              else None).

(** Modelled from the spec: the wrapper [db.catch_error], which is not part
    of the sources at hand.  On any exception it calls
    [set_error(data['file_id'], e)] if [file_id] is in the data, and raises
    the exception again. *)
Definition catch_error {A} (data : loc) (m : M istate A) : M istate A :=
  try_except m
    (fun e => if is_Exception (exn_cls e) then
                Some (st ← get;
                      match deref st data !! "file_id" with
                      | Some file_id => call (EvSetError file_id e) (set_error db file_id e)
                      | None => ret tt
                      end ;;
                      raise e)
              else None).

(** [work] under its two decorators (lines 34-35). *)
Definition decorated_work (is_header_error : exn_class -> bool)
    (fs : Storage) (channel : pyarg) (data : loc) : M istate loc :=
  catch_error data (crypt4gh_to_user_errors is_header_error (work fs channel data)).

End Pipeline.

(** The worker's state when the dispatcher hands it the parsed request: one
    fresh dictionary, at address [0]. *)
Definition received (request : gmap string json) (correlation_id : pyarg) : istate :=
  IState {[ 0%nat := VJson <$> request ]} 1%nat correlation_id [].

(** The reply message: the JSON document of the dictionary [work] returns. *)
Definition reply (run : res loc * istate) : option json :=
  match run with
  | (Ok l, st) => json_dumps st (VRef l)
  | (Raise _, _) => None
  end.

End Ingest.


(* ================================================================== *)
(** * Vocabulary of the statements                                     *)
(* ================================================================== *)

Module Observe.

Import Conf.

(** The outcome of one attempt to read [path]: its contents, or the
    [ValueError] that [get_from_file] raises from the underlying error. *)
Definition read_result (w : world) (path : string) (mode : open_mode) : res sval :=
  match fs w !! path with
  | None => Raise (load_error path (no_such_file path))
  | Some f =>
      if readable f then
        match mode with
        | rb => Ok (SBytes (content f))
        | rt =>
            match decode w (content f) with
            | Some s => Ok (SStr s)
            | None => Raise (load_error path
                               (mk_exn UnicodeDecodeError "UnicodeDecodeError"
                                  "invalid start byte"))
            end
        end
      else Raise (load_error path (permission_denied path))
  end.

(** Whether [os.remove(path)] goes through. *)
Definition can_remove (w : world) (path : string) : bool :=
  match fs w !! path with Some f => removable f | None => false end.

(** The class of the exception a run ends with, if it ends with one. *)
Definition raised {A St} (run : res A * St) : option exn_class :=
  match fst run with Ok _ => None | Raise e => Some (exn_cls e) end.

(** The body of the user-error message: what [work] left of the content,
    with the reason added and the internal fields removed. *)
Definition user_error_body (e : exn) (d : gmap string json) : gmap string json :=
  Amqp.clean_message (<["reason" := JStr (exn_str (cause_or_self e))]> d).

(** The body of the system-error message of the generic handler. *)
Definition system_error_body (e : exn) (d : gmap string json) : gmap string json :=
  <["error" := Amqp.error_of (cause_or_self e)]> d.

(** An option of the [DEFAULT] section, or the fallback. *)
Definition default_option (c : Config.conf) (opt fallback : string) : string :=
  default fallback (Config.defaults c !! opt).

(** Whether a trace holds an ack. *)
Definition acked (t : list event) : bool :=
  existsb (fun ev => match ev with EvAck => true | _ => false end) t.

(** Whether a trace holds a reject. *)
Definition rejected (t : list event) : bool :=
  existsb (fun ev => match ev with EvReject _ => true | _ => false end) t.

(** The routing keys of the messages published in a trace. *)
Definition routing_keys (t : list event) : list pyarg :=
  omap (fun ev => match ev with EvPublish _ _ k _ => Some k | _ => None end) t.

(** The checker of the order of the database calls in a trace: every
    [set_info] is for a file id already marked in progress ([marked] holds
    the ids marked so far). *)
Fixpoint in_order (marked : list Z) (t : list event) : bool :=
  match t with
  | [] => true
  | EvMarkInProgress f :: t' => in_order (f :: marked) t'
  | EvSetInfo f _ _ _ :: t' => existsb (Z.eqb f) marked && in_order marked t'
  | _ :: t' => in_order marked t'
  end.

(** No [set_info(file_id, ...)] before a [mark_in_progress(file_id)]. *)
Definition marked_before_info (t : list event) : Prop :=
  forall pre post file_id target size header_hex,
    t = pre ++ EvSetInfo file_id target size header_hex :: post ->
    In (EvMarkInProgress file_id) pre.

(** Where the messages of a trace went: exchange, routing key and
    correlation id of each. *)
Definition deliveries (t : list event) : list (pyarg * pyarg * pyarg) :=
  omap (fun ev => match ev with
                  | EvPublish _ x k i => Some (x, k, i)
                  | _ => None
                  end) t.

End Observe.

(* ================================================================== *)
(** * Sample inputs                                                    *)
(* ================================================================== *)

Module Samples.

(** A one-shot secret, and a key file that this process may neither open nor
    unlink. *)
Definition mq_secret : Conf.file := Conf.File 256 "amqps://u:p@h/v" true true.
Definition locked_key : Conf.file := Conf.File 256 "s3cr3t" false false.

Definition ascii_codec (b : string) : option string := Some b.

Definition host : Conf.world :=
  Conf.World
    (<["MQ_URL" := "amqp://guest@localhost"]> ∅)
    (<["/run/secrets/mq.connection" := mq_secret]> (<["/etc/ega/ssl.key" := locked_key]> ∅))
    ascii_codec [] [] [].

(** ** A broker configuration *)

Definition python : Amqp.runtime :=
  Amqp.Runtime (fun s => if String.eqb s "30" then Some 30 else if String.eqb s "1" then Some 1
                         else None)
               (fun _ => Ok tt) (fun _ _ => Ok tt).

(** TLS with hostname verification asked for, and no [server_hostname]. *)
Definition broker_without_hostname : Config.conf :=
  Config.Conf (<["queue" := "files"]> ∅)
    {[ "broker" := <["connection" := "secret:///run/secrets/mq.connection"]>
                   (<["verify_peer" := "yes"]>
                   (<["verify_hostname" := "yes"]>
                   (<["cacertfile" := "/etc/ega/CA.cert"]> ∅))) ]}.

Definition broker_with_hostname : Config.conf :=
  Config.Conf (<["queue" := "files"]> ∅)
    {[ "broker" := <["connection" := "secret:///run/secrets/mq.connection"]>
                   (<["verify_hostname" := "yes"]>
                   (<["server_hostname" := "mq.example.org"]> ∅)) ]}.

(** ** Deliveries *)

Definition request : gmap string json :=
  <["filepath" := JStr "/a/b.c4gh"]> (<["user" := JStr "alice"]> ∅).

Definition dq (s : string) : string :=
  String (ascii_of_nat 34) s +:+ String (ascii_of_nat 34) EmptyString.

(** The body [{"filepath": "/a/b.c4gh", "user": "alice"}]. *)
Definition raw : string :=
  "{" +:+ dq "filepath" +:+ ": " +:+ dq "/a/b.c4gh" +:+ ", "
      +:+ dq "user" +:+ ": " +:+ dq "alice" +:+ "}".

(** [json.loads] on the bodies the samples use. *)
Definition loads (body : Amqp.payload) : res json :=
  match body with
  | Amqp.Text s =>
      if String.eqb s raw then Ok (JDict request)
      else if String.eqb s "[1]" then Ok (JList [JInt 1])
      else Raise (mk_exn JSONDecodeError "JSONDecodeError" "Expecting value")
  | Amqp.Bytes _ => Raise (mk_exn JSONDecodeError "JSONDecodeError" "Expecting value")
  end.

Definition delivery : Amqp.Message :=
  Amqp.Delivery (PyStr "cid-1") 1 (PyStr "application/json") (Amqp.Text raw).

(** A delivery whose body is a JSON array. *)
Definition array_delivery : Amqp.Message :=
  Amqp.Delivery (PyStr "cid-3") 3 (PyStr "application/json") (Amqp.Text "[1]").

(** The same delivery from a producer that set no correlation id. *)
Definition anonymous_delivery : Amqp.Message :=
  Amqp.Delivery PyNone 2 (PyStr "application/json") (Amqp.Text raw).

(** A worker that always ends by raising [e] and leaves the content alone. *)
Definition failing (e : exn) (content : content_t) : Amqp.work_run :=
  Amqp.Run [] content (Raise e).

Definition not_found : exn := mk_exn NotFoundInInbox "NotFoundInInbox" "/a/b.c4gh".
Definition bad_json : exn := mk_exn JSONDecodeError "JSONDecodeError" "Expecting value".
Definition interrupt : exn := mk_exn KeyboardInterrupt "KeyboardInterrupt" EmptyString.
Definition vault_down : exn := mk_exn (OtherException "OSError") "OSError" "vault is read-only".
Definition no_filepath : exn :=
  mk_exn TypeError "TypeError" "list indices must be integers or slices, not str".

(** No routing key configured, and the [error] option set. *)
Definition plain : Config.conf := Config.Conf (<["queue" := "files"]> ∅) ∅.
Definition with_error_option : Config.conf :=
  Config.Conf (<["queue" := "files"]> (<["error" := "my.errors"]> ∅)) ∅.

Definition plain_routing : Amqp.routing :=
  Amqp.Routing "ingestion.v1" "files" "error.system" "error".

(** ** The pipeline's collaborators *)

(** A database that hands out the id 7. *)
Definition db : Ingest.DB :=
  Ingest.Gateway (fun _ _ => Ok 7) (fun _ => Ok tt) (fun _ _ _ _ => Ok tt) (fun _ _ => Ok tt).

Definition vault : Ingest.Storage :=
  Ingest.Vault (fun _ => Ok "/vault/7") (fun _ _ => Ok 876).

(** An inbox under [/inbox/%s] that holds every file, and one that holds
    none. *)
Definition inbox (present : bool) : Ingest.Inbox :=
  Ingest.Sys
    (fun v => match v with
              | VJson (JStr s) => Ok s
              | _ => Raise (mk_exn TypeError "TypeError" "expected str")
              end)
    (fun user_id => Ok ("/inbox/" +:+ user_id))
    (fun a b => a +:+ "/" +:+ b)
    (fun _ => present)
    (fun _ => Ok tt)
    (fun _ => Ok ("crypt4gh", "HDR")).

(** What [main] hands to [work] for its [channel], a channel object, and a
    caller that hands it the name of an exchange. *)
Definition channel : pyarg := PyObj "channel".
Definition exchange_name : pyarg := PyStr "lega".

(** The happy path of the sample request, for the caller that names an
    exchange. *)
Definition happy : res loc * Ingest.istate :=
  Ingest.work plain db (inbox true) vault exchange_name 0%nat
    (Ingest.received request (PyStr "cid-1")).

(** The same request, with everything in place, under the channel object. *)
Definition refused : res loc * Ingest.istate :=
  Ingest.work plain db (inbox true) vault channel 0%nat
    (Ingest.received request (PyStr "cid-1")).

(** The same request when the inbox is empty. *)
Definition missing : res loc * Ingest.istate :=
  Ingest.work plain db (inbox false) vault channel 0%nat
    (Ingest.received request (PyStr "cid-1")).

(** The reply on the happy path. *)
Definition archived : json :=
  JDict (<["vault_path" := JStr "/vault/7"]>
         (<["header" := JStr "6372797074346768484452"]>
         (<["org_msg" := JDict (<["file_id" := JInt 7]> request)]>
         (<["file_id" := JInt 7]> request)))).

End Samples.

(* ================================================================== *)
(** * The connection manager ([AMQPConnection], [lega/utils/amqp.py])  *)
(* ================================================================== *)

Module Connection.

(** ** The process name, from [/proc/<pid>/stat] *)

(** [data.find(c)] from an offset: the index of the first occurrence, [-1]
    when there is none. *)
Fixpoint find_from (c : ascii) (data : string) (i : Z) : Z :=
  match data with
  | EmptyString => -1
  | String a data' => if Ascii.eqb a c then i else find_from c data' (i + 1)
  end.

Definition find (c : ascii) (data : string) : Z := find_from c data 0.

(** An index of a slice, brought into [0 .. len]: a negative one counts from
    the end. *)
Definition bound (len i : Z) : Z :=
  if i <? 0 then Z.max (len + i) 0 else Z.min i len.

(** [data[i:j]] *)
Definition slice (i j : Z) (data : string) : string :=
  let len := Z.of_nat (String.length data) in
  let i := bound len i in
  let j := bound len j in
  substring (Z.to_nat i) (Z.to_nat (j - i)) data.

(** Lines 64-66 of [_get_linux_process_name]. *)
Definition process_name (data : string) : string :=
  let lpar := find "(" data in
  let rpar := find ")" data in
  slice (lpar + 1) rpar data.

Definition stat_path (pid : nat) : string :=
  "/proc/" +:+ NilZero.string_of_uint (Nat.to_uint pid) +:+ "/stat".

(** [AMQPConnection._get_linux_process_name] *)
Definition _get_linux_process_name (pid : nat) : M Conf.world string :=
  data ← Conf.open_read (stat_path pid) Conf.rb;
  match data with
  | Conf.SBytes b => ret (process_name b)
  | Conf.SStr s => ret (process_name s)
  end.

(** ** Connections and channels *)

(** A channel, and the connection it was opened on.  Connections and channels
    are numbered by the length of the history at the call that made them. *)
Record channel : Type := Channel {
  of_connection : nat;
  number : nat;
}.

(** The calls into [amqpstorm], in the order they are made. *)
Inductive op : Type :=
  | Dial (params : option string) (ssl : option Amqp.ssl_options_t)
      (attempts interval : option Z)
  | CloseConnection (conn : nat)
  | OpenChannel (conn : nat)
  | Publish (on : channel) (body : json) (correlation_id : pyarg)
      (content_type : string) (delivery_mode : Z) (routing_key exchange : pyarg)
  | Qos (on : channel) (prefetch_count : Z)
  | Consume (on : channel) (queue : string)
  | StartConsuming (on : channel)
  | StopConsuming (on : channel).

(** The library and the broker behind it: how the last call of a history
    ends, and what a connection says of itself after a history. *)
Record library : Type := Library {
  outcome : list op -> res unit;
  is_closed : list op -> nat -> bool;
  is_open : list op -> nat -> bool;
}.

(** The attributes of an [AMQPConnection], the host it reads its
    configuration from, and the calls made so far. *)
Record state : Type := State {
  world : Conf.world;
  conn : option nat;
  pub_channel : option channel;
  pull_channel : option channel;
  connection_params : option string;
  ssl_options : option Amqp.ssl_options_t;
  interval : option Z;
  attempts : option Z;
  history : list op;
}.

(** The class attributes, lines 34-40. *)
Definition fresh (w : Conf.world) : state :=
  State w None None None None None None None [].

Definition set_world (w : Conf.world) (st : state) : state :=
  State w (conn st) (pub_channel st) (pull_channel st) (connection_params st)
    (ssl_options st) (interval st) (attempts st) (history st).
Definition set_conn (k : option nat) (st : state) : state :=
  State (world st) k (pub_channel st) (pull_channel st) (connection_params st)
    (ssl_options st) (interval st) (attempts st) (history st).
Definition set_pub_channel (ch : option channel) (st : state) : state :=
  State (world st) (conn st) ch (pull_channel st) (connection_params st)
    (ssl_options st) (interval st) (attempts st) (history st).
Definition set_pull_channel (ch : option channel) (st : state) : state :=
  State (world st) (conn st) (pub_channel st) ch (connection_params st)
    (ssl_options st) (interval st) (attempts st) (history st).
Definition set_connection_params (p : option string) (st : state) : state :=
  State (world st) (conn st) (pub_channel st) (pull_channel st) p
    (ssl_options st) (interval st) (attempts st) (history st).
Definition set_ssl_options (o : option Amqp.ssl_options_t) (st : state) : state :=
  State (world st) (conn st) (pub_channel st) (pull_channel st) (connection_params st)
    o (interval st) (attempts st) (history st).
Definition set_interval (i : option Z) (st : state) : state :=
  State (world st) (conn st) (pub_channel st) (pull_channel st) (connection_params st)
    (ssl_options st) i (attempts st) (history st).
Definition set_attempts (a : option Z) (st : state) : state :=
  State (world st) (conn st) (pub_channel st) (pull_channel st) (connection_params st)
    (ssl_options st) (interval st) a (history st).
Definition add (o : op) (st : state) : state :=
  State (world st) (conn st) (pub_channel st) (pull_channel st) (connection_params st)
    (ssl_options st) (interval st) (attempts st) (history st ++ [o]).

(** A computation on the host, run by the connection. *)
Definition in_world {A} (m : M Conf.world A) : M state A :=
  fun st => let '(r, w) := m (world st) in (r, set_world w st).

(** [not self.connection_params] *)
Definition unset (params : option string) : bool :=
  match params with
  | None => true
  | Some s => negb (arg_truthy (PyStr s))
  end.

Definition is_amqp_error (cls : exn_class) : bool :=
  match cls with
  | OtherException name =>
      String.eqb name "AMQPChannelError" || String.eqb name "AMQPConnectionError"
  | _ => false
  end.

Definition is_KeyboardInterrupt (cls : exn_class) : bool :=
  match cls with KeyboardInterrupt => true | _ => false end.

Definition no_connection : exn :=
  mk_exn AttributeError "AttributeError" "'NoneType' object has no attribute 'channel'".

(** [sys.exit(code)] *)
Definition system_exit (code : string) : exn :=
  Exn SystemExit code ("SystemExit(" +:+ code +:+ ")") None.

Section Manager.

Variable lib : library.
Variable rt : Amqp.runtime.
Variable c : Config.conf.
Variable conf_section : string.

(** A call into the library: it is recorded, then it returns or raises. *)
Definition call (o : op) : M state unit :=
  modify (add o) ;;
  st ← get;
  lift (outcome lib (history st)).

(** [AMQPConnection.fetch_args], assigning the attributes as it goes. *)
Definition fetch_args : M state unit :=
  params ← in_world (Amqp.connection_uri c conf_section);
  i ← lift (Config.getint (Amqp.int rt) c conf_section "try_interval" 1);
  modify (set_interval (Some i)) ;;
  a ← lift (Config.getint (Amqp.int rt) c conf_section "try" 30);
  modify (set_attempts (Some a)) ;;
  modify (set_connection_params (Some params)) ;;
  if startswith "amqps" params then
    o ← lift (Amqp.tls_options rt c conf_section);
    modify (set_ssl_options (Some o))
  else ret tt.

(** [AMQPConnection.close] *)
Definition close : M state unit :=
  st ← get;
  match conn st with
  | Some k => if is_open lib (history st) k then call (CloseConnection k) else ret tt
  | None => ret tt
  end ;;
  modify (set_conn None).

(** Lines 125-136 of [connect]: read the arguments unless they are there,
    then dial. *)
Definition establish : M state unit :=
  st ← get;
  (if unset (connection_params st) then fetch_args else ret tt) ;;
  st ← get;
  call (Dial (connection_params st) (ssl_options st) (attempts st) (interval st)) ;;
  modify (set_conn (Some (length (history st)))).

(** [AMQPConnection.connect] *)
Definition connect (force : bool) : M state unit :=
  (if force then close else ret tt) ;;
  st ← get;
  match conn st with
  | Some k => if is_closed lib (history st) k then close ;; establish else ret tt
  | None => establish
  end.

(** [self.conn.channel()] *)
Definition open_channel : M state channel :=
  st ← get;
  match conn st with
  | Some k => call (OpenChannel k) ;; ret (Channel k (length (history st)))
  | None => raise no_connection
  end.

(** [AMQPConnection.publish]; [content] is what [json.dumps] makes of the
    content object, [None] when it finds a circular reference. *)
Definition publish (content : option json) (exchange routing_key correlation_id : pyarg)
  : M state unit :=
  connect false ;;
  st ← get;
  ch ← match pub_channel st with
       | None => ch ← open_channel; modify (set_pub_channel (Some ch)) ;; ret ch
       | Some ch => ret ch
       end;
  match content with
  | Some body =>
      call (Publish ch body correlation_id "application/json" 2 routing_key exchange)
  | None => raise Amqp.circular
  end.

(** The [try] block of [AMQPConnection.consume], lines 169-175. *)
Definition subscribe (queue : string) : M state unit :=
  connect false ;;
  st ← get;
  ch ← match pull_channel st with
       | None => ch ← open_channel; modify (set_pull_channel (Some ch)) ;; ret ch
       | Some ch => ret ch
       end;
  call (Qos ch 1) ;;
  call (Consume ch queue) ;;
  call (StartConsuming ch).

(** One turn of the loop of [AMQPConnection.consume]: [true] to go round
    again, [false] after [break]. *)
Definition turn (queue : string) : M state bool :=
  try_except (subscribe queue ;; ret true)
    (fun e =>
       if is_amqp_error (exn_cls e) then Some (close ;; ret true)
       else if is_KeyboardInterrupt (exn_cls e) then
         Some (st ← get;
               match pull_channel st with
               | Some ch => call (StopConsuming ch)
               | None => ret tt
               end ;;
               close ;;
               ret false)
       else None).

(** [AMQPConnection.consume]: [while True] for a number of turns.  [Some tt]
    when the loop was left, [None] when it is still going. *)
Fixpoint consume (turns : nat) (queue : string) : M state (option unit) :=
  match turns with
  | O => ret None
  | S turns' =>
      again ← turn queue;
      if again : bool then consume turns' queue else ret (Some tt)
  end.

(** Lines 230-233 and 281-287 of the module's [consume]: read the routing
    configuration, run the loop, and bail out on an exception. *)
Definition serve (turns : nat) : M state (option unit) :=
  r ← lift (Amqp.read_routing c);
  try_except (consume turns (Amqp.from_queue r))
    (fun e => if is_Exception (exn_cls e)
              then Some (close ;; raise (system_exit "2"))
              else None).

End Manager.

(** The channel a call is made on. *)
Definition channel_of (o : op) : option channel :=
  match o with
  | Publish ch _ _ _ _ _ _ | Qos ch _ | Consume ch _
  | StartConsuming ch | StopConsuming ch => Some ch
  | _ => None
  end.

Definition same_channel (ch ch' : channel) : bool :=
  Nat.eqb (of_connection ch) (of_connection ch') && Nat.eqb (number ch) (number ch').

(** The calls that make and close connections. *)
Definition connection_call (o : op) : bool :=
  match o with
  | Dial _ _ _ _ | CloseConnection _ => true
  | _ => false
  end.

(** A call that opens no channel and uses none but [ch]. *)
Definition only_on (ch : channel) (o : op) : bool :=
  match o with
  | OpenChannel _ => false
  | _ => match channel_of o with
         | Some ch' => same_channel ch ch'
         | None => true
         end
  end.

(** Every [basic.consume] of a history comes right after a [basic.qos] with
    a prefetch count of one on the same channel. *)
Fixpoint one_at_a_time (previous : option op) (t : list op) : bool :=
  match t with
  | [] => true
  | o :: t' =>
      match o with
      | Consume ch _ =>
          match previous with
          | Some (Qos ch' n) => same_channel ch ch' && (n =? 1)
          | _ => false
          end
      | _ => true
      end && one_at_a_time (Some o) t'
  end.

End Connection.

(* ================================================================== *)
(** * The database calls ([src/lega/utils/db.py])                      *)
(* ================================================================== *)

Module Db.

(** The values handed to and returned by the database. *)
Inductive value : Type :=
  | VNone
  | VInt (n : Z)
  | VStr (s : string)
  | VBool (b : bool).

Definition value_truthy (v : value) : bool :=
  match v with
  | VNone => false
  | VInt n => negb (n =? 0)
  | VStr s => negb (String.eqb s EmptyString)
  | VBool b => b
  end.

Inductive Status : Type := Received | In_Progress | Completed | Archived | Error.

(** [Status.<member>.value] *)
Definition Status_value (s : Status) : string :=
  match s with
  | Received => "Received"
  | In_Progress => "In progress"
  | Completed => "Completed"
  | Archived => "Archived"
  | Error => "Error"
  end.

Definition row : Type := list value.

(** The calls into [psycopg2], in the order they are made; a connection is
    numbered by the length of the history at the call that made it. *)
Inductive call : Type :=
  | Connect (user password database host : string) (port : Z)
  | Cursor (conn : nat)
  | Execute (conn : nat) (query : string) (params : list (string * value))
  | Leave (conn : nat) (failed : bool).

(** The server and the driver: how the last call of a history ends, with the
    rows of its result set; Python's [int]; [socket.gethostname()]. *)
Record server : Type := Server {
  reply : list call -> res (list row);
  int : string -> option Z;
  hostname : string;
}.

(** The module globals and the calls made so far. *)
Record state : Type := State {
  DB_CONNECTION : option nat;
  calls : list call;
}.

Definition add (o : call) (st : state) : state :=
  State (DB_CONNECTION st) (calls st ++ [o]).
Definition set_DB_CONNECTION (k : nat) (st : state) : state :=
  State (Some k) (calls st).

(** [error.__class__.__name__] *)
Definition class_name (c : exn_class) : string :=
  match c with
  | RejectMessage => "RejectMessage"
  | FromUser => "FromUser"
  | NotFoundInInbox => "NotFoundInInbox"
  | FromUserSubclass name => name
  | JSONDecodeError => "JSONDecodeError"
  | AssertionError => "AssertionError"
  | TypeError => "TypeError"
  | KeyError => "KeyError"
  | AttributeError => "AttributeError"
  | ValueError => "ValueError"
  | UnicodeDecodeError => "UnicodeDecodeError"
  | FileNotFoundError => "FileNotFoundError"
  | PermissionError => "PermissionError"
  | NoSectionError => "NoSectionError"
  | NoOptionError => "NoOptionError"
  | OtherException name => name
  | KeyboardInterrupt => "KeyboardInterrupt"
  | SystemExit => "SystemExit"
  end.

Definition not_subscriptable : exn :=
  mk_exn TypeError "TypeError" "'NoneType' object is not subscriptable".
Definition out_of_range : exn :=
  Exn (OtherException "IndexError") "tuple index out of range"
    "IndexError('tuple index out of range')" None.

(** [d[key]] on a dictionary of the caller. *)
Definition subscript (d : gmap string value) (key : string) : res value :=
  match d !! key with
  | Some v => Ok v
  | None => Raise (Exn KeyError (quote key) ("KeyError(" +:+ quote key +:+ ")") None)
  end.

(** [assert v, msg] *)
Definition assert {St} (v : bool) (msg : string) : M St unit :=
  if v then ret tt else raise (assertion_error msg).

(** The results of the functions of the module. *)
Inductive result : Type :=
  | Nothing
  | Scalar (v : value)
  | OneRow (r : option row)
  | Rows (rs : list row).

(** The functions of the module, with their arguments. *)
Inductive request : Type :=
  | insert_file (filename : value) (enc_checksum org_checksum : gmap string value)
      (user_id : value)
  | set_progress (file_id staging_name : value)
  | set_error (file_id : value) (error : option exn)
  | get_errors (from_user : value)
  | set_encryption (file_id info digest : value)
  | finalize_file (file_id stable_id filesize : value)
  | get_details (file_id : value)
  | insert_user (elixir_id password_hash pubkey : value)
  | set_user_error (user_id : value) (error : option exn)
  | get_user (elixir_id : value).

Section Calls.

Variable srv : server.
Variable c : Config.conf.

(** A call into the driver: it is recorded, then it returns or raises. *)
Definition perform (o : call) : M state (list row) :=
  modify (add o) ;;
  st ← get;
  lift (reply srv (calls st)).

(** [cache_var(v)(func)]: [func] runs when the global is not there, and what
    it returns is kept. *)
Definition cache_var {A} (global : state -> option A) (assign : A -> state -> state)
    (func : M state A) : M state A :=
  g ← get;
  match global g with
  | Some v => ret v
  | None => v ← func; modify (assign v) ;; ret v
  end.

(** [CONF.getint(section, option)], with no fallback. *)
Definition getint (section opt : string) : res Z :=
  v ← Config.get c section opt;
  match int srv v with
  | Some n => Ok n
  | None => Raise (mk_exn ValueError "ValueError"
                     ("invalid literal for int() with base 10: " +:+ quote v))
  end.

(** [connect()] *)
Definition connect : M state nat :=
  cache_var DB_CONNECTION set_DB_CONNECTION
    (user ← lift (Config.get c "db" "username");
     password ← lift (Config.get c "db" "password");
     database ← lift (Config.get c "db" "dbname");
     host ← lift (Config.get c "db" "host");
     port ← lift (getint "db" "port");
     st ← get;
     perform (Connect user password database host port) ;;
     ret (length (calls st))).

(** Leaving [with conn:] after its body: the connection is told whether the
    body failed, and an exception of the leaving replaces the outcome of the
    body. *)
Definition leaving {A} (conn : nat) (body : M state A) : M state A :=
  fun st =>
    let '(r, st') := body st in
    let failed := match r with Ok _ => false | Raise _ => true end in
    match perform (Leave conn failed) st' with
    | (Ok _, st'') => (r, st'')
    | (Raise e, st'') => (Raise e, st'')
    end.

(** [with connect() as conn: with conn.cursor() as cur: body] *)
Definition with_cursor {A} (body : nat -> M state A) : M state A :=
  conn ← connect;
  leaving conn (perform (Cursor conn) ;; body conn).

(** [(cur.fetchone())[0]] *)
Definition first_column (rows : list row) : res value :=
  match rows with
  | [] => Raise not_subscriptable
  | [] :: _ => Raise out_of_range
  | (v :: _) :: _ => Ok v
  end.

(** [f"[{hostname}][{error.__class__.__name__}] {error!s}"] *)
Definition error_message (error : exn) : string :=
  "[" +:+ hostname srv +:+ "][" +:+ class_name (exn_cls error) +:+ "] " +:+ exn_str error.

(** [f"{error.__class__.__name__}: {error!s}"] *)
Definition user_error_message (error : exn) : string :=
  class_name (exn_cls error) +:+ ": " +:+ exn_str error.

(** The body of each function of the module. *)
Definition serve (r : request) : M state result :=
  match r with
  | insert_file filename enc_checksum org_checksum user_id =>
      with_cursor (fun conn =>
        enc_hash ← lift (subscript enc_checksum "hash");
        enc_algo ← lift (subscript enc_checksum "algorithm");
        org_hash ← lift (subscript org_checksum "hash");
        org_algo ← lift (subscript org_checksum "algorithm");
        rows ← perform (Execute conn
          "SELECT insert_file(%(filename)s,%(user_id)s,%(enc_checksum)s,%(enc_checksum_algo)s,%(org_checksum)s,%(org_checksum_algo)s,%(status)s);"
          [("filename", filename); ("user_id", user_id);
           ("enc_checksum", enc_hash); ("enc_checksum_algo", enc_algo);
           ("org_checksum", org_hash); ("org_checksum_algo", org_algo);
           ("status", VStr (Status_value Received))]);
        v ← lift (first_column rows);
        ret (Scalar v))
  | set_progress file_id staging_name =>
      assert (value_truthy file_id) "Eh? No file_id?" ;;
      assert (value_truthy staging_name) "Eh? No staging name?" ;;
      with_cursor (fun conn =>
        perform (Execute conn
          "UPDATE files SET status = %(status)s, staging_name = %(name)s WHERE id = %(file_id)s;"
          [("status", VStr (Status_value In_Progress)); ("file_id", file_id);
           ("name", staging_name)]) ;;
        ret Nothing)
  | set_error file_id error =>
      assert (value_truthy file_id) "Eh? No file_id?" ;;
      match error with
      | None => raise (assertion_error "Eh? No error?")
      | Some error =>
          let from_user := is_FromUser (exn_cls error) in
          with_cursor (fun conn =>
            perform (Execute conn
              "SELECT insert_error(%(file_id)s,%(msg)s,%(from_user)s);"
              [("msg", VStr (error_message error)); ("file_id", file_id);
               ("from_user", VBool from_user)]) ;;
            ret Nothing)
      end
  | get_errors from_user =>
      let query := if value_truthy from_user
                   then "SELECT * from errors WHERE from_user = true;"
                   else "SELECT * from errors;" in
      with_cursor (fun conn =>
        rows ← perform (Execute conn query []);
        ret (Rows rows))
  | set_encryption file_id info digest =>
      assert (value_truthy file_id) "Eh? No file_id?" ;;
      with_cursor (fun conn =>
        perform (Execute conn
          "UPDATE files SET reenc_info = %(reenc_info)s, reenc_checksum = %(digest)s, status = %(status)s WHERE id = %(file_id)s;"
          [("reenc_info", info); ("file_id", file_id); ("digest", digest);
           ("status", VStr (Status_value Completed))]) ;;
        ret Nothing)
  | finalize_file file_id stable_id filesize =>
      assert (value_truthy file_id) "Eh? No file_id?" ;;
      assert (value_truthy stable_id) "Eh? No stable_id?" ;;
      with_cursor (fun conn =>
        perform (Execute conn
          "UPDATE files SET status = %(status)s, stable_id = %(stable_id)s, reenc_size = %(filesize)s WHERE id = %(file_id)s;"
          [("stable_id", stable_id); ("file_id", file_id);
           ("status", VStr (Status_value Archived)); ("filesize", filesize)]) ;;
        ret Nothing)
  | get_details file_id =>
      with_cursor (fun conn =>
        rows ← perform (Execute conn
          "SELECT filename, org_checksum, org_checksum_algo, stable_id, reenc_checksum from files WHERE id = %(file_id)s;"
          [("file_id", file_id)]);
        ret (OneRow (head rows)))
  | insert_user elixir_id password_hash pubkey =>
      with_cursor (fun conn =>
        rows ← perform (Execute conn
          "SELECT insert_user(%(eid)s,%(ph)s,%(pk)s);"
          [("eid", elixir_id); ("ph", password_hash); ("pk", pubkey)]);
        v ← lift (first_column rows);
        ret (Scalar v))
  | set_user_error user_id error =>
      assert (value_truthy user_id) "Eh? No user_id?" ;;
      match error with
      | None => raise (assertion_error "Eh? No error?")
      | Some error =>
          with_cursor (fun conn =>
            perform (Execute conn
              "SELECT insert_user_error(%(user_id)s,%(msg)s);"
              [("msg", VStr (user_error_message error)); ("user_id", user_id)]) ;;
            ret Nothing)
      end
  | get_user elixir_id =>
      with_cursor (fun conn =>
        rows ← perform (Execute conn
          "SELECT id FROM users WHERE elixir_id = (%(elixir_id)s);"
          [("elixir_id", elixir_id)]);
        v ← lift (first_column rows);
        ret (Scalar v))
  end.

(** A caller that makes one request after the other and carries on when one
    raises. *)
Fixpoint serve_all (rs : list request) (st : state) : list (res result) * state :=
  match rs with
  | [] => ([], st)
  | r :: rs' =>
      let '(x, st') := serve r st in
      let '(xs, st'') := serve_all rs' st' in
      (x :: xs, st'')
  end.

End Calls.

(** A call on the connection [k] that makes no connection. *)
Definition on_connection (k : nat) (o : call) : bool :=
  match o with
  | Connect _ _ _ _ _ => false
  | Cursor k' | Execute k' _ _ | Leave k' _ => Nat.eqb k k'
  end.

End Db.

(* ================================================================== *)
(** * The bootstrap helper ([deploy/bootstrap/run/lega/backup.py])     *)
(* ================================================================== *)

Module Bootstrap.

(** The options of the command line as [docopt] hands them over: a text, or
    [None] for an option that was not given. *)
Record arguments : Type := Arguments {
  secrets : pyarg;
  queue : pyarg;
  destination : pyarg;
  routing_key : pyarg;
}.

(** [str(value)]: how [config.write] renders a value. *)
Definition str (a : pyarg) : string :=
  match a with
  | PyNone => "None"
  | PyStr s => s
  | PyObj name => name
  end.

(** Lines 43-45 and 57-59: the path of a docker secret, or the connection
    and its parameters from the section [service] of [conf]. *)
Definition connection (conf : Config.conf) (with_docker_secrets : pyarg)
    (service : string) : res string :=
  if arg_truthy with_docker_secrets then
    Ok ("secret:///run/secrets/" +:+ service +:+ ".connection")
  else
    a ← Config.get conf service "connection";
    b ← Config.get conf service "connection_params";
    Ok (a +:+ "?" +:+ b).

(** [main(conf, args)]: the sections and options it writes to the standard
    output. *)
Definition main (conf : Config.conf) (args : arguments) : res Config.conf :=
  let with_docker_secrets := secrets args in
  let DEFAULT : gmap string string :=
    <["queue" := str (queue args)]>
    (<["exchange" := "lega"]>
    (<["routing_key" := str (routing_key args)]> ∅)) in
  let destination_section : gmap string string :=
    <["location" := str (destination args)]> ∅ in
  mq_connection ← connection conf with_docker_secrets "mq";
  let broker : gmap string string :=
    <["connection" := mq_connection]>
    (<["enable_ssl" := "yes"]>
    (<["verify_peer" := "yes"]>
    (<["verify_hostname" := "no"]>
    (<["cacertfile" := "/etc/ega/CA.cert"]>
    (<["certfile" := "/etc/ega/ssl.cert"]>
    (<["keyfile" := "/etc/ega/ssl.key"]> ∅)))))) in
  db_connection ← connection conf with_docker_secrets "db";
  let db : gmap string string :=
    <["connection" := db_connection]>
    (<["try" := "30"]>
    (<["try_interval" := "1"]> ∅)) in
  Ok (Config.Conf DEFAULT
        (<["destination" := destination_section]>
        (<["broker" := broker]>
        (<["db" := db]> ∅)))).

End Bootstrap.

(* ================================================================== *)
(** * The configuration object ([Configuration], [conf/__init__.py])   *)
(* ================================================================== *)

Module Settings.

(** What the module finds on its host: the two environment variables read
    at import, the tests on paths, and the parsers of the configuration file
    and of the logging settings. *)
Record host : Type := Host {
  CONF_FILE : string;
  LOG_FILE : option string;
  isfile : string -> bool;
  access : string -> bool;
  path_exists : string -> bool;
  default_logger : string -> string;
  suffix : string -> string;
  read : string -> res Config.conf;
  dictConfig : string -> res unit;
  fileConfig : string -> res unit;
}.

(** A [Configuration]: the settings it parsed and its attribute [logger]. *)
Record configuration : Type := Configuration {
  settings : Config.conf;
  logger : option string;
}.

Definition warn (msg : string) : M (list string) unit :=
  modify (fun ws => ws ++ [msg]).

(** [assert(filename)] *)
Definition no_filename : exn :=
  Exn AssertionError EmptyString "AssertionError()" None.

(** [Configuration._load_log(filename)] *)
Definition _load_log (h : host) (filename : string) : res string :=
  if String.eqb filename EmptyString then Raise no_filename
  else
    let _logger := default_logger h filename in
    if path_exists h _logger then
      dictConfig h _logger ;; Ok _logger
    else if negb (path_exists h filename) then
      Raise (mk_exn ValueError "ValueError"
               ("The file '" +:+ filename +:+ "' does not exist"))
    else if String.eqb (suffix h filename) ".yaml" || String.eqb (suffix h filename) ".yml"
    then dictConfig h filename ;; Ok filename
    else if String.eqb (suffix h filename) ".ini" || String.eqb (suffix h filename) ".INI"
    then fileConfig h filename ;; Ok filename
    else Raise (mk_exn ValueError "ValueError" ("Unsupported log format for " +:+ filename)).

(** [Configuration.__init__]; the state is the list of warnings. *)
Definition __init__ (h : host) : M (list string) configuration :=
  settings ←
    (if negb (arg_truthy (PyStr (CONF_FILE h)))
        || negb (isfile h (CONF_FILE h))
        || negb (access h (CONF_FILE h))
     then warn "No configuration settings found" ;; ret (Config.Conf ∅ ∅)
     else lift (read h (CONF_FILE h)));
  (if arg_truthy (of_option (LOG_FILE h)) then
     try_except
       (lift (_load_log h (default EmptyString (LOG_FILE h))) ;; ret tt)
       (fun e =>
          if is_Exception (exn_cls e) then
            Some (warn ("No logging supplied: " +:+ exn_repr e) ;;
                  match exn_cause e with
                  | Some cause => warn ("Cause: " +:+ exn_repr cause)
                  | None => ret tt
                  end)
          else None)
   else warn "No logging supplied") ;;
  ret (Configuration settings None).

(** [Configuration.__repr__] *)
Definition __repr__ (h : host) (self : configuration) : string :=
  let res := "Configuration file: " +:+ CONF_FILE h in
  match logger self with
  | Some l =>
      if arg_truthy (PyStr l)
      then res +:+ String (ascii_of_nat 10) "Logging settings loaded from " +:+ l
      else res
  | None => res
  end.

End Settings.

(* ================================================================== *)
(** * Further vocabulary and sample inputs                             *)
(* ================================================================== *)

Module Notions.

(** The content [process_request] works on, lines 245-249: the parsed body
    for a JSON delivery, the body itself otherwise. *)
Definition decoded (loads : Amqp.payload -> res json) (message : Amqp.Message)
  : res content_t :=
  match Amqp.content_type message with
  | PyStr "application/json" => Doc <$> loads (Amqp.body message)
  | _ => Ok (Amqp.as_content (Amqp.body message))
  end.

(** Whether a delivery was acked or rejected. *)
Definition settled (t : list event) : bool := Observe.acked t || Observe.rejected t.

(** The messages published in a trace. *)
Definition published (t : list event) : list json :=
  omap (fun ev => match ev with EvPublish b _ _ _ => Some b | _ => None end) t.

(** [bytes.fromhex]: the bytes a text of hexadecimal digits stands for.  A
    digit is worth its distance from [0], [a] or [A] in the ASCII table. *)
Definition hex_value (a : ascii) : option nat :=
  let n := nat_of_ascii a in
  if Nat.leb 48 n && Nat.leb n 57 then Some (n - 48)%nat
  else if Nat.leb 97 n && Nat.leb n 102 then Some (n - 87)%nat
  else if Nat.leb 65 n && Nat.leb n 70 then Some (n - 55)%nat
  else None.

Fixpoint unhex (s : string) : option string :=
  match s with
  | EmptyString => Some EmptyString
  | String a (String b s') =>
      hi ← hex_value a; lo ← hex_value b; rest ← unhex s';
      Some (String (ascii_of_nat (16 * hi + lo)) rest)
  | String _ EmptyString => None
  end.

(** The calls a trace holds after its first [set_info]. *)
Fixpoint after_set_info (t : list event) : list event :=
  match t with
  | [] => []
  | EvSetInfo _ _ _ _ :: t' => t'
  | _ :: t' => after_set_info t'
  end.

(** The configuration with one more option in a section. *)
Definition with_option (c : Config.conf) (section opt value : string) : Config.conf :=
  Config.Conf (Config.defaults c)
    (<[section := <[opt := value]> (default ∅ (Config.sections c !! section))]>
       (Config.sections c)).

End Notions.

Module Cases.

(** A host whose broker URI sits in a file that everybody may read. *)
Definition shared_url : Conf.file := Conf.File 420 "amqp://guest@mq/" true true.

Definition shared_host : Conf.world :=
  Conf.World ∅ (<["/etc/ega/mq.url" := shared_url]> ∅) Samples.ascii_codec [] [] [].

(** Deliveries with nothing to do, one that is no JSON, and one with an
    empty payload, which [amqpstorm] hands over as [bytes]. *)
Definition empty_object : Amqp.Message :=
  Amqp.Delivery (PyStr "cid-4") 4 (PyStr "application/json") (Amqp.Text "{}").
Definition broken : Amqp.Message :=
  Amqp.Delivery PyNone 5 (PyStr "application/json") (Amqp.Text "{not json").
Definition empty_payload : Amqp.Message :=
  Amqp.Delivery (PyStr "cid-6") 6 (PyStr "application/json") (Amqp.Bytes EmptyString).

Definition loads (body : Amqp.payload) : res json :=
  match body with
  | Amqp.Text "{}" => Ok (JDict ∅)
  | _ => Samples.loads body
  end.

(** A worker that returns what it was given, and one that asks for a
    requeue. *)
Definition succeeding (content : content_t) : Amqp.work_run :=
  Amqp.Run [] content (Ok (match content with Doc j => j | Raw _ => JNull end)).
Definition requeue : exn := mk_exn RejectMessage "RejectMessage" "not for me".

(** A broker section whose URI is read from the shared file. *)
Definition plain_broker : Config.conf :=
  Config.Conf (<["queue" := "files"]> ∅)
    {[ "broker" := <["connection" := "file:///etc/ega/mq.url"]> ∅ ]}.

(** Libraries: one where every call returns and connections stay open, one
    whose connection is closed once three calls were made, one where
    consuming is interrupted from the keyboard, and one that fails every
    call. *)
Definition steady : Connection.library :=
  Connection.Library (fun _ => Ok tt) (fun _ _ => false) (fun _ _ => true).
Definition dropping : Connection.library :=
  Connection.Library (fun _ => Ok tt)
    (fun h _ => Nat.eqb (length h) 3) (fun h _ => negb (Nat.eqb (length h) 3)).
Definition interrupted : Connection.library :=
  Connection.Library
    (fun h => match last h with
              | Some (Connection.StartConsuming _) => Raise Samples.interrupt
              | _ => Ok tt
              end)
    (fun _ _ => false) (fun _ _ => true).
Definition failing : Connection.library :=
  Connection.Library (fun _ => Raise Samples.vault_down) (fun _ _ => false) (fun _ _ => true).

(** A manager that knows its arguments and has a pull channel. *)
Definition subscribed : Connection.state :=
  Connection.State shared_host None None (Some (Connection.Channel 0 1))
    (Some "amqp://guest@mq/") None (Some 1) (Some 30) [].

(** A database server that answers every call with no rows, and a module
    that is connected to it. *)
Definition postgres : Db.server := Db.Server (fun _ => Ok []) (fun _ => Some 5432) "worker-1".
Definition connected : Db.state :=
  Db.State (Some 0%nat) [Db.Connect "lega" "pw" "lega" "db" 5432].

(** A command line with docker secrets. *)
Definition with_secrets : Bootstrap.arguments :=
  Bootstrap.Arguments (PyStr "/run/secrets") (PyStr "files") (PyStr "vault")
    (PyStr "archived").

(** What the bootstrap helper writes for that command line. *)
Definition generated : Config.conf :=
  match Bootstrap.main Samples.plain with_secrets with
  | Ok cfg => cfg
  | Raise _ => Samples.plain
  end.

End Cases.

(* ================================================================== *)
(** * Running the monad in proofs                                      *)
(* ================================================================== *)

(** Unfold the monad until a run is a plain case analysis. *)
Ltac run_py :=
  repeat (progress (unfold mbind, M_bind, bind, mret, M_ret, ret, raise, get, modify,
                      lift, try_except, try_finally, emit; simpl)).

(* ================================================================== *)
(** * Properties of the sensitive-value resolver                       *)
(* ================================================================== *)

Section Resolver.

Import Conf Observe.

Lemma startswith_app (p s : string) : startswith p (p +:+ s) = true.
Proof.
  induction p as [|a p IH]; simpl; [reflexivity|].
  rewrite Ascii.eqb_refl. exact IH.
Qed.

Lemma str_drop_app (p s : string) : str_drop (String.length p) (p +:+ s) = s.
Proof. induction p as [|a p IH]; simpl; [reflexivity | exact IH]. Qed.

(** C5.  For every string [X], whatever it starts with, resolving
    ["value://" + X] returns exactly [X]; the [value://] test comes first, so
    no environment variable is read, no file is looked at, read or removed,
    and nothing is logged or warned about. *)
Theorem value_scheme_is_literal (X : string) (w : world) :
  convert_sensitive (Some ("value://" +:+ X)) w = (Ok (Some (SStr X)), w).
Proof.
  unfold convert_sensitive.
  rewrite (startswith_app "value://" X).
  change 8%nat with (String.length "value://").
  rewrite str_drop_app. reflexivity.
Qed.

(** The escape hatch at work: a literal that looks like another scheme. *)
Example value_scheme_shadows_secret :
  convert_sensitive (Some "value://secret:///run/secrets/mq.connection") Samples.host
  = (Ok (Some (SStr "secret:///run/secrets/mq.connection")), Samples.host).
Proof. reflexivity. Qed.

Lemma get_from_file_keep (w : world) (path : string) (mode : open_mode) :
  get_from_file path mode false w
  = (read_result w path mode,
     World (env w) (fs w) (decode w) (calls w ++ [SysOpen path mode]) (log w) (warnings w)).
Proof.
  destruct w as [e f d c l wr].
  unfold get_from_file, read_result, try_finally, try_except, open_read,
    called, modify, get, mbind, M_bind, bind, ret, raise.
  simpl.
  destruct (f !! path) as [fl|]; simpl; [|reflexivity].
  destruct (readable fl); simpl; [|reflexivity].
  destruct mode; simpl; [reflexivity|].
  destruct (d (content fl)); reflexivity.
Qed.

Lemma get_from_file_remove (w : world) (path : string) (mode : open_mode) :
  get_from_file path mode true w
  = (read_result w path mode,
     World (env w)
       (if can_remove w path then delete path (fs w) else fs w)
       (decode w)
       (calls w ++ [SysOpen path mode; SysRemove path])
       (if can_remove w path then log w
        else log w ++ [LogWarning "Could not remove %s" path])
       (warnings w)).
Proof.
  destruct w as [e f d c l wr].
  unfold get_from_file, read_result, can_remove, try_finally, try_except, open_read,
    os_remove, called, logged, unlink, modify, get, mbind, M_bind, bind, ret, raise.
  simpl.
  destruct (f !! path) as [fl|] eqn:E; simpl.
  - destruct (readable fl); simpl.
    + destruct mode; simpl.
      * rewrite E. destruct (removable fl); simpl; rewrite <- ?app_assoc; reflexivity.
      * destruct (d (content fl)); simpl; rewrite E;
          destruct (removable fl); simpl; rewrite <- ?app_assoc; reflexivity.
    + rewrite E. destruct (removable fl); simpl; rewrite <- ?app_assoc; reflexivity.
  - rewrite E. simpl. rewrite <- ?app_assoc. reflexivity.
Qed.

Lemma read_result_class (w : world) (path : string) (mode : open_mode) (e : exn) :
  read_result w path mode = Raise e -> exn_cls e = ValueError.
Proof.
  unfold read_result.
  destruct (fs w !! path) as [f|]; [destruct (readable f); [destruct mode|]|];
    try destruct (decode w (content f)); intros H; inversion H; reflexivity.
Qed.

(** The [secret://] branch, as one equation. *)
Lemma secret_scheme_run (PATH : string) (w : world) :
  convert_sensitive (Some ("secret://" +:+ PATH)) w
  = (v ← read_result w PATH rb; Ok (Some v),
     World (env w)
       (if can_remove w PATH then delete PATH (fs w) else fs w)
       (decode w)
       (calls w ++ [SysOpen PATH rb; SysRemove PATH])
       (log w ++ LogDebug "Loading secret from path: %s" PATH
              :: (if can_remove w PATH then []
                  else [LogWarning "Could not remove %s" PATH]))
       (warnings w)).
Proof.
  unfold convert_sensitive.
  change (startswith "value://" ("secret://" +:+ PATH)) with false.
  change (startswith "env://" ("secret://" +:+ PATH)) with false.
  change (startswith "file://" ("secret://" +:+ PATH)) with false.
  rewrite (startswith_app "secret://" PATH).
  change 9%nat with (String.length "secret://").
  rewrite str_drop_app.
  cbv beta iota.
  unfold mbind at 1 2, M_bind, bind, logged, modify.
  rewrite get_from_file_remove.
  destruct w as [e f d c l wr]; unfold can_remove; simpl.
  destruct (read_result _ PATH rb); simpl;
    (destruct (f !! PATH) as [fl|]; [destruct (removable fl)|]); simpl;
    rewrite <- ?app_assoc; reflexivity.
Qed.

(** C10.  For every path [PATH], resolving ["secret://" + PATH] attempts the
    removal of the file at [PATH] after the attempt to read it, whether the
    read succeeded or not: the two system calls are always the [open] and then
    the [remove].  The outcome is the bytes read, or the [ValueError] of a
    failed read, never an error of the removal; a removal that fails leaves
    the file system as it was and logs one warning. *)
Theorem secret_removal_always_attempted (PATH : string) (w : world) :
  let run := convert_sensitive (Some ("secret://" +:+ PATH)) w in
  calls (snd run) = calls w ++ [SysOpen PATH rb; SysRemove PATH]
  /\ fst run = (v ← read_result w PATH rb; Ok (Some v))
  /\ (forall e, fst run = Raise e -> exn_cls e = ValueError)
  /\ (if can_remove w PATH
      then fs (snd run) = delete PATH (fs w)
           /\ log (snd run) = log w ++ [LogDebug "Loading secret from path: %s" PATH]
      else fs (snd run) = fs w
           /\ log (snd run) = log w ++ [LogDebug "Loading secret from path: %s" PATH;
                                        LogWarning "Could not remove %s" PATH]).
Proof.
  intros run. subst run. rewrite secret_scheme_run. simpl.
  split; [reflexivity|]. split; [reflexivity|]. split.
  - intros e He. destruct (read_result w PATH rb) as [v|e'] eqn:R; simpl in He;
      inversion He; subst. exact (read_result_class _ _ _ _ R).
  - destruct (can_remove w PATH); split; reflexivity.
Qed.

(** A secret nobody may open or unlink: the read fails with [ValueError],
    the removal was tried all the same and only left a warning. *)
Example secret_of_locked_key :
  let run := convert_sensitive (Some "secret:///etc/ega/ssl.key") Samples.host in
  raised run = Some ValueError
  /\ calls (snd run) = [SysOpen "/etc/ega/ssl.key" rb; SysRemove "/etc/ega/ssl.key"]
  /\ log (snd run) = [LogDebug "Loading secret from path: %s" "/etc/ega/ssl.key";
                      LogWarning "Could not remove %s" "/etc/ega/ssl.key"].
Proof. vm_compute. repeat split. Qed.

(** The [file://] branch when the path names a file. *)
Lemma file_scheme_present (PATH : string) (w : world) (f : file) :
  fs w !! PATH = Some f ->
  fst (convert_sensitive (Some ("file://" +:+ PATH)) w)
  = (v ← read_result w PATH rt; Ok (Some v)).
Proof.
  intros Hf. unfold convert_sensitive.
  change (startswith "value://" ("file://" +:+ PATH)) with false.
  change (startswith "env://" ("file://" +:+ PATH)) with false.
  rewrite (startswith_app "file://" PATH).
  change 7%nat with (String.length "file://").
  rewrite str_drop_app.
  cbv beta iota.
  destruct w as [e fsys d c l wr]; simpl in Hf.
  unfold logged, os_stat, called, warn. run_py. rewrite Hf. simpl.
  destruct (negb (Z.land (st_mode f) S_IRGRP =? 0) || negb (Z.land (st_mode f) S_IROTH =? 0));
    simpl; rewrite get_from_file_keep; unfold read_result; simpl; rewrite Hf;
    (destruct (readable f); [destruct (d (content f))|]); reflexivity.
Qed.

(** The [file://] branch when nothing is at the path: [os.stat] raises before
    [get_from_file] is entered, and its error is not wrapped. *)
Lemma file_scheme_missing (PATH : string) (w : world) :
  fs w !! PATH = None ->
  fst (convert_sensitive (Some ("file://" +:+ PATH)) w) = Raise (no_such_file PATH).
Proof.
  intros Hf. unfold convert_sensitive.
  change (startswith "value://" ("file://" +:+ PATH)) with false.
  change (startswith "env://" ("file://" +:+ PATH)) with false.
  rewrite (startswith_app "file://" PATH).
  change 7%nat with (String.length "file://").
  rewrite str_drop_app.
  cbv beta iota.
  destruct w as [e fsys d c l wr]; simpl in Hf.
  unfold logged, os_stat, called, warn. run_py. rewrite Hf. reflexivity.
Qed.

(** C6, at a path with no file.  Resolving ["file:///etc/ega/missing.key"]
    ends with the [FileNotFoundError] of [os.stat], not with the
    [ValueError] that [get_from_file] and the docstring of
    [convert_sensitive] promise; the file is never opened. *)
Theorem file_scheme_missing_file_is_untyped :
  let run := convert_sensitive (Some "file:///etc/ega/missing.key") Samples.host in
  raised run = Some FileNotFoundError
  /\ calls (snd run) = [SysStat "/etc/ega/missing.key"]
  /\ raised (convert_sensitive (Some "secret:///etc/ega/missing.key") Samples.host)
     = Some ValueError.
Proof. vm_compute. repeat split. Qed.

End Resolver.

(* ================================================================== *)
(** * Properties of the dispatcher                                     *)
(* ================================================================== *)

Section Dispatcher.

Import Amqp Observe.

Variable c : Config.conf.
Variable loads : payload -> res json.
Variable work : content_t -> work_run.

(** The content is the JSON object [d]; [work] raises [e] and leaves the
    object as [d']. *)
Variables d d' : gmap string json.
Variable e : exn.
Hypothesis Hleft : run_content (work (JDict d)) = JDict d'.
Hypothesis Hraise : run_outcome (work (JDict d)) = Raise e.

Lemma get_or_is_string (section opt fallback : string) :
  is_string (Config.get_or c section opt (PyStr fallback)) = true.
Proof. unfold Config.get_or. destruct (Config.get c section opt); reflexivity. Qed.

Lemma handle_request_from_user (ex ek : pyarg) (uk : string) (st : dstate) :
  content st = JDict d ->
  is_FromUser (exn_cls e) = true ->
  arg_truthy (cid st) = true ->
  arg_truthy uk = true ->
  _handle_request c work ex ek uk st
  = (Raise e,
     DState (JDict (user_error_body e d')) (cid st)
       (trace st ++ run_events (work (JDict d))
        ++ [EvPublish (JDict (user_error_body e d'))
              (Config.get_or c "DEFAULT" "exchange" (PyStr "ingestion.v1"))
              uk (cid st);
            EvAck])).
Proof.
  intros Hc Hu Hcid Hkey. destruct st as [ct ci tr]; simpl in *; subst ct.
  unfold _handle_request, call_work, ack, reject, publish, connection_publish, setitem,
    clean_content, set_content.
  run_py. rewrite Hraise, Hleft. simpl.
  destruct (is_RejectMessage (exn_cls e)) eqn:Hr.
  { destruct e as [[] ? ? ?]; simpl in *; discriminate. }
  rewrite Hu. unfold py_or. simpl. rewrite Hcid. simpl in Hkey. rewrite Hkey. simpl.
  rewrite get_or_is_string. simpl.
  rewrite <- !app_assoc. reflexivity.
Qed.

Lemma handle_request_passes (ex ek uk : pyarg) (st : dstate) :
  content st = JDict d ->
  is_RejectMessage (exn_cls e) = false ->
  is_FromUser (exn_cls e) = false ->
  _handle_request c work ex ek uk st
  = (Raise e, DState (JDict d') (cid st) (trace st ++ run_events (work (JDict d)))).
Proof.
  intros Hc Hr Hu. destruct st as [ct ci tr]; simpl in *; subst ct.
  unfold _handle_request, call_work, ack, reject.
  run_py. rewrite Hraise, Hleft, Hr, Hu. reflexivity.
Qed.

Variable r : routing.
Variable message : Message.
Hypothesis Htype : content_type message = PyStr "application/json".
Hypothesis Hloads : loads (body message) = Ok (JDict d).
Hypothesis Hfull : truthy (JDict d) = true.

(** [process_request] up to the call of [_handle_request], and from its
    outcome on. *)
Lemma process_request_handles :
  process_request c loads work r message idle
  = (let '(o, st) := _handle_request c work (exchange r) (error_key r) (user_error_key r)
                       (DState (JDict d) (correlation_id message) []) in
     match o with
     | Ok _ => (Ok tt, DState (content st) PyNone (trace st))
     | Raise x =>
         if is_JSONDecodeError (exn_cls x) then
           match content st with
           | Doc j =>
               (Ok tt, DState (content st) PyNone
                         (trace st ++ [EvPublish (malformed x j) (exchange r)
                                         (error_key r) (correlation_id message);
                                       EvReject false]))
           | Raw _ => (Raise not_serializable, DState (content st) PyNone (trace st))
           end
         else if is_Exception (exn_cls x) then
           match content st with
           | Doc (JDict dd) =>
               (Ok tt, DState (JDict (system_error_body x dd)) PyNone
                         (trace st ++ [EvPublish (JDict (system_error_body x dd))
                                         (exchange r) (error_key r) (correlation_id message);
                                       EvReject false]))
           | Doc (JList _) =>
               (Raise (mk_exn TypeError "TypeError"
                         "list indices must be integers or slices, not str"),
                DState (content st) PyNone (trace st))
           | _ =>
               (Raise (mk_exn TypeError "TypeError" "object does not support item assignment"),
                DState (content st) PyNone (trace st))
           end
         else (Raise x, DState (content st) PyNone (trace st))
     end).
Proof.
  unfold process_request, set_cid, set_content, ack, reject, connection_publish, setitem,
    set_content, idle, system_error_body.
  rewrite Htype. run_py. rewrite Hloads. run_py.
  simpl in Hfull. rewrite Hfull. simpl.
  destruct (_handle_request _ _ _ _ _ _) as [[u|x] [ct ci tr]]; simpl.
  - destruct u. reflexivity.
  - destruct (is_JSONDecodeError (exn_cls x)); simpl.
    + destruct ct; simpl; rewrite <- ?app_assoc; reflexivity.
    + destruct (is_Exception (exn_cls x)); simpl; [|reflexivity].
      destruct ct as [[]|]; simpl; rewrite <- ?app_assoc; reflexivity.
Qed.

Lemma from_user_is_exception : is_FromUser (exn_cls e) = true ->
  is_JSONDecodeError (exn_cls e) = false /\ is_Exception (exn_cls e) = true.
Proof. destruct e as [[] ? ? ?]; simpl; intros; try discriminate; split; reflexivity. Qed.

Lemma reason_survives_cleaning :
  field "reason" (JDict (user_error_body e d')) = Some (JStr (exn_str (cause_or_self e))).
Proof.
  unfold user_error_body, clean_message, field. simpl.
  rewrite !lookup_delete_ne by discriminate.
  apply lookup_insert_eq.
Qed.

(** The whole run of a delivery whose [work] raises a [FromUser] error. *)
Lemma process_request_from_user :
  is_FromUser (exn_cls e) = true ->
  arg_truthy (correlation_id message) = true ->
  arg_truthy (user_error_key r) = true ->
  process_request c loads work r message idle
  = (Ok tt,
     DState (JDict (system_error_body e (user_error_body e d'))) PyNone
       (run_events (work (JDict d))
        ++ [EvPublish (JDict (user_error_body e d'))
              (Config.get_or c "DEFAULT" "exchange" (PyStr "ingestion.v1"))
              (user_error_key r) (correlation_id message);
            EvAck;
            EvPublish (JDict (system_error_body e (user_error_body e d')))
              (exchange r) (error_key r) (correlation_id message);
            EvReject false])).
Proof.
  intros Hu Hcid Hkey.
  rewrite process_request_handles.
  rewrite (handle_request_from_user (exchange r) (error_key r) (user_error_key r)
             (DState (JDict d) (correlation_id message) []) eq_refl Hu Hcid Hkey).
  destruct (from_user_is_exception Hu) as [-> ->]. simpl.
  rewrite <- !app_assoc. reflexivity.
Qed.

(** C2, as amended.  For every delivery that carries a correlation id and a
    JSON object, under a non-empty user-error key: when [work] raises a
    [FromUser] error, the dispatcher publishes exactly one message with the
    user-error routing key, whose body is the content scrubbed of the
    internal fields and has the field [reason] set to the string of the
    cause; it then acks the delivery; the outer handler then publishes
    exactly one message with the system-error routing key (and rejects the
    delivery without requeue).  The dispatcher does nothing else. *)
Theorem from_user_error_is_routed_twice :
  is_FromUser (exn_cls e) = true ->
  arg_truthy (correlation_id message) = true ->
  arg_truthy (user_error_key r) = true ->
  let run := process_request c loads work r message idle in
  fst run = Ok tt
  /\ trace (snd run)
     = run_events (work (JDict d))
       ++ [EvPublish (JDict (user_error_body e d'))
             (Config.get_or c "DEFAULT" "exchange" (PyStr "ingestion.v1"))
             (user_error_key r) (correlation_id message);
           EvAck;
           EvPublish (JDict (system_error_body e (user_error_body e d')))
             (exchange r) (error_key r) (correlation_id message);
           EvReject false]
  /\ field "reason" (JDict (user_error_body e d')) = Some (JStr (exn_str (cause_or_self e)))
  /\ (forall k, k ∈ ["file_id"; "org_msg"; "header"; "vault_path"] ->
                field k (JDict (user_error_body e d')) = None).
Proof.
  intros Hu Hcid Hkey run. subst run.
  rewrite (process_request_from_user Hu Hcid Hkey). simpl.
  split; [reflexivity|]. split; [reflexivity|]. split; [apply reason_survives_cleaning|].
  intros k Hk. unfold user_error_body, clean_message, field. simpl.
  repeat (apply elem_of_cons in Hk as [->|Hk]);
    [| | | | by apply elem_of_nil in Hk].
  - rewrite !lookup_delete_ne by discriminate. apply lookup_delete_eq.
  - rewrite !lookup_delete_ne by discriminate. apply lookup_delete_eq.
  - rewrite !lookup_delete_ne by discriminate. apply lookup_delete_eq.
  - apply lookup_delete_eq.
Qed.

(** The whole run of a delivery whose [work] raises any other [Exception]. *)
Lemma process_request_other :
  is_RejectMessage (exn_cls e) = false ->
  is_FromUser (exn_cls e) = false ->
  is_Exception (exn_cls e) = true ->
  process_request c loads work r message idle
  = (Ok tt,
     DState (if is_JSONDecodeError (exn_cls e) then JDict d'
             else JDict (system_error_body e d'))
       PyNone
       (run_events (work (JDict d))
        ++ [EvPublish (if is_JSONDecodeError (exn_cls e) then malformed e (JDict d')
                       else JDict (system_error_body e d'))
              (exchange r) (error_key r) (correlation_id message);
            EvReject false])).
Proof.
  intros Hr Hu He.
  rewrite process_request_handles.
  rewrite (handle_request_passes (exchange r) (error_key r) (user_error_key r)
             (DState (JDict d) (correlation_id message) []) eq_refl Hr Hu).
  destruct (is_JSONDecodeError (exn_cls e)); simpl; [reflexivity|].
  rewrite He. reflexivity.
Qed.

(** C4, as amended.  For every delivery that carries a JSON object: when
    [work] raises an [Exception] that is neither [RejectMessage] nor
    [FromUser], the dispatcher publishes exactly one message with the
    system-error routing key and rejects the delivery with [requeue=false].
    The body of the message is the content with an [error] object holding the
    informal and formal descriptions of the cause, unless the exception is a
    JSON decoding error: then it is the envelope of a malformed message. *)
Theorem other_error_is_published_and_rejected :
  is_RejectMessage (exn_cls e) = false ->
  is_FromUser (exn_cls e) = false ->
  is_Exception (exn_cls e) = true ->
  let run := process_request c loads work r message idle in
  let body := if is_JSONDecodeError (exn_cls e)
              then malformed e (JDict d')
              else JDict (system_error_body e d') in
  fst run = Ok tt
  /\ trace (snd run)
     = run_events (work (JDict d))
       ++ [EvPublish body (exchange r) (error_key r) (correlation_id message);
           EvReject false]
  /\ (is_JSONDecodeError (exn_cls e) = false ->
      field "error" body
      = Some (JDict (<["informal" := JStr (exn_str (cause_or_self e))]>
                     (<["formal" := JStr (exn_repr (cause_or_self e))]> ∅)))).
Proof.
  intros Hr Hu He run body. subst run body.
  rewrite (process_request_other Hr Hu He). simpl.
  split; [reflexivity|]. split; [reflexivity|].
  intros ->. unfold field, system_error_body. simpl. apply lookup_insert_eq.
Qed.

End Dispatcher.

Section DispatcherAtSamples.

Import Amqp Observe.

(** Witness of C2: the sample delivery, whose worker does not find the file. *)
Lemma from_user_error_is_routed_twice_witness :
  let run := process_request Samples.plain Samples.loads (Samples.failing Samples.not_found)
               Samples.plain_routing Samples.delivery idle in
  fst run = Ok tt
  /\ trace (snd run)
     = [EvPublish (JDict (user_error_body Samples.not_found Samples.request))
          (PyStr "ingestion.v1") (PyStr "error") (PyStr "cid-1");
        EvAck;
        EvPublish (JDict (system_error_body Samples.not_found
                            (user_error_body Samples.not_found Samples.request)))
          (PyStr "ingestion.v1") (PyStr "error.system") (PyStr "cid-1");
        EvReject false]
  /\ field "reason" (JDict (user_error_body Samples.not_found Samples.request))
     = Some (JStr "/a/b.c4gh")
  /\ (forall k, k ∈ ["file_id"; "org_msg"; "header"; "vault_path"] ->
                field k (JDict (user_error_body Samples.not_found Samples.request)) = None).
Proof.
  exact (from_user_error_is_routed_twice Samples.plain Samples.loads
           (Samples.failing Samples.not_found) Samples.request Samples.request
           Samples.not_found eq_refl eq_refl Samples.plain_routing Samples.delivery
           eq_refl eq_refl eq_refl eq_refl eq_refl eq_refl).
Defined.

(** C2, as stated, fails for a delivery without a correlation id: [publish]
    refuses to publish, so no message goes out with the user-error key and
    the delivery is not acked; the outer handler reports the assertion. *)
Lemma from_user_error_without_correlation_id :
  let run := process_request Samples.plain Samples.loads (Samples.failing Samples.not_found)
               Samples.plain_routing Samples.anonymous_delivery idle in
  is_FromUser (exn_cls Samples.not_found) = true
  /\ routing_keys (trace (snd run)) = [PyStr "error.system"]
  /\ acked (trace (snd run)) = false
  /\ trace (snd run)
     = [EvPublish
          (JDict (system_error_body
                    (assertion_error "You should not publish without a correlation id")
                    (user_error_body Samples.not_found Samples.request)))
          (PyStr "ingestion.v1") (PyStr "error.system") PyNone;
        EvReject false].
Proof. vm_compute. repeat split. Qed.

(** Witness of C4: the vault is read-only. *)
Lemma other_error_is_published_and_rejected_witness :
  let run := process_request Samples.plain Samples.loads (Samples.failing Samples.vault_down)
               Samples.plain_routing Samples.delivery idle in
  let body := JDict (system_error_body Samples.vault_down Samples.request) in
  fst run = Ok tt
  /\ trace (snd run)
     = [EvPublish body (PyStr "ingestion.v1") (PyStr "error.system") (PyStr "cid-1");
        EvReject false]
  /\ field "error" body
     = Some (JDict (<["informal" := JStr "vault is read-only"]>
                    (<["formal" := JStr "OSError('vault is read-only')"]> ∅))).
Proof.
  destruct (other_error_is_published_and_rejected Samples.plain Samples.loads
              (Samples.failing Samples.vault_down) Samples.request Samples.request
              Samples.vault_down eq_refl eq_refl Samples.plain_routing Samples.delivery
              eq_refl eq_refl eq_refl eq_refl eq_refl eq_refl) as (H1 & H2 & H3).
  split; [exact H1|]. split; [exact H2|]. exact (H3 eq_refl).
Defined.

(** C4, as stated, fails.  A JSON decoding error raised by [work] is taken
    by the handler of malformed messages: the message that goes out is the
    envelope, not the content with an [error] field.  A [KeyboardInterrupt]
    is no [Exception]: nothing is published, nothing is rejected, and the
    interrupt leaves [process_request].  And when the content is a JSON array,
    the handler cannot store the [error] in it: its own [TypeError] leaves
    [process_request], again with nothing published and nothing rejected. *)
Lemma other_error_not_always_enriched :
  let decoding := process_request Samples.plain Samples.loads
                    (Samples.failing Samples.bad_json)
                    Samples.plain_routing Samples.delivery idle in
  let interrupted := process_request Samples.plain Samples.loads
                       (Samples.failing Samples.interrupt)
                       Samples.plain_routing Samples.delivery idle in
  let array := process_request Samples.plain Samples.loads
                 (Samples.failing Samples.no_filepath)
                 Samples.plain_routing Samples.array_delivery idle in
  (trace (snd decoding)
   = [EvPublish (malformed Samples.bad_json (JDict Samples.request))
        (PyStr "ingestion.v1") (PyStr "error.system") (PyStr "cid-1");
      EvReject false]
   /\ field "error" (malformed Samples.bad_json (JDict Samples.request)) = None
   /\ field "informal" (malformed Samples.bad_json (JDict Samples.request))
      = Some (JStr "Malformed JSON-message"))
  /\ (raised interrupted = Some KeyboardInterrupt
      /\ trace (snd interrupted) = [])
  /\ (raised array = Some TypeError
      /\ trace (snd array) = []).
Proof. vm_compute. repeat split. Qed.

End DispatcherAtSamples.

Section Routing.

Import Amqp Observe.

Lemma get_str_DEFAULT (c : Config.conf) (opt fallback : string) :
  Config.get_str c "DEFAULT" opt fallback = default_option c opt fallback.
Proof.
  unfold Config.get_str, Config.get, Config.unify_values, default_option. simpl.
  destruct (Config.defaults c !! opt); reflexivity.
Qed.

Lemma read_routing_defaults (c : Config.conf) (q : string) :
  Config.get c "DEFAULT" "queue" = Ok q ->
  read_routing c
  = Ok (Routing (default_option c "exchange" "ingestion.v1") q
          (default_option c "error" "error.system")
          (default_option c "user_error" "error")).
Proof.
  intros Hq. unfold read_routing. rewrite Hq, !get_str_DEFAULT. reflexivity.
Qed.

Lemma routing_keys_app (t u : list event) :
  routing_keys (t ++ u) = routing_keys t ++ routing_keys u.
Proof. unfold routing_keys. apply omap_app. Qed.

(** C3, as amended.  The dispatcher reads its routing keys from the
    [DEFAULT] section: the option [user_error] holds the user-error routing
    key and defaults to ['error']; the option [error] holds the system-error
    routing key and defaults to ['error.system'].  These are the keys under
    which the handler of [FromUser] errors and the outer handler publish. *)
Theorem routing_keys_of_the_dispatcher (c : Config.conf) (q : string) :
  Config.get c "DEFAULT" "queue" = Ok q ->
  read_routing c
  = Ok (Routing (default_option c "exchange" "ingestion.v1") q
          (default_option c "error" "error.system")
          (default_option c "user_error" "error"))
  /\ (forall loads (work : content_t -> work_run) message d d' e,
        run_content (work (JDict d)) = JDict d' ->
        run_outcome (work (JDict d)) = Raise e ->
        content_type message = PyStr "application/json" ->
        loads (body message) = Ok (JDict d) ->
        truthy (JDict d) = true ->
        is_FromUser (exn_cls e) = true ->
        arg_truthy (correlation_id message) = true ->
        arg_truthy (default_option c "user_error" "error") = true ->
        routing_keys (trace (snd (consume c loads work message idle)))
        = routing_keys (run_events (work (JDict d)))
          ++ [PyStr (default_option c "user_error" "error");
              PyStr (default_option c "error" "error.system")])
  /\ (forall loads (work : content_t -> work_run) message d d' e,
        run_content (work (JDict d)) = JDict d' ->
        run_outcome (work (JDict d)) = Raise e ->
        content_type message = PyStr "application/json" ->
        loads (body message) = Ok (JDict d) ->
        truthy (JDict d) = true ->
        is_RejectMessage (exn_cls e) = false ->
        is_FromUser (exn_cls e) = false ->
        is_Exception (exn_cls e) = true ->
        routing_keys (trace (snd (consume c loads work message idle)))
        = routing_keys (run_events (work (JDict d)))
          ++ [PyStr (default_option c "error" "error.system")]).
Proof.
  intros Hq. pose proof (read_routing_defaults c q Hq) as Hr.
  split; [exact Hr|]. split.
  - intros loads work message d d' e Hleft Hraise Htype Hloads Hfull Hu Hcid Hkey.
    unfold consume. unfold mbind at 1, M_bind, bind, lift. rewrite Hr.
    rewrite (process_request_from_user c loads work d d' e Hleft Hraise
               (Routing (default_option c "exchange" "ingestion.v1") q
                  (default_option c "error" "error.system")
                  (default_option c "user_error" "error"))
               message Htype Hloads Hfull Hu Hcid Hkey).
    simpl. rewrite routing_keys_app. reflexivity.
  - intros loads work message d d' e Hleft Hraise Htype Hloads Hfull Hr' Hu He.
    unfold consume. unfold mbind at 1, M_bind, bind, lift. rewrite Hr.
    rewrite (process_request_other c loads work d d' e Hleft Hraise
               (Routing (default_option c "exchange" "ingestion.v1") q
                  (default_option c "error" "error.system")
                  (default_option c "user_error" "error"))
               message Htype Hloads Hfull Hr' Hu He).
    simpl. rewrite routing_keys_app. reflexivity.
Qed.
End Routing.

Section RoutingAtSamples.

Import Amqp Observe.

(** Witness of C3: nothing but the queue is configured. *)
Lemma routing_keys_of_the_dispatcher_witness :
  read_routing Samples.plain = Ok Samples.plain_routing
  /\ routing_keys (trace (snd (consume Samples.plain Samples.loads
                                 (Samples.failing Samples.not_found)
                                 Samples.delivery idle)))
     = [PyStr "error"; PyStr "error.system"]
  /\ routing_keys (trace (snd (consume Samples.plain Samples.loads
                                 (Samples.failing Samples.vault_down)
                                 Samples.delivery idle)))
     = [PyStr "error.system"].
Proof.
  destruct (routing_keys_of_the_dispatcher Samples.plain "files" eq_refl) as (H1 & H2 & H3).
  split; [exact H1|]. split.
  - exact (H2 Samples.loads (Samples.failing Samples.not_found) Samples.delivery
             Samples.request Samples.request Samples.not_found
             eq_refl eq_refl eq_refl eq_refl eq_refl eq_refl eq_refl eq_refl).
  - exact (H3 Samples.loads (Samples.failing Samples.vault_down) Samples.delivery
             Samples.request Samples.request Samples.vault_down
             eq_refl eq_refl eq_refl eq_refl eq_refl eq_refl eq_refl eq_refl).
Defined.

(** C3, as stated, fails: with [error = my.errors] in [DEFAULT], the message
    for the user (the one with the [reason]) still goes out under ['error'],
    and [my.errors] is the key of the system-error message. *)
Lemma error_option_is_the_system_error_key :
  let run := consume Samples.with_error_option Samples.loads
               (Samples.failing Samples.not_found) Samples.delivery idle in
  Config.get Samples.with_error_option "DEFAULT" "error" = Ok "my.errors"
  /\ trace (snd run)
     = [EvPublish (JDict (user_error_body Samples.not_found Samples.request))
          (PyStr "ingestion.v1") (PyStr "error") (PyStr "cid-1");
        EvAck;
        EvPublish (JDict (system_error_body Samples.not_found
                            (user_error_body Samples.not_found Samples.request)))
          (PyStr "ingestion.v1") (PyStr "my.errors") (PyStr "cid-1");
        EvReject false]
  /\ user_error_key <$> read_routing Samples.with_error_option = Ok "error"
  /\ error_key <$> read_routing Samples.with_error_option = Ok "my.errors".
Proof. vm_compute. repeat split. Qed.

End RoutingAtSamples.

(* ================================================================== *)
(** * Properties of the TLS arguments                                  *)
(* ================================================================== *)

Section TLS.

Import Amqp.

Variable rt : runtime.
Variable c : Config.conf.
Variable conf_section : string.

Hypothesis Hverify : Config.getboolean c conf_section "verify_hostname" false = Ok true.

Lemma hostname_verification_checks (ctx ctx' : SSLContext) (name : pyarg) :
  hostname_verification c conf_section ctx = Ok (ctx', name) ->
  verify_mode ctx' = CERT_REQUIRED /\ check_hostname ctx' = true
  /\ name = Config.get_or c conf_section "server_hostname" PyNone
  /\ arg_truthy name = true.
Proof.
  unfold hostname_verification. rewrite Hverify. simpl.
  destruct (arg_truthy (Config.get_or c conf_section "server_hostname" PyNone)) eqn:Hn;
    intros H; inversion H; subst. repeat split; assumption.
Qed.

Lemma hostname_verification_asserts (ctx : SSLContext) :
  arg_truthy (Config.get_or c conf_section "server_hostname" PyNone) = false ->
  hostname_verification c conf_section ctx = Raise hostname_unset.
Proof.
  intros Hn. unfold hostname_verification. rewrite Hverify. simpl. rewrite Hn. reflexivity.
Qed.

Lemma client_verification_keeps (ctx ctx' : SSLContext) :
  client_verification rt c conf_section ctx = Ok ctx' ->
  verify_mode ctx' = verify_mode ctx /\ check_hostname ctx' = check_hostname ctx.
Proof.
  unfold client_verification.
  destruct (Config.get_or c conf_section "certfile" PyNone) as [|f|]; simpl;
    try (intros H; inversion H; subst; split; reflexivity).
  destruct (negb (String.eqb f EmptyString)); simpl;
    [|intros H; inversion H; subst; split; reflexivity].
  destruct (Config.get c conf_section "keyfile") as [k|]; simpl; [|discriminate].
  destruct (load_cert_chain rt f k); simpl; [|discriminate].
  intros H; inversion H; subst; split; reflexivity.
Qed.

Lemma tls_options_checks (o : ssl_options_t) :
  tls_options rt c conf_section = Ok o ->
  verify_mode (context o) = CERT_REQUIRED /\ check_hostname (context o) = true
  /\ server_hostname o = Config.get_or c conf_section "server_hostname" PyNone
  /\ arg_truthy (server_hostname o) = true.
Proof.
  unfold tls_options.
  destruct (peer_verification rt c conf_section) as [ctx|]; simpl; [|discriminate].
  destruct (hostname_verification c conf_section ctx) as [[ctx' name]|] eqn:Hh; simpl;
    [|discriminate].
  destruct (client_verification rt c conf_section ctx') as [ctx''|] eqn:Hc; simpl;
    [|discriminate].
  intros H; inversion H; subst; simpl.
  destruct (hostname_verification_checks _ _ _ Hh) as (Hm & Hk & Hn & Ht).
  destruct (client_verification_keeps _ _ Hc) as (Hm' & Hk').
  repeat split; try assumption; congruence.
Qed.

Variable w w1 : Conf.world.
Variable params : string.
Hypothesis Huri : connection_uri c conf_section w = (Ok params, w1).
Hypothesis Hamqps : startswith "amqps" params = true.

(** C7.  When the scheme of the broker URI is [amqps] and [verify_hostname]
    is configured true: every successful [fetch_args] yields a TLS context
    that requires a peer certificate and checks the hostname, against a
    [server_hostname] that is set; and when [server_hostname] is not set,
    [fetch_args] never succeeds, raising the assertion error ["server_hostname
    must be set if verify_hostname is"] as soon as the retry parameters and
    the peer-verification options before the check are in order. *)
Theorem verify_hostname_requires_server_hostname :
  (forall args w2,
      fetch_args rt c conf_section w = (Ok args, w2) ->
      exists o, ssl_options args = Some o
                /\ verify_mode (context o) = CERT_REQUIRED
                /\ check_hostname (context o) = true
                /\ server_hostname o = Config.get_or c conf_section "server_hostname" PyNone
                /\ arg_truthy (server_hostname o) = true)
  /\ (arg_truthy (Config.get_or c conf_section "server_hostname" PyNone) = false ->
      (forall args w2, fetch_args rt c conf_section w <> (Ok args, w2))
      /\ (forall i a ctx,
             Config.getint (int rt) c conf_section "try_interval" 1 = Ok i ->
             Config.getint (int rt) c conf_section "try" 30 = Ok a ->
             peer_verification rt c conf_section = Ok ctx ->
             fetch_args rt c conf_section w = (Raise hostname_unset, w1)
             /\ exn_cls hostname_unset = AssertionError)).
Proof.
  assert (Hrun : fetch_args rt c conf_section w
                 = (i ← Config.getint (int rt) c conf_section "try_interval" 1;
                    a ← Config.getint (int rt) c conf_section "try" 30;
                    o ← tls_options rt c conf_section;
                    Ok (Args params i a (Some o)), w1)).
  { unfold fetch_args. unfold mbind at 1, M_bind, bind. rewrite Huri, Hamqps.
    unfold lift.
    destruct (Config.getint (int rt) c conf_section "try_interval" 1); run_py;
      [|reflexivity].
    destruct (Config.getint (int rt) c conf_section "try" 30); run_py; [|reflexivity].
    destruct (tls_options rt c conf_section); reflexivity. }
  split.
  - intros args w2 H. rewrite Hrun in H.
    destruct (Config.getint (int rt) c conf_section "try_interval" 1) as [i|]; simpl in H;
      [|discriminate].
    destruct (Config.getint (int rt) c conf_section "try" 30) as [a|]; simpl in H;
      [|discriminate].
    destruct (tls_options rt c conf_section) as [o|] eqn:Ho; simpl in H; [|discriminate].
    inversion H; subst; simpl. exists o. split; [reflexivity|].
    exact (tls_options_checks o Ho).
  - intros Hn. split.
    + intros args w2 H. rewrite Hrun in H.
      destruct (Config.getint (int rt) c conf_section "try_interval" 1) as [i|]; simpl in H;
        [|discriminate].
      destruct (Config.getint (int rt) c conf_section "try" 30) as [a|]; simpl in H;
        [|discriminate].
      destruct (tls_options rt c conf_section) as [o|] eqn:Ho; simpl in H; [|discriminate].
      destruct (tls_options_checks o Ho) as (_ & _ & Hs & Ht). congruence.
    + intros i a ctx Hi Ha Hp. split; [|reflexivity].
      rewrite Hrun, Hi, Ha. unfold tls_options. rewrite Hp. simpl.
      rewrite (hostname_verification_asserts ctx Hn). reflexivity.
Qed.

End TLS.

Section TLSAtSamples.

Import Amqp.

(** Witness of C7: the URI comes from a one-shot secret, hostname
    verification is asked for and no [server_hostname] is given. *)
Lemma verify_hostname_requires_server_hostname_witness :
  Observe.raised (fetch_args Samples.python Samples.broker_without_hostname "broker"
                    Samples.host)
  = Some AssertionError
  /\ exists o,
      ssl_options <$> fst (fetch_args Samples.python Samples.broker_with_hostname "broker"
                             Samples.host)
      = Ok (Some o)
      /\ verify_mode (context o) = CERT_REQUIRED
      /\ check_hostname (context o) = true
      /\ server_hostname o = PyStr "mq.example.org".
Proof.
  split.
  - pose proof (verify_hostname_requires_server_hostname Samples.python
                  Samples.broker_without_hostname "broker" eq_refl
                  Samples.host _ "amqps://u:p@h/v" eq_refl eq_refl) as [_ H].
    destruct (H eq_refl) as [_ H'].
    destruct (H' 1 30 _ eq_refl eq_refl eq_refl) as [Hrun _].
    unfold Observe.raised. rewrite Hrun. reflexivity.
  - pose proof (verify_hostname_requires_server_hostname Samples.python
                  Samples.broker_with_hostname "broker" eq_refl
                  Samples.host _ "amqps://u:p@h/v" eq_refl eq_refl) as [H _].
    destruct (fetch_args Samples.python Samples.broker_with_hostname "broker" Samples.host)
      as [[args|x] w2] eqn:Hrun.
    + destruct (H args w2 eq_refl) as (o & Ho & Hm & Hc & Hs & _).
      exists o. simpl. rewrite Ho. repeat split; assumption.
    + exfalso. vm_compute in Hrun. discriminate.
Defined.

End TLSAtSamples.

(* ================================================================== *)
(** * Properties of the ingestion pipeline                             *)
(* ================================================================== *)

Section Order.

Import Observe.

Lemma in_order_sound (t : list event) (marked : list Z) :
  in_order marked t = true ->
  forall pre post file_id target size header_hex,
    t = pre ++ EvSetInfo file_id target size header_hex :: post ->
    In file_id marked \/ In (EvMarkInProgress file_id) pre.
Proof.
  revert marked. induction t as [|ev t IH]; intros marked Hok pre post f tg sz hx Heq.
  - destruct pre; discriminate.
  - destruct pre as [|ev' pre]; simpl in Heq; inversion Heq; subst; clear Heq.
    + simpl in Hok. apply andb_prop in Hok as [Hin _].
      apply existsb_exists in Hin as (x & Hx & Hfx).
      apply Z.eqb_eq in Hfx. subst. left. exact Hx.
    + assert (Hstep : forall m, in_order m (pre ++ EvSetInfo f tg sz hx :: post) = true ->
                                (In f m \/ In (EvMarkInProgress f) pre)).
      { intros m Hm. exact (IH m Hm pre post f tg sz hx eq_refl). }
      destruct ev'; simpl in Hok;
        try (destruct (Hstep marked Hok) as [H|H]; [left; exact H | right; right; exact H]).
      * destruct (Hstep (file_id :: marked) Hok) as [[H|H]|H].
        -- right. left. congruence.
        -- left. exact H.
        -- right. right. exact H.
      * apply andb_prop in Hok as [_ Hok].
        destruct (Hstep marked Hok) as [H|H]; [left; exact H | right; right; exact H].
Qed.

Lemma in_order_marked (t : list event) :
  in_order [] t = true -> marked_before_info t.
Proof.
  intros Hok pre post f tg sz hx Heq.
  destruct (in_order_sound t [] Hok pre post f tg sz hx Heq) as [[]|H]. exact H.
Qed.

Lemma in_order_set_error (t : list event) (marked : list Z) (f : pyval) (e : exn) :
  in_order marked t = true -> in_order marked (t ++ [EvSetError f e]) = true.
Proof.
  revert marked. induction t as [|ev t IH]; intros marked Hok; [reflexivity|].
  destruct ev; simpl in *; try (apply IH; exact Hok).
  apply andb_prop in Hok as [H1 H2]. rewrite H1. simpl. apply IH. exact H2.
Qed.

End Order.

Section Pipeline.

Import Ingest Observe.

Variable conf : Config.conf.
Variable db : DB.
Variable sys : Inbox.
Variable fs : Storage.
Variable channel : pyarg.

#[local] Arguments json_dumps : simpl never.

(** Run [work] on a symbolic state: one goal per way it can end. *)
Ltac split_run :=
  repeat (run_py;
          match goal with
          | |- context [match ?x with _ => _ end] =>
              lazymatch x with
              | context [match _ with _ => _ end] => fail
              | _ => destruct x eqn:?
              end
          end).

Ltac unfold_work :=
  unfold work, call, getitem, setitem, pop, copy, store, publish, Amqp.publish,
    Amqp.connection_publish, deref.

Lemma work_in_order (data : loc) (h : gmap loc (gmap string pyval)) (n : loc) (ci : pyarg) :
  in_order [] (trace (snd (work conf db sys fs channel data (IState h n ci [])))) = true.
Proof.
  unfold_work. split_run; try reflexivity; simpl; rewrite Z.eqb_refl; reflexivity.
Qed.

Lemma decorated_work_in_order (is_header_error : exn_class -> bool)
    (data : loc) (h : gmap loc (gmap string pyval)) (n : loc) (ci : pyarg) :
  in_order []
    (trace (snd (decorated_work conf db sys is_header_error fs channel data
                   (IState h n ci [])))) = true.
Proof.
  pose proof (work_in_order data h n ci) as Hw.
  unfold decorated_work, catch_error, crypt4gh_to_user_errors, call, deref.
  destruct (work conf db sys fs channel data (IState h n ci [])) as [[l|e] [h' n' ci' t']] eqn:Hrun;
    simpl in Hw.
  - run_py. rewrite Hrun. simpl. exact Hw.
  - run_py. rewrite Hrun. simpl.
    destruct (is_header_error (exn_cls e)); simpl.
    + destruct (default ∅ (h' !! data) !! "file_id"); simpl;
        [destruct (set_error db _ _); simpl; apply in_order_set_error|]; exact Hw.
    + destruct (is_Exception (exn_cls e)); simpl; [|exact Hw].
      destruct (default ∅ (h' !! data) !! "file_id"); simpl;
        [destruct (set_error db _ _); simpl; apply in_order_set_error|]; exact Hw.
Qed.

(** The decorators add at most one call, a [set_error], to what [work]
    does. *)
Lemma decorated_work_trace (is_header_error : exn_class -> bool)
    (data : loc) (st : istate) :
  exists extra,
    trace (snd (decorated_work conf db sys is_header_error fs channel data st))
    = trace (snd (work conf db sys fs channel data st)) ++ extra
    /\ (extra = [] \/ exists file_id e, extra = [EvSetError file_id e]).
Proof.
  unfold decorated_work, catch_error, crypt4gh_to_user_errors, call, deref.
  destruct (work conf db sys fs channel data st) as [[l|e] [h' n' ci' t']] eqn:Hrun.
  - exists []. run_py. rewrite Hrun. simpl. rewrite app_nil_r. auto.
  - run_py. rewrite Hrun. simpl.
    destruct (is_header_error (exn_cls e)); simpl.
    + destruct (default ∅ (h' !! data) !! "file_id") as [f|]; simpl.
      * eexists. destruct (set_error db _ _); simpl; split; eauto.
      * exists []. rewrite app_nil_r. auto.
    + destruct (is_Exception (exn_cls e)); simpl.
      * destruct (default ∅ (h' !! data) !! "file_id") as [f|]; simpl.
        -- eexists. destruct (set_error db _ _); simpl; split; eauto.
        -- exists []. rewrite app_nil_r. auto.
      * exists []. rewrite app_nil_r. auto.
Qed.

(** The run of [work] when the file is not in the inbox. *)
Lemma work_not_found (data : loc) (h : gmap loc (gmap string pyval)) (n : loc) (ci : pyarg)
    (D : gmap string pyval) (path : string) (user : pyval) (uid inbox : string) (fid : Z) :
  h !! data = Some D ->
  D !! "filepath" = Some (VJson (JStr path)) ->
  D !! "user" = Some user ->
  sanitize_user_id sys user = Ok uid ->
  insert_file db (VJson (JStr path)) uid = Ok fid ->
  inbox_location sys uid = Ok inbox ->
  path_exists sys (path_join sys inbox (lstrip "/" path)) = false ->
  let run := work conf db sys fs channel data (IState h n ci []) in
  fst run = Raise (not_found_in_inbox path)
  /\ trace (snd run) = [EvInsertFile (VJson (JStr path)) uid;
                        EvExists (path_join sys inbox (lstrip "/" path))].
Proof.
  intros Hd Hp Hu Hs Hi Hb Hx run. subst run.
  unfold_work.
  repeat (progress (run_py; rewrite ?Hd, ?Hp, ?Hu, ?Hs, ?Hi, ?Hb, ?Hx)).
  split; reflexivity.
Qed.

(** Where [work] sends messages: it publishes at most once, and then with
    ['cega'] in the place of the routing key and ['files.processing'] in the
    place of the correlation id. *)
Lemma work_deliveries (data : loc) (h : gmap loc (gmap string pyval)) (n : loc) (ci : pyarg) :
  let t := trace (snd (work conf db sys fs channel data (IState h n ci []))) in
  deliveries t = []
  \/ deliveries t
     = [(py_or channel (Config.get_or conf "DEFAULT" "exchange" (PyStr "ingestion.v1")),
         PyStr "cega", PyStr "files.processing")].
Proof.
  unfold_work. split_run; simpl; auto.
Qed.

(** Under a [channel] that is an object, not the name of an exchange, the
    library refuses the progress message: nothing is published, and [work]
    does not return. *)
Lemma work_refused (name : string) (data : loc) (h : gmap loc (gmap string pyval))
    (n : loc) (ci : pyarg) :
  channel = PyObj name ->
  let run := work conf db sys fs channel data (IState h n ci []) in
  deliveries (trace (snd run)) = [] /\ exists e, fst run = Raise e.
Proof.
  intros -> run. subst run.
  unfold_work. split_run; simpl; eauto; discriminate.
Qed.

Ltac heap_simpl H :=
  repeat (first [ rewrite lookup_insert_eq
                | rewrite lookup_insert_ne by congruence
                | rewrite H
                | progress simpl ]).

(** The two dictionaries when [work] returns: [data], and the copy it made
    at the address [n]. *)
Lemma work_returns_state (data : loc) (h : gmap loc (gmap string pyval)) (n : loc)
    (ci : pyarg) (D : gmap string pyval) (l : loc) (st' : istate) :
  h !! data = Some D ->
  data <> n ->
  work conf db sys fs channel data (IState h n ci []) = (Ok l, st') ->
  l = data
  /\ exists path uid fid target hx,
      D !! "filepath" = Some (VJson (JStr path))
      /\ insert_file db (VJson (JStr path)) uid = Ok fid
      /\ heap st' !! data
         = Some (<["vault_path" := VJson (JStr target)]>
                 (<["header" := VJson (JStr hx)]>
                 (<["org_msg" := VRef n]>
                 (<["file_id" := VJson (JInt fid)]> D))))
      /\ heap st' !! n
         = Some (delete "status"
                 (<["status" := VJson (JStr "PROCESSING")]>
                 (<["file_id" := VJson (JInt fid)]> D))).
Proof.
  intros Hd Hne Hrun. pattern l, st'.
  match goal with |- ?F l st' => set (P := F) end.
  revert Hrun. revert l st'.
  unfold_work. split_run; intros ? ? Hrun; try discriminate.
  inversion Hrun; subst; clear Hrun. unfold P. split; [reflexivity|].
  match goal with
  | H1 : insert_file db (VJson (JStr ?s)) ?a = Ok ?f,
    H2 : location fs _ = Ok ?tg,
    H3 : get_header sys _ = Ok (?b, ?hd) |- _ =>
      exists s, a, f, tg, (hex (b +:+ hd))
  end.
  rewrite Hd in *. simpl in *.
  split; [assumption|]. split; [assumption|].
  split; heap_simpl Hd; reflexivity.
Qed.

(** ** What [json.dumps] prints *)

Lemma dumps_document (k : nat) (h : gmap loc (gmap string pyval)) (j : json) :
  dumps k h (VJson j) = Some j.
Proof. destruct k; reflexivity. Qed.

Lemma dict_dumps_documents (f : pyval -> option json) (m : gmap string json) :
  (forall j, f (VJson j) = Some j) ->
  dict_dumps f (VJson <$> m) = Some m.
Proof.
  intros Hf. unfold dict_dumps.
  destruct (decide _) as [_|Hn].
  - f_equal. apply map_eq. intros i. rewrite lookup_omap, lookup_fmap.
    destruct (m !! i); simpl; [apply Hf | reflexivity].
  - exfalso. apply Hn. intros i v Hv. rewrite lookup_fmap in Hv.
    destruct (m !! i); simpl in Hv; inversion Hv; subst. rewrite Hf. eauto.
Qed.

(** The reply printed from a heap where [data] refers to a dictionary of
    documents under [org_msg]. *)
Lemma json_dumps_reply (st : istate) (data n : loc) (Dfin : gmap string pyval)
    (O : gmap string json) (fid : Z) (out : json) :
  heap st !! data = Some Dfin ->
  heap st !! n = Some (VJson <$> O) ->
  Dfin !! "org_msg" = Some (VRef n) ->
  Dfin !! "file_id" = Some (VJson (JInt fid)) ->
  json_dumps st (VRef data) = Some out ->
  field "file_id" out = Some (JInt fid) /\ field "org_msg" out = Some (JDict O).
Proof.
  intros Hd Hn Ho Hf. unfold json_dumps. simpl. rewrite Hd. simpl.
  unfold dict_dumps at 1. destruct (decide _) as [Hall|]; simpl; [|discriminate].
  intros H. inversion H; subst out; clear H. unfold field. simpl.
  rewrite !lookup_omap, Ho, Hf. simpl. split; [apply dumps_document|].
  destruct (Hall "org_msg" (VRef n) Ho) as [j Hj].
  destruct (size (heap st)) as [|k]; [discriminate|].
  simpl. rewrite Hn. simpl.
  rewrite (dict_dumps_documents _ O (dumps_document k (heap st))). reflexivity.
Qed.

(** The reply of [work] to a request: the worker's [file_id], and under
    [org_msg] the request with that [file_id] and without [status]. *)
Lemma work_reply (request : gmap string json) (ci : pyarg) (out : json) :
  reply (work conf db sys fs channel 0%nat (received request ci)) = Some out ->
  exists path uid fid,
    request !! "filepath" = Some (JStr path)
    /\ insert_file db (VJson (JStr path)) uid = Ok fid
    /\ field "file_id" out = Some (JInt fid)
    /\ field "org_msg" out = Some (JDict (delete "status" (<["file_id" := JInt fid]> request))).
Proof.
  unfold reply.
  destruct (work conf db sys fs channel 0%nat (received request ci)) as [[l|e] st'] eqn:Hrun;
    [|discriminate].
  intros Hout.
  assert (Hd : ({[0%nat := VJson <$> request]} : gmap loc (gmap string pyval)) !! 0%nat
               = Some (VJson <$> request)) by apply lookup_singleton_eq.
  destruct (work_returns_state 0%nat _ 1%nat ci _ l st' Hd ltac:(discriminate) Hrun)
    as (-> & path & uid & fid & target & hx & Hp & Hi & H0 & H1).
  rewrite delete_insert_eq, <- fmap_insert, <- fmap_delete in H1.
  rewrite lookup_fmap in Hp.
  destruct (request !! "filepath") as [j|] eqn:Hj; simpl in Hp; inversion Hp; subst j.
  exists path, uid, fid. split; [reflexivity|]. split; [exact Hi|].
  eapply (json_dumps_reply st' 0%nat 1%nat); eauto.
  - rewrite !lookup_insert_ne by discriminate. apply lookup_insert_eq.
  - rewrite !lookup_insert_ne by discriminate. apply lookup_insert_eq.
Qed.

(** C8.  In every execution of the pipeline, with or without its
    decorators, no [set_info(file_id, ...)] is called before
    [mark_in_progress(file_id)] was called for the same [file_id].  In
    particular, when the file is not in the inbox, [work] raises
    [NotFoundInInbox] having called neither: the database has only seen
    [insert_file] (and, under the decorators, at most a [set_error]). *)
Theorem set_info_only_after_mark_in_progress
    (is_header_error : exn_class -> bool)
    (data : loc) (h : gmap loc (gmap string pyval)) (n : loc) (ci : pyarg) :
  marked_before_info (trace (snd (work conf db sys fs channel data (IState h n ci []))))
  /\ marked_before_info
       (trace (snd (decorated_work conf db sys is_header_error fs channel data
                      (IState h n ci []))))
  /\ (forall D path user uid inbox fid,
        h !! data = Some D ->
        D !! "filepath" = Some (VJson (JStr path)) ->
        D !! "user" = Some user ->
        sanitize_user_id sys user = Ok uid ->
        insert_file db (VJson (JStr path)) uid = Ok fid ->
        inbox_location sys uid = Ok inbox ->
        path_exists sys (path_join sys inbox (lstrip "/" path)) = false ->
        let run := work conf db sys fs channel data (IState h n ci []) in
        let decorated := decorated_work conf db sys is_header_error fs channel data
                           (IState h n ci []) in
        let seen := [EvInsertFile (VJson (JStr path)) uid;
                     EvExists (path_join sys inbox (lstrip "/" path))] in
        fst run = Raise (not_found_in_inbox path)
        /\ exn_cls (not_found_in_inbox path) = NotFoundInInbox
        /\ trace (snd run) = seen
        /\ (trace (snd decorated) = seen
            \/ exists file_id e, trace (snd decorated) = seen ++ [EvSetError file_id e])).
Proof.
  split; [apply in_order_marked, work_in_order|].
  split; [apply in_order_marked, decorated_work_in_order|].
  intros D path user uid inbox fid Hd Hp Hu Hs Hi Hb Hx run decorated seen.
  destruct (work_not_found data h n ci D path user uid inbox fid Hd Hp Hu Hs Hi Hb Hx)
    as [H1 H2].
  split; [exact H1|]. split; [reflexivity|]. split; [exact H2|].
  destruct (decorated_work_trace is_header_error data (IState h n ci []))
    as (extra & Ht & [->|(f & e & ->)]); subst decorated; rewrite Ht, H2.
  - left. apply app_nil_r.
  - right. exists f, e. reflexivity.
Qed.

(** C9, as amended.  For every successful delivery of a request without a
    [status] field, the [org_msg] field of the reply is the request with the
    field [file_id] set to the id that [insert_file] returned: the fields the
    producer sent, plus the worker's [file_id]. *)
Theorem org_msg_is_the_request_with_file_id
    (request : gmap string json) (ci : pyarg) (out : json) :
  reply (work conf db sys fs channel 0%nat (received request ci)) = Some out ->
  request !! "status" = None ->
  exists path uid fid,
    request !! "filepath" = Some (JStr path)
    /\ insert_file db (VJson (JStr path)) uid = Ok fid
    /\ field "file_id" out = Some (JInt fid)
    /\ field "org_msg" out = Some (JDict (<["file_id" := JInt fid]> request)).
Proof.
  intros Hout Hs.
  destruct (work_reply request ci out Hout) as (path & uid & fid & Hp & Hi & Hf & Ho).
  exists path, uid, fid. repeat (split; [assumption|]).
  rewrite Ho. do 2 f_equal. apply delete_id.
  rewrite lookup_insert_ne by discriminate. exact Hs.
Qed.

End Pipeline.

Section PipelineAtSamples.

Import Ingest Observe.

(** C1.  The progress message is handed to [publish] as [publish(org_msg,
    channel, 'cega', 'files.processing')], and [publish] takes its second
    argument for the exchange, its third for the routing key and its fourth
    for the correlation id.  So in every run [work] publishes at most once,
    and a message that goes out has ['cega'] as its routing key and
    ['files.processing'] as its correlation id; its exchange is [channel],
    or the configured one when [channel] is falsy.  It is never the exchange
    ['cega'] under the key ['files.processing'].

    Under a channel object, which is what [main] passes, the library refuses
    the exchange: no progress message goes out at all and [work] raises.  On
    the sample request that happens right after [mark_in_progress], with the
    status still in the copy.  Under the name of an exchange, the sample
    request runs to its end: the one progress message is published after
    [mark_in_progress] with the status and the worker's [file_id], to that
    exchange under the key ['cega'], and the status is then gone from the
    copy kept in memory. *)
Theorem progress_message_takes_cega_for_routing_key :
  (forall conf db sys fs channel data h n ci,
     let t := trace (snd (work conf db sys fs channel data (IState h n ci []))) in
     deliveries t = []
     \/ deliveries t
        = [(py_or channel (Config.get_or conf "DEFAULT" "exchange" (PyStr "ingestion.v1")),
            PyStr "cega", PyStr "files.processing")])
  /\ (forall conf db sys fs name data h n ci,
        let run := work conf db sys fs (PyObj name) data (IState h n ci []) in
        deliveries (trace (snd run)) = [] /\ exists e, fst run = Raise e)
  /\ (fst Samples.refused = Raise (Amqp.invalid_argument "exchange")
      /\ trace (snd Samples.refused)
         = [EvInsertFile (VJson (JStr "/a/b.c4gh")) "alice";
            EvExists "/inbox/alice/a/b.c4gh";
            EvMarkInProgress 7]
      /\ deref (snd Samples.refused) 1%nat !! "status" = Some (VJson (JStr "PROCESSING")))
  /\ (trace (snd Samples.happy)
      = [EvInsertFile (VJson (JStr "/a/b.c4gh")) "alice";
         EvExists "/inbox/alice/a/b.c4gh";
         EvMarkInProgress 7;
         EvPublish (JDict (<["status" := JStr "PROCESSING"]>
                           (<["file_id" := JInt 7]> Samples.request)))
           (PyStr "lega") (PyStr "cega") (PyStr "files.processing");
         EvOpen "/inbox/alice/a/b.c4gh";
         EvGetHeader "/inbox/alice/a/b.c4gh";
         EvLocation 7;
         EvCopy "/inbox/alice/a/b.c4gh" "/vault/7";
         EvSetInfo 7 "/vault/7" 876 "6372797074346768484452"]
      /\ deliveries (trace (snd Samples.happy))
         = [(PyStr "lega", PyStr "cega", PyStr "files.processing")]
      /\ deref (snd Samples.happy) 1%nat !! "status" = None).
Proof.
  split; [intros; apply work_deliveries|].
  split; [intros conf db sys fs name data h n ci; exact (work_refused conf db sys fs
            (PyObj name) name data h n ci eq_refl)|].
  split; vm_compute; repeat split.
Qed.

(** Witness of C8: the sample request when the inbox is empty. *)
Lemma set_info_only_after_mark_in_progress_witness :
  fst Samples.missing = Raise (not_found_in_inbox "/a/b.c4gh")
  /\ exn_cls (not_found_in_inbox "/a/b.c4gh") = NotFoundInInbox
  /\ trace (snd Samples.missing)
     = [EvInsertFile (VJson (JStr "/a/b.c4gh")) "alice"; EvExists "/inbox/alice/a/b.c4gh"].
Proof.
  destruct (set_info_only_after_mark_in_progress Samples.plain Samples.db
              (Samples.inbox false) Samples.vault Samples.channel (fun _ => false)
              0%nat {[ 0%nat := VJson <$> Samples.request ]} 1%nat (PyStr "cid-1"))
    as (_ & _ & H).
  destruct (H (VJson <$> Samples.request) "/a/b.c4gh" (VJson (JStr "alice")) "alice"
              "/inbox/alice" 7 eq_refl eq_refl eq_refl eq_refl eq_refl eq_refl eq_refl)
    as (H1 & H2 & H3 & _).
  split; [exact H1|]. split; [exact H2|]. exact H3.
Defined.

(** Witness of C9: the happy path of the sample request. *)
Lemma org_msg_is_the_request_with_file_id_witness :
  exists path uid fid,
    Samples.request !! "filepath" = Some (JStr path)
    /\ insert_file Samples.db (VJson (JStr path)) uid = Ok fid
    /\ field "file_id" Samples.archived = Some (JInt fid)
    /\ field "org_msg" Samples.archived
       = Some (JDict (<["file_id" := JInt fid]> Samples.request)).
Proof.
  apply (org_msg_is_the_request_with_file_id Samples.plain Samples.db (Samples.inbox true)
           Samples.vault Samples.exchange_name Samples.request (PyStr "cid-1")
           Samples.archived).
  - vm_compute. reflexivity.
  - reflexivity.
Defined.

(** C9, as stated, fails on the happy path of the sample request: the
    [org_msg] of the reply has a [file_id], which the producer never sent. *)
Lemma org_msg_carries_the_file_id :
  reply Samples.happy = Some Samples.archived
  /\ field "org_msg" Samples.archived <> Some (JDict Samples.request)
  /\ (field "org_msg" Samples.archived ≫= field "file_id") = Some (JInt 7)
  /\ field "file_id" (JDict Samples.request) = None.
Proof.
  split; [vm_compute; reflexivity|]. split; [|split; vm_compute; reflexivity].
  intros H. apply (f_equal (fun o => o ≫= field "file_id")) in H.
  vm_compute in H. discriminate.
Qed.

End PipelineAtSamples.

(* ================================================================== *)
(** * More on the sensitive-value resolver                             *)
(* ================================================================== *)

Section ResolverFootprint.

Import Conf Observe.

Lemma startswith_secret_not_others (value : string) :
  startswith "secret://" value = true ->
  startswith "value://" value = false /\ startswith "env://" value = false
  /\ startswith "file://" value = false.
Proof.
  destruct value as [|a value]; [discriminate|].
  destruct a as [[] [] [] [] [] [] [] []]; simpl; try discriminate.
  intros _. repeat split.
Qed.

(** The [value://] branch, as one equation. *)
Lemma value_scheme_run (X : string) (w : world) :
  convert_sensitive (Some ("value://" +:+ X)) w = (Ok (Some (SStr X)), w).
Proof.
  unfold convert_sensitive. rewrite (startswith_app "value://" X).
  change 8%nat with (String.length "value://"). rewrite str_drop_app. reflexivity.
Qed.

(** The [env://] branch, as one equation. *)
Lemma env_scheme_run (NAME : string) (w : world) :
  convert_sensitive (Some ("env://" +:+ NAME)) w
  = (match env w !! NAME with
     | Some v => Ok (Some (SStr v))
     | None => Raise (mk_exn ValueError "ValueError"
                        ("Environment variable " +:+ NAME +:+ " not found"))
     end,
     World (env w) (fs w) (decode w) (calls w ++ [SysGetenv NAME])
       (log w ++ [LogDebug "Loading value from env var: %s" NAME])
       (warnings w ++ [env_deprecated])).
Proof.
  unfold convert_sensitive.
  change (startswith "value://" ("env://" +:+ NAME)) with false.
  rewrite (startswith_app "env://" NAME).
  change 6%nat with (String.length "env://").
  rewrite str_drop_app. cbv beta iota.
  destruct w as [e f d c l wr].
  unfold logged, warn, os_getenv, called. run_py.
  destruct (e !! NAME); reflexivity.
Qed.

(** X1.  Resolving ["env://" + NAME] yields the value of the environment
    variable [NAME], or a [ValueError] that names the variable when it is not
    set; in both cases it emits the deprecation warning once, reads the
    environment once and leaves the file system alone. *)
Theorem env_scheme_reads_the_variable (NAME : string) (w : world) :
  let run := convert_sensitive (Some ("env://" +:+ NAME)) w in
  fst run = match env w !! NAME with
            | Some v => Ok (Some (SStr v))
            | None => Raise (mk_exn ValueError "ValueError"
                               ("Environment variable " +:+ NAME +:+ " not found"))
            end
  /\ warnings (snd run) = warnings w ++ [env_deprecated]
  /\ calls (snd run) = calls w ++ [SysGetenv NAME]
  /\ fs (snd run) = fs w
  /\ env (snd run) = env w.
Proof. intros run. subst run. rewrite env_scheme_run. repeat split. Qed.

(** The [file://] branch, as one equation. *)
Lemma file_scheme_run (PATH : string) (w : world) :
  convert_sensitive (Some ("file://" +:+ PATH)) w
  = match fs w !! PATH with
    | None =>
        (Raise (no_such_file PATH),
         World (env w) (fs w) (decode w) (calls w ++ [SysStat PATH])
           (log w ++ [LogDebug "Loading value from path: %s" PATH]) (warnings w))
    | Some f =>
        (v ← read_result w PATH rt; Ok (Some v),
         World (env w) (fs w) (decode w) (calls w ++ [SysStat PATH; SysOpen PATH rt])
           (log w ++ [LogDebug "Loading value from path: %s" PATH])
           (warnings w ++ (if negb (Z.land (st_mode f) S_IRGRP =? 0)
                              || negb (Z.land (st_mode f) S_IROTH =? 0)
                           then [file_deprecated] else [])))
    end.
Proof.
  unfold convert_sensitive.
  change (startswith "value://" ("file://" +:+ PATH)) with false.
  change (startswith "env://" ("file://" +:+ PATH)) with false.
  rewrite (startswith_app "file://" PATH).
  change 7%nat with (String.length "file://").
  rewrite str_drop_app. cbv beta iota.
  destruct w as [e fsys d c l wr].
  unfold logged, os_stat, called, warn. run_py.
  destruct (fsys !! PATH) as [f|] eqn:Hf; simpl; [|reflexivity].
  destruct (negb (Z.land (st_mode f) S_IRGRP =? 0) || negb (Z.land (st_mode f) S_IROTH =? 0));
    simpl; rewrite get_from_file_keep; unfold read_result; simpl; rewrite Hf;
    (destruct (readable f); [destruct (d (content f))|]); simpl;
    rewrite <- ?app_assoc, ?app_nil_r; reflexivity.
Qed.

Lemma group_or_world_readable (mode : Z) :
  negb (Z.land mode S_IRGRP =? 0) || negb (Z.land mode S_IROTH =? 0)
  = negb (Z.land mode 36 =? 0).
Proof.
  change 36 with (Z.lor S_IRGRP S_IROTH).
  rewrite Z.land_lor_distr_r.
  destruct (Z.land mode S_IRGRP =? 0) eqn:H1; destruct (Z.land mode S_IROTH =? 0) eqn:H2;
    simpl; symmetry.
  - apply Z.eqb_eq in H1, H2. rewrite H1, H2. reflexivity.
  - apply negb_true_iff, Z.eqb_neq. intros H. apply Z.lor_eq_0_iff in H as [_ H].
    apply Z.eqb_neq in H2. contradiction.
  - apply negb_true_iff, Z.eqb_neq. intros H. apply Z.lor_eq_0_iff in H as [H _].
    apply Z.eqb_neq in H1. contradiction.
  - apply negb_true_iff, Z.eqb_neq. intros H. apply Z.lor_eq_0_iff in H as [H _].
    apply Z.eqb_neq in H1. contradiction.
Qed.

(** X2.  Resolving ["file://" + PATH] for a file that exists never changes
    the file system (the file is kept), and it emits the deprecation warning
    exactly when the mode of the file has the group-read or the world-read
    bit, that is when [st_mode & 0o044] is not zero. *)
Theorem file_scheme_warns_on_shared_files (PATH : string) (w : world) (f : file) :
  fs w !! PATH = Some f ->
  let run := convert_sensitive (Some ("file://" +:+ PATH)) w in
  fs (snd run) = fs w
  /\ calls (snd run) = calls w ++ [SysStat PATH; SysOpen PATH rt]
  /\ warnings (snd run)
     = warnings w ++ (if Z.land (st_mode f) 36 =? 0 then [] else [file_deprecated]).
Proof.
  intros Hf run. subst run. rewrite file_scheme_run, Hf. simpl.
  split; [reflexivity|]. split; [reflexivity|].
  rewrite group_or_world_readable. destruct (Z.land (st_mode f) 36 =? 0); reflexivity.
Qed.

(** X3.  A secret is read once: after ["secret://" + PATH] has been resolved
    for a file this process may read and unlink, the bytes are returned, the
    file is gone, every other file is as before, and resolving the same value
    again fails with [ValueError]. *)
Theorem secret_is_one_shot (PATH : string) (w : world) (f : file) :
  fs w !! PATH = Some f ->
  readable f = true ->
  removable f = true ->
  let first := convert_sensitive (Some ("secret://" +:+ PATH)) w in
  let second := convert_sensitive (Some ("secret://" +:+ PATH)) (snd first) in
  fst first = Ok (Some (SBytes (content f)))
  /\ fs (snd first) = delete PATH (fs w)
  /\ raised second = Some ValueError
  /\ fs (snd second) = fs (snd first).
Proof.
  intros Hf Hr Hd first second. subst second first.
  rewrite !secret_scheme_run. unfold raised, read_result, can_remove. simpl.
  rewrite Hf, Hr, Hd. simpl. rewrite lookup_delete_eq. repeat split.
Qed.

Lemma startswith_split (p value : string) :
  startswith p value = true -> value = p +:+ str_drop (String.length p) value.
Proof.
  revert value. induction p as [|a p IH]; intros value H; [reflexivity|].
  destruct value as [|b value]; simpl in H; [discriminate|].
  apply andb_prop in H as [Hab H]. apply Ascii.eqb_eq in Hab. subst b.
  change (String a value = String a (p +:+ str_drop (String.length p) value)).
  f_equal. apply IH. exact H.
Qed.

(** X4.  Whatever the value, the resolver never changes the environment,
    and it changes the file system for no value but one that starts with
    [secret://]. *)
Theorem only_secrets_change_the_file_system (value : option string) (w : world) :
  let run := convert_sensitive value w in
  env (snd run) = env w
  /\ (match value with
      | Some v => if startswith "secret://" v then True else fs (snd run) = fs w
      | None => fs (snd run) = fs w
      end).
Proof.
  intros run. subst run. destruct value as [v|]; [|split; reflexivity].
  destruct (startswith "secret://" v) eqn:Hs.
  { rewrite (startswith_split _ _ Hs), secret_scheme_run. split; [reflexivity | exact I]. }
  destruct (startswith "value://" v) eqn:Hv.
  { rewrite (startswith_split _ _ Hv), value_scheme_run. split; reflexivity. }
  destruct (startswith "env://" v) eqn:He.
  { rewrite (startswith_split _ _ He), env_scheme_run. split; reflexivity. }
  destruct (startswith "file://" v) eqn:Hf.
  { rewrite (startswith_split _ _ Hf), file_scheme_run.
    destruct (fs w !! _); split; reflexivity. }
  unfold convert_sensitive. rewrite Hv, He, Hf, Hs. split; reflexivity.
Qed.

End ResolverFootprint.

(* ================================================================== *)
(** * More on the dispatcher                                           *)
(* ================================================================== *)

(** Split a run into the ways it can end. *)
Ltac split_cases :=
  repeat (run_py;
          match goal with
          | |- context [match ?x with _ => _ end] =>
              lazymatch x with
              | context [match _ with _ => _ end] => fail
              | _ => destruct x eqn:?
              end
          end).

Section DispatcherPaths.

Import Amqp Observe Notions.

Variable c : Config.conf.
Variable loads : payload -> res json.
Variable work : content_t -> work_run.
Variable r : routing.
Variable message : Message.

(** The decoding step of [process_request] in terms of [decoded]. *)
Lemma decode_step :
  ((match content_type message with
    | PyStr "application/json" => j ← lift (loads (body message)); set_content (Doc j)
    | _ => ret tt
    end) = ret tt
   /\ decoded loads message = Ok (as_content (body message)))
  \/ ((match content_type message with
       | PyStr "application/json" => j ← lift (loads (body message)); set_content (Doc j)
       | _ => ret tt
       end) = (j ← lift (loads (body message)); set_content (Doc j))
      /\ decoded loads message = Doc <$> loads (body message)).
Proof.
  unfold decoded.
  destruct (content_type message) as [|s|o]; try (left; split; reflexivity).
  repeat (match goal with
          | |- context [match ?x with _ => _ end] =>
              lazymatch x with
              | context [match _ with _ => _ end] => fail
              | _ => destruct x; try (left; split; reflexivity)
              end
          end).
  right. split; reflexivity.
Qed.

(** The two handlers of [process_request], on the content [ct]. *)
Ltac handlers x ct :=
  unfold connection_publish, content_dumps, reject, setitem, set_content, system_error_body;
  destruct (is_JSONDecodeError (exn_cls x)); run_py;
  [destruct ct; run_py; rewrite <- ?app_assoc; reflexivity|];
  destruct (is_Exception (exn_cls x)); run_py; [|reflexivity];
  destruct ct as [[]|]; run_py; rewrite <- ?app_assoc; reflexivity.

(** [process_request] from the decoded content on. *)
Lemma process_request_decoded (st : dstate) :
  process_request c loads work r message st
  = (let '(o, st1) :=
       match decoded loads message with
       | Raise e => (Raise e, DState (as_content (body message)) (correlation_id message)
                                (trace st))
       | Ok j =>
           if truthy j then
             _handle_request c work (exchange r) (error_key r) (user_error_key r)
               (DState j (correlation_id message) (trace st))
           else (Ok tt, DState j (correlation_id message) (trace st ++ [EvAck]))
       end in
     match o with
     | Ok _ => (Ok tt, DState (content st1) PyNone (trace st1))
     | Raise x =>
         if is_JSONDecodeError (exn_cls x) then
           match content st1 with
           | Doc j =>
               (Ok tt, DState (content st1) PyNone
                         (trace st1 ++ [EvPublish (malformed x j) (exchange r)
                                          (error_key r) (correlation_id message);
                                        EvReject false]))
           | Raw _ => (Raise not_serializable, DState (content st1) PyNone (trace st1))
           end
         else if is_Exception (exn_cls x) then
           match content st1 with
           | Doc (JDict dd) =>
               (Ok tt, DState (JDict (system_error_body x dd)) PyNone
                         (trace st1 ++ [EvPublish (JDict (system_error_body x dd))
                                          (exchange r) (error_key r) (correlation_id message);
                                        EvReject false]))
           | Doc (JList _) =>
               (Raise (mk_exn TypeError "TypeError"
                         "list indices must be integers or slices, not str"),
                DState (content st1) PyNone (trace st1))
           | _ =>
               (Raise (mk_exn TypeError "TypeError" "object does not support item assignment"),
                DState (content st1) PyNone (trace st1))
           end
         else (Raise x, DState (content st1) PyNone (trace st1))
     end).
Proof.
  unfold process_request.
  destruct decode_step as [[-> ->]|[-> ->]].
  - unfold set_cid, set_content, ack. run_py.
    destruct (truthy (as_content (body message))); simpl; [|reflexivity].
    destruct (_handle_request _ _ _ _ _ _) as [[[]|x] [ct ci tr]]; simpl; [reflexivity|].
    handlers x ct.
  - unfold set_cid, set_content, ack. run_py.
    destruct (loads (body message)) as [j|e]; simpl.
    + destruct (json_truthy j); simpl; [|reflexivity].
      destruct (_handle_request _ _ _ _ _ _) as [[[]|x] [ct ci tr]]; simpl; [reflexivity|].
      handlers x ct.
    + handlers e (as_content (body message)).
Qed.

(** [_handle_request], whatever [work] does. *)
Lemma handle_request_cases (ex ek : pyarg) (uk : string) (st : dstate) :
  _handle_request c work ex ek uk st
  = (let run := work (content st) in
     let t1 := trace st ++ run_events run in
     match run_outcome run with
     | Ok _ => (Ok tt, DState (run_content run) (cid st) (t1 ++ [EvAck]))
     | Raise e =>
         if is_RejectMessage (exn_cls e) then
           (Ok tt, DState (run_content run) (cid st) (t1 ++ [EvReject true]))
         else if is_FromUser (exn_cls e) then
           match run_content run with
           | Doc (JDict d') =>
               let body := JDict (user_error_body e d') in
               if arg_truthy (cid st) then
                 match (if arg_truthy uk then Ok uk
                        else Config.get c "DEFAULT" "routing_key") with
                 | Ok k =>
                     (Raise e,
                      DState body (cid st)
                        (t1 ++ [EvPublish body
                                  (Config.get_or c "DEFAULT" "exchange" (PyStr "ingestion.v1"))
                                  k (cid st);
                                EvAck]))
                 | Raise x => (Raise x, DState body (cid st) t1)
                 end
               else (Raise (assertion_error "You should not publish without a correlation id"),
                     DState body (cid st) t1)
           | _ => (Raise (assertion_error "We should have a dict here"),
                   DState (run_content run) (cid st) t1)
           end
         else (Raise e, DState (run_content run) (cid st) t1)
     end).
Proof.
  destruct st as [ct ci tr].
  unfold _handle_request, call_work, ack, reject, publish, connection_publish, content_dumps,
    setitem, clean_content, set_content, user_error_body.
  run_py.
  destruct (run_outcome (work ct)) as [v|e]; simpl; [reflexivity|].
  destruct (is_RejectMessage (exn_cls e)); simpl; [reflexivity|].
  destruct (is_FromUser (exn_cls e)); simpl; [|reflexivity].
  destruct (run_content (work ct)) as [[]|]; simpl; try reflexivity.
  unfold py_or. simpl.
  destruct (arg_truthy ci); simpl; [|reflexivity].
  destruct (negb (String.eqb uk EmptyString)); simpl.
  - rewrite get_or_is_string. simpl. rewrite <- !app_assoc. reflexivity.
  - destruct (Config.get c "DEFAULT" "routing_key"); simpl; [|reflexivity].
    rewrite get_or_is_string. simpl. rewrite <- !app_assoc. reflexivity.
Qed.

(** X5.  Whatever the delivery, the worker and the outcome, the ambient
    correlation id is cleared when [process_request] is left, also when it is
    left by an exception. *)
Theorem correlation_id_is_always_cleared (st : dstate) :
  cid (snd (process_request c loads work r message st)) = PyNone.
Proof.
  rewrite process_request_decoded.
  destruct (match decoded loads message with Ok _ => _ | Raise _ => _ end) as [[[]|x] st1];
    simpl; [reflexivity|].
  destruct (is_JSONDecodeError (exn_cls x)); [destruct (content st1); reflexivity|].
  destruct (is_Exception (exn_cls x)); [|reflexivity].
  destruct (content st1) as [[]|]; reflexivity.
Qed.

Lemma settled_app (t u : list event) : settled u = true -> settled (t ++ u) = true.
Proof.
  unfold settled, acked, rejected. rewrite !existsb_app.
  intros H. apply orb_true_iff in H as [H|H]; rewrite H;
    rewrite ?orb_true_r; reflexivity.
Qed.

(** X6.  When [process_request] returns, the delivery has been acked or
    rejected; when it raises instead, the dispatcher has neither acked nor
    rejected the delivery nor published anything: the trace holds at most what
    [work] itself sent. *)
Theorem returns_settled_raises_untouched :
  let run := process_request c loads work r message idle in
  match fst run with
  | Ok _ => settled (trace (snd run)) = true
  | Raise _ => trace (snd run) = []
               \/ exists content, trace (snd run) = run_events (work content)
  end.
Proof.
  intros run. subst run. rewrite process_request_decoded. simpl.
  destruct (decoded loads message) as [j|e].
  - destruct (truthy j).
    + rewrite handle_request_cases. simpl.
      destruct (run_outcome (work j)) as [v|e]; simpl.
      { apply settled_app. reflexivity. }
      destruct (is_RejectMessage (exn_cls e)) eqn:Hr; simpl.
      { apply settled_app. reflexivity. }
      destruct (is_FromUser (exn_cls e)) eqn:Hu; simpl.
      * destruct (run_content (work j)) as [[| | | | |d']|b] eqn:Hc; simpl;
          try (right; exists j; reflexivity).
        destruct (arg_truthy (correlation_id message)); simpl.
        -- destruct (if arg_truthy (user_error_key r) then _ else _) as [k|x]; simpl.
           ++ assert (He : is_JSONDecodeError (exn_cls e) = false
                           /\ is_Exception (exn_cls e) = true).
              { destruct e as [[] ? ? ?]; simpl in *; try discriminate; split; reflexivity. }
              destruct He as [-> ->]. simpl. apply settled_app. reflexivity.
           ++ destruct (is_JSONDecodeError (exn_cls x)); simpl;
                [apply settled_app; reflexivity|].
              destruct (is_Exception (exn_cls x)); simpl;
                [apply settled_app; reflexivity | right; exists j; reflexivity].
        -- apply settled_app. reflexivity.
      * destruct (is_JSONDecodeError (exn_cls e)); simpl.
        { destruct (run_content (work j)); simpl;
            [apply settled_app; reflexivity | right; exists j; reflexivity]. }
        destruct (is_Exception (exn_cls e)); simpl; [|right; exists j; reflexivity].
        destruct (run_content (work j)) as [[]|]; simpl;
          try (right; exists j; reflexivity); apply settled_app; reflexivity.
    + simpl. reflexivity.
  - simpl. destruct (is_JSONDecodeError (exn_cls e)); simpl.
    { destruct (as_content (body message)); simpl; [reflexivity | left; reflexivity]. }
    destruct (is_Exception (exn_cls e)); simpl; [|left; reflexivity].
    destruct (as_content (body message)) as [[]|]; simpl;
      try (left; reflexivity); reflexivity.
Qed.

(** X7.  A delivery whose decoded content is falsy (an empty object or array,
    an empty text, [null], [false] or zero) is acked and nothing else
    happens: [work] is not called and nothing is published. *)
Theorem empty_content_is_only_acked (j : content_t) :
  decoded loads message = Ok j ->
  truthy j = false ->
  process_request c loads work r message idle = (Ok tt, DState j PyNone [EvAck]).
Proof.
  intros Hd Ht. rewrite process_request_decoded, Hd, Ht. reflexivity.
Qed.

(** X8.  A delivery whose JSON body does not parse.  When the library hands
    the body over as text, the delivery is answered with exactly one message,
    the envelope [{informal, formal, message}] holding the raw body, under
    the system-error key, and is rejected without requeue; no correlation id
    is needed for this message.  When the library hands the body over as
    bytes (an empty payload, or one that is not UTF-8), [json.dumps] cannot
    print the envelope: its [TypeError] leaves [process_request] with nothing
    published and the delivery neither acked nor rejected.  [work] is called
    in neither case. *)
Theorem malformed_json_is_reported_and_rejected (e : exn) :
  decoded loads message = Raise e ->
  is_JSONDecodeError (exn_cls e) = true ->
  match body message with
  | Text s =>
      process_request c loads work r message idle
      = (Ok tt,
         DState (JStr s) PyNone
           [EvPublish (malformed e (JStr s)) (exchange r) (error_key r)
              (correlation_id message);
            EvReject false])
      /\ field "message" (malformed e (JStr s)) = Some (JStr s)
      /\ field "informal" (malformed e (JStr s)) = Some (JStr "Malformed JSON-message")
  | Bytes b =>
      process_request c loads work r message idle
      = (Raise not_serializable, DState (Raw b) PyNone [])
  end.
Proof.
  intros Hd He. rewrite process_request_decoded, Hd. simpl. rewrite He.
  destruct (body message); simpl; [|reflexivity].
  split; [reflexivity|]. split; reflexivity.
Qed.

(** X9.  When [work] returns, the dispatcher acks the delivery and publishes
    nothing of its own: what [work] returned is dropped, so the only messages
    of the run are those [work] sent itself. *)
Theorem success_is_acked_and_the_reply_dropped (j : content_t) (v : json) :
  decoded loads message = Ok j ->
  truthy j = true ->
  run_outcome (work j) = Ok v ->
  let run := process_request c loads work r message idle in
  run = (Ok tt, DState (run_content (work j)) PyNone (run_events (work j) ++ [EvAck]))
  /\ published (trace (snd run)) = published (run_events (work j)).
Proof.
  intros Hd Ht Hv run. subst run.
  rewrite process_request_decoded, Hd, Ht, handle_request_cases. simpl. rewrite Hv. simpl.
  split; [reflexivity|].
  unfold published. rewrite omap_app. simpl. apply app_nil_r.
Qed.

(** X10.  When [work] raises [RejectMessage], the delivery is rejected with
    requeue (the default of [reject]), it is not acked, and the dispatcher
    publishes nothing. *)
Theorem reject_message_requeues (j : content_t) (e : exn) :
  decoded loads message = Ok j ->
  truthy j = true ->
  run_outcome (work j) = Raise e ->
  is_RejectMessage (exn_cls e) = true ->
  let run := process_request c loads work r message idle in
  run = (Ok tt, DState (run_content (work j)) PyNone
                  (run_events (work j) ++ [EvReject true]))
  /\ published (trace (snd run)) = published (run_events (work j)).
Proof.
  intros Hd Ht Hv Hr run. subst run.
  rewrite process_request_decoded, Hd, Ht, handle_request_cases. simpl.
  rewrite Hv, Hr. simpl.
  split; [reflexivity|].
  unfold published. rewrite omap_app. simpl. apply app_nil_r.
Qed.

End DispatcherPaths.

(* ================================================================== *)
(** * More on the TLS arguments                                        *)
(* ================================================================== *)

Section TLSMatrix.

Import Amqp.

Variable rt : runtime.
Variable c : Config.conf.
Variable conf_section : string.

Lemma peer_verification_mode (p : bool) (ctx : SSLContext) :
  Config.getboolean c conf_section "verify_peer" false = Ok p ->
  peer_verification rt c conf_section = Ok ctx ->
  verify_mode ctx = (if p then CERT_REQUIRED else CERT_NONE)
  /\ check_hostname ctx = false
  /\ (p = false -> cafile ctx = None).
Proof.
  unfold peer_verification. intros ->. simpl. destruct p; simpl.
  - destruct (Config.get_or c conf_section "cacertfile" PyNone) as [|f|]; simpl;
      try solve [intros H; inversion H; subst; repeat split; discriminate].
    destruct (negb (String.eqb f EmptyString)); simpl;
      [|solve [intros H; inversion H; subst; repeat split; discriminate]].
    destruct (load_verify_locations rt f); simpl; [|discriminate].
    intros H; inversion H; subst. repeat split; discriminate.
  - intros H; inversion H; subst. repeat split.
Qed.

(** X11.  What the TLS context verifies follows the two options: it requires
    a peer certificate exactly when [verify_peer] or [verify_hostname] is
    true, and it checks the hostname exactly when [verify_hostname] is true.
    With neither option set, an [amqps] connection verifies nothing. *)
Theorem tls_verifies_what_is_asked_for (p h : bool) (o : ssl_options_t) :
  Config.getboolean c conf_section "verify_peer" false = Ok p ->
  Config.getboolean c conf_section "verify_hostname" false = Ok h ->
  tls_options rt c conf_section = Ok o ->
  verify_mode (context o) = (if p || h then CERT_REQUIRED else CERT_NONE)
  /\ check_hostname (context o) = h
  /\ (p = false -> cafile (context o) = None).
Proof.
  intros Hp Hh. unfold tls_options.
  destruct (peer_verification rt c conf_section) as [ctx|] eqn:Hpeer; simpl; [|discriminate].
  destruct (peer_verification_mode p ctx Hp Hpeer) as (Hm & Hc & Hca).
  unfold hostname_verification. rewrite Hh. simpl.
  assert (Hkeep : forall x x', client_verification rt c conf_section x = Ok x' ->
                               verify_mode x' = verify_mode x
                               /\ check_hostname x' = check_hostname x
                               /\ cafile x' = cafile x).
  { clear. intros x x'. unfold client_verification.
    destruct (Config.get_or c conf_section "certfile" PyNone) as [|f|]; simpl;
      try solve [intros H; inversion H; subst; repeat split].
    destruct (negb (String.eqb f EmptyString)); simpl;
      [|solve [intros H; inversion H; subst; repeat split]].
    destruct (Config.get c conf_section "keyfile") as [k|]; simpl; [|discriminate].
    destruct (load_cert_chain rt f k); simpl; [|discriminate].
    intros H; inversion H; subst; repeat split. }
  destruct h; simpl.
  - destruct (arg_truthy (Config.get_or c conf_section "server_hostname" PyNone)); simpl;
      [|discriminate].
    destruct (client_verification _ _ _ _) as [x'|] eqn:Hcl; simpl; [|discriminate].
    intros H; inversion H; subst; simpl.
    destruct (Hkeep _ _ Hcl) as (H1 & H2 & H3). simpl in *.
    rewrite orb_true_r. repeat split; try assumption.
    intros Hpf. rewrite H3. apply Hca. exact Hpf.
  - destruct (client_verification _ _ _ _) as [x'|] eqn:Hcl; simpl; [|discriminate].
    intros H; inversion H; subst; simpl.
    destruct (Hkeep _ _ Hcl) as (H1 & H2 & H3).
    rewrite orb_false_r, H1, H2, H3. repeat split; try assumption.
Qed.

Variable w w1 : Conf.world.
Variable params : string.
Hypothesis Huri : connection_uri c conf_section w = (Ok params, w1).

(** X12.  For a URI that does not start with [amqps], [fetch_args] builds no
    TLS options and reads none of them (so that a [verify_hostname] without
    [server_hostname] goes unnoticed); with [try_interval] and [try] not
    configured, the retry parameters are 1 and 30. *)
Theorem plain_uri_needs_no_tls (e1 e2 : exn) :
  startswith "amqps" params = false ->
  Config.get c conf_section "try_interval" = Raise e1 ->
  Config.get c conf_section "try" = Raise e2 ->
  fetch_args rt c conf_section w = (Ok (Args params 1 30 None), w1).
Proof.
  intros Hs H1 H2. unfold fetch_args. unfold mbind at 1, M_bind, bind.
  rewrite Huri, Hs. unfold Config.getint. rewrite H1, H2. reflexivity.
Qed.

End TLSMatrix.

(* ================================================================== *)
(** * More on the ingestion pipeline                                   *)
(* ================================================================== *)

Section HexText.

Import Notions.

Lemma unhex_hex_byte (a : ascii) :
  hex_value (hex_digit (nat_of_ascii a / 16)) = Some (nat_of_ascii a / 16)%nat
  /\ hex_value (hex_digit (nat_of_ascii a mod 16)) = Some (nat_of_ascii a mod 16)%nat
  /\ ascii_of_nat (16 * (nat_of_ascii a / 16) + nat_of_ascii a mod 16) = a.
Proof. destruct a as [[] [] [] [] [] [] [] []]; vm_compute; repeat split. Qed.

Lemma unhex_hex (b : string) : unhex (hex b) = Some b.
Proof.
  induction b as [|a b IH]; [reflexivity|].
  destruct (unhex_hex_byte a) as (H1 & H2 & H3).
  change (hex (String a b))
    with (String (hex_digit (nat_of_ascii a / 16))
            (String (hex_digit (nat_of_ascii a mod 16)) (hex b))).
  cbn [unhex]. rewrite H1, H2, IH. cbn [mbind option_bind]. rewrite H3. reflexivity.
Qed.

Lemma hex_length (b : string) : String.length (hex b) = (2 * String.length b)%nat.
Proof. induction b as [|a b IH]; simpl; [reflexivity|]. rewrite IH. lia. Qed.

End HexText.

Section PipelineRuns.

Import Ingest Observe Notions.

Variable conf : Config.conf.
Variable db : DB.
Variable sys : Inbox.
Variable fs : Storage.
Variable channel : pyarg.

#[local] Arguments json_dumps : simpl never.

Ltac unfold_pipeline :=
  unfold work, call, getitem, setitem, pop, copy, store, publish, Amqp.publish,
    Amqp.connection_publish, deref.

Ltac lookups H :=
  repeat (first [ rewrite lookup_insert_eq
                | rewrite lookup_insert_ne by congruence
                | rewrite H
                | progress simpl ]).

(** Everything a returning run of [work] went through. *)
Lemma work_returns_run (data : loc) (h : gmap loc (gmap string pyval)) (n : loc)
    (ci : pyarg) (D : gmap string pyval) (l : loc) (st' : istate) :
  h !! data = Some D ->
  data <> n ->
  work conf db sys fs channel data (IState h n ci []) = (Ok l, st') ->
  exists path user uid fid inbox b hd target size body,
    l = data
    /\ D !! "filepath" = Some (VJson (JStr path))
    /\ D !! "user" = Some user
    /\ sanitize_user_id sys user = Ok uid
    /\ insert_file db (VJson (JStr path)) uid = Ok fid
    /\ inbox_location sys uid = Ok inbox
    /\ path_exists sys (path_join sys inbox (lstrip "/" path)) = true
    /\ get_header sys (path_join sys inbox (lstrip "/" path)) = Ok (b, hd)
    /\ location fs fid = Ok target
    /\ copy_rest fs (path_join sys inbox (lstrip "/" path)) target = Ok size
    /\ set_info db fid target size (hex (b +:+ hd)) = Ok tt
    /\ trace st'
       = [EvInsertFile (VJson (JStr path)) uid;
          EvExists (path_join sys inbox (lstrip "/" path));
          EvMarkInProgress fid;
          EvPublish body
            (py_or channel (Config.get_or conf "DEFAULT" "exchange" (PyStr "ingestion.v1")))
            (PyStr "cega") (PyStr "files.processing");
          EvOpen (path_join sys inbox (lstrip "/" path));
          EvGetHeader (path_join sys inbox (lstrip "/" path));
          EvLocation fid;
          EvCopy (path_join sys inbox (lstrip "/" path)) target;
          EvSetInfo fid target size (hex (b +:+ hd))]
    /\ heap st' !! data
       = Some (<["vault_path" := VJson (JStr target)]>
               (<["header" := VJson (JStr (hex (b +:+ hd)))]>
               (<["org_msg" := VRef n]>
               (<["file_id" := VJson (JInt fid)]> D))))
    /\ (forall request : gmap string json,
          D = VJson <$> request ->
          body = JDict (<["status" := JStr "PROCESSING"]>
                        (<["file_id" := JInt fid]> request))).
Proof.
  intros Hd Hne Hrun. pattern l, st'.
  match goal with |- ?F l st' => set (P := F) end.
  revert Hrun. revert l st'.
  unfold_pipeline. split_cases; intros lx stx Hrun; try discriminate.
  injection Hrun as <- <-. unfold P.
  match goal with
  | H0 : default ∅ (h !! data) !! "user" = Some ?u,
    H1 : insert_file db (VJson (JStr ?s)) ?a = Ok ?f,
    H2 : location fs _ = Ok ?tg,
    H3 : get_header sys _ = Ok (?b, ?hd),
    H4 : inbox_location sys _ = Ok ?ib,
    H5 : copy_rest fs _ _ = Ok ?sz,
    H6 : json_dumps _ _ = Some ?bd |- _ =>
      exists s, u, a, f, ib, b, hd, tg, sz, bd
  end.
  rewrite Hd in *. simpl in *.
  repeat match goal with
         | H : negb _ = false |- _ => apply negb_false_iff in H
         | u : unit |- _ => destruct u
         end.
  repeat (split; [first [reflexivity | assumption]|]).
  split; [lookups Hd; reflexivity|].
  intros request ->.
  match goal with H : json_dumps _ _ = Some _ |- _ => revert H end.
  unfold json_dumps. cbn [dumps heap]. lookups Hd.
  rewrite <- !fmap_insert.
  rewrite dict_dumps_documents by (intros; apply dumps_document).
  simpl. intros H; inversion H. reflexivity.
Qed.

Lemma received_data (request : gmap string json) :
  ({[0%nat := VJson <$> request]} : gmap loc (gmap string pyval)) !! 0%nat
  = Some (VJson <$> request).
Proof. apply lookup_singleton_eq. Qed.

(** X13.  On every run of [work] that returns, the outside world has seen
    exactly these calls, each once and in this order: [insert_file], the
    [exists] test, [mark_in_progress], the progress message (the request with
    the [file_id] and the status), [open], [get_header], [location], [copy],
    [set_info].  [set_info] is given the target that [location] returned, the
    size that [copy] returned and the hexadecimal text of the bytes
    [beginning + header], which decodes back to these bytes. *)
Theorem work_calls_in_order (request : gmap string json) (ci : pyarg) (l : loc) :
  fst (work conf db sys fs channel 0%nat (received request ci)) = Ok l ->
  exists path uid fid inbox b hd target size,
    insert_file db (VJson (JStr path)) uid = Ok fid
    /\ get_header sys (path_join sys inbox (lstrip "/" path)) = Ok (b, hd)
    /\ location fs fid = Ok target
    /\ copy_rest fs (path_join sys inbox (lstrip "/" path)) target = Ok size
    /\ trace (snd (work conf db sys fs channel 0%nat (received request ci)))
       = [EvInsertFile (VJson (JStr path)) uid;
          EvExists (path_join sys inbox (lstrip "/" path));
          EvMarkInProgress fid;
          EvPublish (JDict (<["status" := JStr "PROCESSING"]>
                            (<["file_id" := JInt fid]> request)))
            (py_or channel (Config.get_or conf "DEFAULT" "exchange" (PyStr "ingestion.v1")))
            (PyStr "cega") (PyStr "files.processing");
          EvOpen (path_join sys inbox (lstrip "/" path));
          EvGetHeader (path_join sys inbox (lstrip "/" path));
          EvLocation fid;
          EvCopy (path_join sys inbox (lstrip "/" path)) target;
          EvSetInfo fid target size (hex (b +:+ hd))]
    /\ unhex (hex (b +:+ hd)) = Some (b +:+ hd).
Proof.
  destruct (work conf db sys fs channel 0%nat (received request ci)) as [[l'|e] st'] eqn:Hrun;
    simpl; [|discriminate].
  intros _.
  destruct (work_returns_run 0%nat _ 1%nat ci _ l' st' (received_data request)
              ltac:(discriminate) Hrun)
    as (path & user & uid & fid & inbox & b & hd & target & size & body & _ & _ & _ & _
        & Hi & _ & _ & Hg & Hl & Hc & _ & Ht & _ & Hb).
  exists path, uid, fid, inbox, b, hd, target, size.
  rewrite (Hb request eq_refl) in Ht.
  repeat (split; [assumption|]). apply unhex_hex.
Qed.

(** What [json.dumps] prints for each key of the dictionary it is given. *)
Lemma json_dumps_field (st : istate) (data : loc) (Dfin : gmap string pyval)
    (out : json) (key : string) :
  heap st !! data = Some Dfin ->
  json_dumps st (VRef data) = Some out ->
  field key out = Dfin !! key ≫= dumps (size (heap st)) (heap st).
Proof.
  intros Hd. unfold json_dumps. simpl. rewrite Hd. simpl.
  unfold dict_dumps. destruct (decide _) as [Hall|]; simpl; [|discriminate].
  intros H. inversion H; subst out. unfold field. simpl. apply lookup_omap.
Qed.

(** X14.  The reply of a run that returns holds, besides [file_id] and
    [org_msg], the field [header] with the hexadecimal text of
    [beginning + header] (twice as many characters as bytes), the field
    [vault_path] with the target that [location] returned, and every other
    field exactly as the request had it. *)
Theorem reply_echoes_the_request (request : gmap string json) (ci : pyarg) (out : json) :
  reply (work conf db sys fs channel 0%nat (received request ci)) = Some out ->
  exists path uid fid inbox b hd target,
    insert_file db (VJson (JStr path)) uid = Ok fid
    /\ get_header sys (path_join sys inbox (lstrip "/" path)) = Ok (b, hd)
    /\ location fs fid = Ok target
    /\ field "header" out = Some (JStr (hex (b +:+ hd)))
    /\ String.length (hex (b +:+ hd)) = (2 * String.length (b +:+ hd))%nat
    /\ field "vault_path" out = Some (JStr target)
    /\ (forall key,
          key ∉ ["file_id"; "org_msg"; "header"; "vault_path"] ->
          field key out = request !! key).
Proof.
  unfold reply.
  destruct (work conf db sys fs channel 0%nat (received request ci)) as [[l'|e] st'] eqn:Hrun;
    [|discriminate].
  intros Hout.
  destruct (work_returns_run 0%nat _ 1%nat ci _ l' st' (received_data request)
              ltac:(discriminate) Hrun)
    as (path & user & uid & fid & inbox & b & hd & target & size & body & -> & _ & _ & _
        & Hi & _ & _ & Hg & Hl & _ & _ & _ & Hh & _).
  exists path, uid, fid, inbox, b, hd, target.
  repeat (split; [assumption|]).
  split.
  { rewrite (json_dumps_field st' 0%nat _ out "header" Hh Hout).
    rewrite lookup_insert_ne by discriminate. rewrite lookup_insert_eq. simpl.
    apply dumps_document. }
  split; [apply hex_length|]. split.
  { rewrite (json_dumps_field st' 0%nat _ out "vault_path" Hh Hout).
    rewrite lookup_insert_eq. simpl. apply dumps_document. }
  intros key Hkey.
  rewrite (json_dumps_field st' 0%nat _ out key Hh Hout).
  assert (Hne : key <> "vault_path" /\ key <> "header" /\ key <> "org_msg"
                /\ key <> "file_id").
  { repeat split; intros ->; apply Hkey; repeat constructor. }
  destruct Hne as (H1 & H2 & H3 & H4).
  rewrite !lookup_insert_ne by congruence.
  rewrite lookup_fmap. destruct (request !! key); simpl; [apply dumps_document | reflexivity].
Qed.

(** X15.  A request without [filepath], or with [filepath] but without
    [user], makes [work] raise the [KeyError] of that key before anything is
    done: no call to the database, the inbox or the broker, and the request
    is as it was. *)
Theorem missing_field_is_a_key_error (request : gmap string json) (ci : pyarg) :
  (request !! "filepath" = None ->
   work conf db sys fs channel 0%nat (received request ci)
   = (Raise (key_error "filepath"), received request ci))
  /\ (forall path, request !! "filepath" = Some path ->
       request !! "user" = None ->
       work conf db sys fs channel 0%nat (received request ci)
       = (Raise (key_error "user"), received request ci)).
Proof.
  split.
  - intros Hf. unfold work, getitem, deref, received. run_py.
    rewrite received_data. simpl. rewrite lookup_fmap, Hf. reflexivity.
  - intros path Hf Hu. unfold work, getitem, deref, received. run_py.
    rewrite received_data. simpl. rewrite lookup_fmap, Hf. run_py.
    rewrite received_data. simpl. rewrite lookup_fmap, Hu. reflexivity.
Qed.

(** X16.  [work] returns exactly when it got as far as [set_info] and
    [set_info] returned: [set_info] is its last call, and nothing that
    follows can fail. *)
Theorem work_returns_iff_set_info_returned
    (data : loc) (h : gmap loc (gmap string pyval)) (n : loc) (ci : pyarg) :
  let run := work conf db sys fs channel data (IState h n ci []) in
  after_set_info (trace (snd run)) = []
  /\ ((exists l, fst run = Ok l)
      <-> (exists fid target size hx,
              last (trace (snd run)) = Some (EvSetInfo fid target size hx)
              /\ set_info db fid target size hx = Ok tt)).
Proof.
  unfold_pipeline. split_cases.
  all: split; [reflexivity|].
  all: split;
    [ intros [lx Hx]; try discriminate
    | intros (fx & tx & sx & hx & H1 & H2); simpl in H1; try discriminate ].
  all: try (injection H1 as <- <- <- <-; congruence).
  all: repeat match goal with u : unit |- _ => destruct u end.
  all: eauto 10.
Qed.

End PipelineRuns.

(* ================================================================== *)
(** * Properties of the process name                                   *)
(* ================================================================== *)

Section ProcessName.

Import Connection.

Lemma find_from_absent (c : ascii) (data : string) (i j : Z) :
  0 <= i -> find_from c data i = -1 -> find_from c data j = -1.
Proof.
  revert i j. induction data as [|a data IH]; intros i j Hi H; simpl in *.
  - reflexivity.
  - destruct (Ascii.eqb a c); [lia|].
    apply (IH (i + 1) (j + 1)); [lia|exact H].
Qed.

Lemma find_from_skip (c : ascii) (pre s : string) (i : Z) :
  0 <= i ->
  find c pre = -1 ->
  find_from c (pre +:+ s) i = find_from c s (i + Z.of_nat (String.length pre)).
Proof.
  unfold find. revert i. induction pre as [|a pre IH]; intros i Hi H; simpl in *.
  - f_equal. lia.
  - destruct (Ascii.eqb a c); [lia|].
    rewrite IH; [f_equal; lia|lia|].
    apply (find_from_absent c pre 1 0); [lia|exact H].
Qed.

Lemma string_append_assoc (p q r : string) : (p +:+ q) +:+ r = p +:+ (q +:+ r).
Proof.
  induction p as [|a p IH]; [reflexivity|].
  change (String a ((p +:+ q) +:+ r) = String a (p +:+ q +:+ r)).
  rewrite IH. reflexivity.
Qed.

Lemma substring_skip (p s : string) (m : nat) :
  substring (String.length p) m (p +:+ s) = substring 0 m s.
Proof. induction p as [|a p IH]; simpl; [reflexivity|exact IH]. Qed.

Lemma substring_prefix (p s : string) :
  substring 0 (String.length p) (p +:+ s) = p.
Proof.
  induction p as [|a p IH]; simpl.
  - destruct s; reflexivity.
  - rewrite IH. reflexivity.
Qed.

Lemma string_length_app (p s : string) :
  String.length (p +:+ s) = (String.length p + String.length s)%nat.
Proof. induction p as [|a p IH]; simpl; [reflexivity|rewrite IH; reflexivity]. Qed.

(** X17 ([_get_linux_process_name], lines 64-66).  The name is the text
    between the first opening and the first closing parenthesis of the stat
    line: whatever follows the first closing parenthesis is dropped, also
    when it belongs to a process name that holds one. *)
Theorem process_name_ends_at_first_closing (pre name rest : string) :
  find "(" pre = -1 ->
  find ")" pre = -1 ->
  find ")" name = -1 ->
  process_name (pre +:+ "(" +:+ name +:+ ")" +:+ rest) = name.
Proof.
  intros Hopen Hclose Hname. unfold process_name, find.
  change (pre +:+ "(" +:+ name +:+ ")" +:+ rest)
    with (pre +:+ String "(" (name +:+ String ")" rest)).
  rewrite !find_from_skip by (try lia; assumption).
  simpl find_from. rewrite find_from_skip by (try lia; assumption).
  simpl find_from.
  unfold slice, bound. rewrite !string_length_app. simpl String.length. rewrite string_length_app.
  simpl String.length.
  set (p := String.length pre). set (n := String.length name).
  set (r := String.length rest).
  destruct (0 + Z.of_nat p + 1 <? 0) eqn:H1; [lia|].
  destruct (0 + Z.of_nat p + 1 + Z.of_nat n <? 0) eqn:H2; [lia|].
  rewrite !Z.min_l by lia.
  replace (Z.to_nat (0 + Z.of_nat p + 1)) with (String.length (pre +:+ "("))
    by (rewrite string_length_app; simpl; lia).
  replace (Z.to_nat (0 + Z.of_nat p + 1 + Z.of_nat n - (0 + Z.of_nat p + 1))) with n by lia.
  change (pre +:+ String "(" (name +:+ String ")" rest))
    with (pre +:+ ("(" +:+ (name +:+ String ")" rest))).
  rewrite <- string_append_assoc. rewrite substring_skip. apply substring_prefix.
Qed.

End ProcessName.

(* ================================================================== *)
(** * Properties of the connection manager                             *)
(* ================================================================== *)

Ltac unfold_manager :=
  unfold Connection.publish, Connection.subscribe, Connection.connect,
    Connection.establish, Connection.close, Connection.open_channel, Connection.call.

Section ManagerRuns.

Import Connection.

#[local] Arguments startswith : simpl never.

Variable lib : library.
Variable rt : Amqp.runtime.
Variable c : Config.conf.
Variable conf_section : string.

(** What [fetch_args] leaves alone: the connection, the channels and the
    history. *)
Lemma fetch_args_frame (st : state) :
  let st' := snd (fetch_args rt c conf_section st) in
  conn st' = conn st /\ pub_channel st' = pub_channel st
  /\ pull_channel st' = pull_channel st /\ history st' = history st.
Proof.
  unfold fetch_args, in_world. split_cases; simpl; auto.
Qed.

(** The attributes after a successful [fetch_args] are the arguments of
    [Amqp.fetch_args]; the TLS options stay as they were for a plain URI. *)
Lemma fetch_args_assigns (st : state) (args : Amqp.connection_args) (w1 : Conf.world) :
  Amqp.fetch_args rt c conf_section (world st) = (Ok args, w1) ->
  fetch_args rt c conf_section st
  = (Ok tt,
     State w1 (conn st) (pub_channel st) (pull_channel st)
       (Some (Amqp.connection_params args))
       (match Amqp.ssl_options args with Some o => Some o | None => ssl_options st end)
       (Some (Amqp.interval args)) (Some (Amqp.attempts args)) (history st)).
Proof.
  unfold fetch_args, Amqp.fetch_args, in_world. destruct st; simpl.
  run_py.
  destruct (Amqp.connection_uri c conf_section world0) as [[p|e] w2]; [|discriminate].
  run_py.
  destruct (Config.getint (Amqp.int rt) c conf_section "try_interval" 1) as [i|e];
    [|discriminate].
  run_py.
  destruct (Config.getint (Amqp.int rt) c conf_section "try" 30) as [a|e]; [|discriminate].
  run_py.
  destruct (startswith "amqps" p); run_py.
  - destruct (Amqp.tls_options rt c conf_section) as [o|e]; [|discriminate].
    intros H; inversion H; subst; reflexivity.
  - intros H; inversion H; subst; reflexivity.
Qed.

Lemma close_run (st : state) :
  close lib st
  = match conn st with
    | Some k =>
        if is_open lib (history st) k then
          match outcome lib (history st ++ [CloseConnection k]) with
          | Ok _ => (Ok tt, set_conn None (add (CloseConnection k) st))
          | Raise e => (Raise e, add (CloseConnection k) st)
          end
        else (Ok tt, set_conn None st)
    | None => (Ok tt, set_conn None st)
    end.
Proof.
  unfold close, call. run_py. destruct (conn st) as [k|]; [|reflexivity].
  destruct (is_open lib (history st) k); [|reflexivity].
  run_py. destruct (outcome lib (history st ++ [CloseConnection k])) as [[]|e]; reflexivity.
Qed.

Lemma establish_cached (st : state) :
  unset (connection_params st) = false ->
  establish lib rt c conf_section st
  = let d := Dial (connection_params st) (ssl_options st) (attempts st) (interval st) in
    match outcome lib (history st ++ [d]) with
    | Ok _ => (Ok tt, set_conn (Some (length (history st))) (add d st))
    | Raise e => (Raise e, add d st)
    end.
Proof.
  intros H. unfold establish, call. run_py. rewrite H. run_py.
  destruct (outcome lib _) as [[]|e]; reflexivity.
Qed.

(** [connect] on a connection that is not closed does nothing. *)
Lemma connect_open (st : state) (k : nat) :
  conn st = Some k ->
  is_closed lib (history st) k = false ->
  connect lib rt c conf_section false st = (Ok tt, st).
Proof.
  intros Hk Hc. unfold connect. run_py. rewrite Hk, Hc. reflexivity.
Qed.

Ltac frame_fetch :=
  repeat match goal with
         | H : fetch_args _ _ _ ?s0 = (_, _) |- _ =>
             let F := fresh "F" in
             pose proof (fetch_args_frame s0) as F; rewrite H in F; simpl in F;
             destruct F as (? & ? & ? & ?); clear H
         end.

Ltac grown :=
  repeat match goal with
         | H : history _ = _ |- _ => rewrite H in *; clear H
         end.

Ltac segment :=
  match goal with
  | |- exists seg, ?h = ?h ++ seg /\ _ =>
      exists []; split; [symmetry; apply app_nil_r | try reflexivity]
  | |- exists seg, _ = _ ++ seg /\ _ =>
      eexists; split; [rewrite <- ?app_assoc; reflexivity | try reflexivity]
  end.

(** What a run of [connect] does, however it ends: it leaves the channels
    alone, calls nothing but [close] and the dialler, has a connection when
    it returns, and reads no configuration when the arguments are there. *)
Lemma connect_spec (force : bool) (st : state) :
  let r := fst (connect lib rt c conf_section force st) in
  let st1 := snd (connect lib rt c conf_section force st) in
  pub_channel st1 = pub_channel st /\ pull_channel st1 = pull_channel st
  /\ (exists seg, history st1 = history st ++ seg /\ forallb connection_call seg = true)
  /\ (r = Ok tt -> exists k, conn st1 = Some k)
  /\ (unset (connection_params st) = false ->
      world st1 = world st /\ connection_params st1 = connection_params st).
Proof.
  unfold connect, establish, close, call.
  split_cases; frame_fetch; simpl in *; grown; repeat split;
    try congruence; eauto; segment.
Qed.

Lemma close_spec (st : state) :
  let r := fst (close lib st) in
  let st1 := snd (close lib st) in
  pub_channel st1 = pub_channel st /\ pull_channel st1 = pull_channel st
  /\ world st1 = world st /\ connection_params st1 = connection_params st
  /\ (exists seg, history st1 = history st ++ seg /\ forallb connection_call seg = true)
  /\ (r = Ok tt -> conn st1 = None).
Proof.
  rewrite close_run.
  destruct (conn st) as [k|]; [destruct (is_open lib (history st) k);
    [destruct (outcome lib _) as [[]|e]|]|]; simpl; repeat split;
    try congruence; eauto; segment.
Qed.

Lemma one_at_a_time_app (a b : list op) (p : option op) :
  one_at_a_time p a = true ->
  (forall p', one_at_a_time p' b = true) ->
  one_at_a_time p (a ++ b) = true.
Proof.
  revert p. induction a as [|o a IH]; intros p Ha Hb; simpl in *.
  - apply Hb.
  - apply andb_prop in Ha as [Ho Ha]. rewrite Ho. simpl. apply IH; assumption.
Qed.

Lemma connection_calls_quiet (seg : list op) (p : option op) :
  forallb connection_call seg = true -> one_at_a_time p seg = true.
Proof.
  revert p. induction seg as [|o seg IH]; intros p H; simpl in *; [reflexivity|].
  apply andb_prop in H as [Ho H]. rewrite IH by exact H.
  destruct o; try discriminate; reflexivity.
Qed.

Lemma connection_calls_only_on (ch : channel) (seg : list op) :
  forallb connection_call seg = true -> forallb (only_on ch) seg = true.
Proof.
  induction seg as [|o seg IH]; intros H; simpl in *; [reflexivity|].
  apply andb_prop in H as [Ho H]. rewrite IH by exact H.
  destruct o; try discriminate; reflexivity.
Qed.

Lemma same_channel_refl (ch : channel) : same_channel ch ch = true.
Proof. unfold same_channel. rewrite !Nat.eqb_refl. reflexivity. Qed.

Ltac frame_close :=
  repeat match goal with
         | H : close _ ?s0 = (_, _) |- _ =>
             let F := fresh "F" in
             pose proof (close_spec s0) as F; rewrite H in F; simpl in F;
             destruct F as (? & ? & ? & ? & (? & ? & ?) & ?); clear H
         end.

Ltac frame_connect :=
  repeat match goal with
         | H : connect _ _ _ _ ?f ?s0 = (_, _) |- _ =>
             let F := fresh "F" in
             pose proof (connect_spec f s0) as F; rewrite H in F; simpl in F;
             destruct F as (? & ? & (? & ? & ?) & ? & ?); clear H
         end.

Ltac kept Hu :=
  repeat match goal with
         | H : unset _ = false -> _ /\ _ |- _ => destruct (H Hu); clear H
         end.

Ltac units := repeat match goal with u : unit |- _ => destruct u end.

Ltac one_channel :=
  repeat match goal with
         | H : pull_channel _ = Some ?a, H' : pull_channel _ = Some ?b |- _ =>
             tryif constr_eq a b then fail
             else (assert (a = b) by congruence; subst a)
         end.

Ltac quiet :=
  intros;
  repeat first
    [ reflexivity
    | apply connection_calls_quiet; assumption
    | apply one_at_a_time_app; [apply connection_calls_quiet; assumption | intros]
    | progress (simpl; rewrite ?same_channel_refl; simpl) ].

Ltac only_pull :=
  rewrite ?forallb_app;
  repeat first
    [ reflexivity
    | rewrite connection_calls_only_on by assumption
    | progress (simpl; rewrite ?same_channel_refl; simpl) ].

(** What a turn of the consuming loop does, however it ends. *)
Lemma turn_spec (queue : string) (st : state) :
  let r := fst (turn lib rt c conf_section queue st) in
  let st1 := snd (turn lib rt c conf_section queue st) in
  (exists seg, history st1 = history st ++ seg
               /\ (forall p, one_at_a_time p seg = true)
               /\ (forall ch, pull_channel st = Some ch ->
                              forallb (only_on ch) seg = true))
  /\ (forall ch, pull_channel st = Some ch -> pull_channel st1 = Some ch)
  /\ (unset (connection_params st) = false ->
      world st1 = world st /\ connection_params st1 = connection_params st)
  /\ (r = Ok false -> conn st1 = None).
Proof.
  unfold turn, subscribe, open_channel, call.
  split_cases; frame_connect; frame_close; simpl in *; grown; units.
  all: split; [eexists; split; [rewrite <- ?app_assoc; reflexivity|split]|repeat split].
  all: try solve [quiet].
  all: try solve [intros; one_channel; only_pull].
  all: try solve [intros; congruence].
  all: try solve [match goal with Hu : unset _ = false |- _ => kept Hu end; congruence].
  all: try solve [intros; discriminate].
  all: try solve [intros; eauto].
  all: intros; simplify_eq; one_channel; only_pull.
Qed.

(** What the consuming loop does in any number of turns. *)
Lemma consume_spec (queue : string) (turns : nat) (st : state) :
  let r := fst (consume lib rt c conf_section turns queue st) in
  let st1 := snd (consume lib rt c conf_section turns queue st) in
  (exists seg, history st1 = history st ++ seg
               /\ (forall p, one_at_a_time p seg = true)
               /\ (forall ch, pull_channel st = Some ch ->
                              forallb (only_on ch) seg = true))
  /\ (forall ch, pull_channel st = Some ch -> pull_channel st1 = Some ch)
  /\ (unset (connection_params st) = false ->
      world st1 = world st /\ connection_params st1 = connection_params st)
  /\ (r = Ok (Some tt) -> conn st1 = None).
Proof.
  revert st. induction turns as [|turns IH]; intros st.
  - simpl. repeat split; try discriminate.
    exists []. rewrite app_nil_r. repeat split. auto.
  - simpl. unfold mbind, M_bind, bind.
    pose proof (turn_spec queue st) as T.
    destruct (turn lib rt c conf_section queue st) as [[[|]|e] s1]; simpl in T;
      destruct T as ((seg & Hh & Hq & Ho) & Hl & Hw & Hc).
    + specialize (IH s1).
      destruct (consume lib rt c conf_section turns queue s1) as [r s2]; simpl in *.
      destruct IH as ((seg' & Hh' & Hq' & Ho') & Hl' & Hw' & Hc').
      split; [exists (seg ++ seg'); repeat split|repeat split].
      * rewrite Hh', Hh, app_assoc. reflexivity.
      * intros p. apply one_at_a_time_app; auto.
      * intros ch Hch. rewrite forallb_app, (Ho ch Hch), (Ho' ch (Hl ch Hch)). reflexivity.
      * auto.
      * destruct (Hw H) as [Hw1 Hw2]. rewrite <- Hw1. apply Hw'. rewrite Hw2. exact H.
      * destruct (Hw H) as [Hw1 Hw2]. rewrite <- Hw2. apply Hw'. rewrite Hw2. exact H.
      * exact Hc'.
    + simpl. split; [exists seg; auto|repeat split; auto; apply Hw; assumption].
    + simpl. split; [exists seg; auto|repeat split; auto; try discriminate; apply Hw; assumption].
Qed.

(** X22 ([AMQPConnection.consume], lines 173-174).  One job per worker:
    in a history where every [basic.consume] follows a [basic.qos] with a
    prefetch count of one on its channel, the loop keeps it so, for any number
    of turns and whatever the library answers. *)
Theorem consume_sets_qos_first (queue : string) (turns : nat) (st : state) :
  one_at_a_time None (history st) = true ->
  one_at_a_time None
    (history (snd (consume lib rt c conf_section turns queue st))) = true.
Proof.
  intros H. destruct (consume_spec queue turns st) as ((seg & Hh & Hq & _) & _).
  rewrite Hh. apply one_at_a_time_app; auto.
Qed.

(** X23 ([AMQPConnection.consume], lines 170-171 and 176-178).  A consumer
    that has a pull channel keeps it for good: whatever fails and however
    often it reconnects, it opens no other channel, and every later call on a
    channel is on that one, which belongs to the first connection. *)
Theorem consumer_keeps_its_channel (queue : string) (turns : nat) (st : state)
    (ch : channel) :
  pull_channel st = Some ch ->
  let st1 := snd (consume lib rt c conf_section turns queue st) in
  pull_channel st1 = Some ch
  /\ exists seg, history st1 = history st ++ seg /\ forallb (only_on ch) seg = true.
Proof.
  intros H. destruct (consume_spec queue turns st) as ((seg & Hh & _ & Ho) & Hl & _).
  split; [auto|]. exists seg. auto.
Qed.

(** X24 ([AMQPConnection.consume], lines 179-184).  When the loop is left,
    the connection object is gone: [break] comes after [close] has
    returned. *)
Theorem consume_returns_disconnected (queue : string) (turns : nat) (st st1 : state) :
  consume lib rt c conf_section turns queue st = (Ok (Some tt), st1) ->
  conn st1 = None.
Proof.
  intros H. destruct (consume_spec queue turns st) as (_ & _ & _ & Hc).
  rewrite H in Hc. apply Hc. reflexivity.
Qed.

Lemma publish_returns (st st1 : state) (body : json)
    (exchange routing_key correlation_id : pyarg) :
  publish lib rt c conf_section (Some body) exchange routing_key correlation_id st
  = (Ok tt, st1) ->
  exists k ch,
    conn st1 = Some k /\ pub_channel st1 = Some ch
    /\ last (history st1)
       = Some (Publish ch body correlation_id "application/json" 2 routing_key exchange).
Proof.
  unfold publish, open_channel, call.
  split_cases; frame_connect; units; intros E; inversion E; subst; simpl in *;
    try discriminate.
  all: match goal with
       | H : Ok () = Ok () -> exists k, _ |- _ => destruct (H eq_refl) as [k Hk]
       end.
  all: try congruence.
  all: eexists _, _; rewrite last_snoc; eauto.
Qed.

(** X18 ([AMQPConnection.publish], lines 152-163).  Once a message went
    out there is a connection and a publishing channel, and as long as the
    connection does not report itself closed every further message is one
    single call: on that same channel, with nothing dialled and no channel
    opened. *)
Theorem publish_reuses_connection_and_channel (st st1 : state) (body : json)
    (exchange routing_key correlation_id : pyarg) :
  publish lib rt c conf_section (Some body) exchange routing_key correlation_id st
  = (Ok tt, st1) ->
  exists k ch,
    conn st1 = Some k /\ pub_channel st1 = Some ch
    /\ last (history st1)
       = Some (Publish ch body correlation_id "application/json" 2 routing_key exchange)
    /\ (is_closed lib (history st1) k = false ->
        forall body' exchange' routing_key' correlation_id',
          let o := Publish ch body' correlation_id' "application/json" 2
                     routing_key' exchange' in
          publish lib rt c conf_section (Some body') exchange' routing_key'
            correlation_id' st1
          = (outcome lib (history st1 ++ [o]), add o st1)).
Proof.
  intros H. destruct (publish_returns _ _ _ _ _ _ H) as (k & ch & Hk & Hch & Hlast).
  exists k, ch. repeat split; try assumption.
  intros Hopen body' exchange' routing_key' correlation_id'. simpl.
  unfold publish. unfold mbind at 1, M_bind, bind.
  rewrite (connect_open st1 k Hk Hopen). run_py. rewrite Hch. reflexivity.
Qed.

(** X20 ([AMQPConnection.connect], lines 125-126).  The arguments are read
    once: when [connection_params] is set, connecting, publishing and
    consuming keep it and leave the host as it is (no variable, file or
    secret is looked at), so that a one-shot secret is not asked for again on
    a reconnect. *)
Theorem arguments_are_read_once (st : state) :
  unset (connection_params st) = false ->
  (forall force,
     let st1 := snd (connect lib rt c conf_section force st) in
     world st1 = world st /\ connection_params st1 = connection_params st)
  /\ (forall content exchange routing_key correlation_id,
        let st1 := snd (publish lib rt c conf_section content exchange routing_key
                          correlation_id st) in
        world st1 = world st /\ connection_params st1 = connection_params st)
  /\ (forall turns queue,
        let st1 := snd (consume lib rt c conf_section turns queue st) in
        world st1 = world st /\ connection_params st1 = connection_params st).
Proof.
  intros Hu. repeat split.
  1,2: destruct (connect_spec force st) as (_ & _ & _ & _ & Hw); apply Hw; exact Hu.
  3,4: destruct (consume_spec queue turns st) as (_ & _ & Hw & _); apply Hw; exact Hu.
  all: unfold publish, open_channel, call;
    split_cases; frame_connect; simpl in *; kept Hu; congruence.
Qed.

(** X19 ([AMQPConnection.close] and [publish], lines 140-154).  [close]
    forgets the connection and keeps the channels.  From a new manager: a
    first message dials, opens a channel and goes out; when the connection
    then reports itself closed, the second message dials again and is sent on
    the channel of the first connection, with no channel opened on the new
    one. *)
Theorem closed_connection_leaves_its_channel (w w1 : Conf.world)
    (args : Amqp.connection_args) (body body' : json)
    (exchange routing_key correlation_id : pyarg) :
  Amqp.fetch_args rt c conf_section w = (Ok args, w1) ->
  unset (Some (Amqp.connection_params args)) = false ->
  let d := Dial (Some (Amqp.connection_params args)) (Amqp.ssl_options args)
             (Some (Amqp.attempts args)) (Some (Amqp.interval args)) in
  let ch := Channel 0 1 in
  let p := Publish ch body correlation_id "application/json" 2 routing_key exchange in
  let p' := Publish ch body' correlation_id "application/json" 2 routing_key exchange in
  outcome lib [d] = Ok tt ->
  outcome lib [d; OpenChannel 0] = Ok tt ->
  outcome lib [d; OpenChannel 0; p] = Ok tt ->
  is_closed lib [d; OpenChannel 0; p] 0 = true ->
  is_open lib [d; OpenChannel 0; p] 0 = false ->
  outcome lib [d; OpenChannel 0; p; d] = Ok tt ->
  let run :=
    (publish lib rt c conf_section (Some body) exchange routing_key correlation_id ;;
     publish lib rt c conf_section (Some body') exchange routing_key correlation_id)
      (fresh w) in
  fst run = outcome lib [d; OpenChannel 0; p; d; p']
  /\ history (snd run) = [d; OpenChannel 0; p; d; p']
  /\ conn (snd run) = Some 3%nat
  /\ pub_channel (snd run) = Some ch.
Proof.
  intros Hargs Hset d ch p p' Hd Ho Hp Hclosed Hopen Hd' run. simpl in Hset.
  pose proof (fetch_args_assigns (fresh w) args w1 Hargs) as F.
  unfold fresh in *. simpl in F.
  assert (Hssl : match Amqp.ssl_options args with Some o => Some o | None => None end
                 = Amqp.ssl_options args) by (destruct (Amqp.ssl_options args); reflexivity).
  rewrite Hssl in F. clear Hssl.
  subst run. unfold publish, connect, establish, close, open_channel, call.
  run_py. rewrite F. run_py. fold d. rewrite Hd. run_py. rewrite Ho. run_py.
  fold ch. fold p. rewrite Hp. run_py.
  rewrite Hclosed. run_py. rewrite Hopen. run_py. rewrite Hset. run_py.
  fold d. rewrite Hd'. run_py. fold p'.
  destruct (outcome lib [d; OpenChannel 0; p; d; p']); simpl; auto.
Qed.

Lemma amqps_is_set (params : string) :
  startswith "amqps" params = true -> unset (Some params) = false.
Proof. destruct params; [discriminate|reflexivity]. Qed.

(** X21 ([AMQPConnection.fetch_args] and [connect], lines 79, 83-113 and
    125-126).  [connection_params] is assigned before the TLS context is
    built.  When building it raises, [connect] raises with nothing dialled,
    the URI stays in place and [ssl_options] stays unset; the next [connect]
    then takes the arguments for read and dials the [amqps] URI with no TLS
    options, leaving the host as it is. *)
Theorem failed_tls_setup_is_not_repeated (w w1 : Conf.world) (params : string)
    (i a : Z) (e : exn) :
  Amqp.connection_uri c conf_section w = (Ok params, w1) ->
  Config.getint (Amqp.int rt) c conf_section "try_interval" 1 = Ok i ->
  Config.getint (Amqp.int rt) c conf_section "try" 30 = Ok a ->
  startswith "amqps" params = true ->
  Amqp.tls_options rt c conf_section = Raise e ->
  exists st1,
    connect lib rt c conf_section false (fresh w) = (Raise e, st1)
    /\ history st1 = []
    /\ connection_params st1 = Some params /\ ssl_options st1 = None
    /\ history (snd (connect lib rt c conf_section false st1))
       = [Dial (Some params) None (Some a) (Some i)]
    /\ world (snd (connect lib rt c conf_section false st1)) = w1.
Proof.
  intros Huri Hi Ha Hs He. pose proof (amqps_is_set params Hs) as Hset.
  simpl in Hset.
  eexists. split.
  - unfold connect, establish, fetch_args, in_world, close, call. unfold fresh.
    run_py. rewrite Huri. run_py. rewrite Hi. run_py. rewrite Ha. run_py.
    rewrite Hs. run_py. rewrite He. reflexivity.
  - simpl. repeat split.
    all: unfold connect, establish, close, call; run_py; rewrite Hset; run_py;
      destruct (outcome lib _); reflexivity.
Qed.

(** X25 (the module's [consume], lines 281-287).  An [Exception] that
    leaves the loop ends the service with [SystemExit(2)] and the connection
    forgotten, unless closing the connection raises in turn, and then that
    exception is the one that leaves.  [KeyboardInterrupt] and [SystemExit]
    pass through with nothing closed. *)
Theorem serve_bails_out (turns : nat) (st st1 : state) (r : Amqp.routing) (e : exn) :
  Amqp.read_routing c = Ok r ->
  consume lib rt c conf_section turns (Amqp.from_queue r) st = (Raise e, st1) ->
  let run := serve lib rt c conf_section turns st in
  if is_Exception (exn_cls e) then
    (fst run = Raise (system_exit "2") /\ conn (snd run) = None)
    \/ (exists k e',
          conn st1 = Some k
          /\ outcome lib (history st1 ++ [CloseConnection k]) = Raise e'
          /\ fst run = Raise e')
  else run = (Raise e, st1).
Proof.
  intros Hr Hrun. simpl. unfold serve.
  unfold mbind, M_bind, bind, lift, try_except, raise.
  rewrite Hr, Hrun.
  destruct (is_Exception (exn_cls e)); [|reflexivity].
  rewrite close_run.
  destruct (conn st1) as [k|]; [destruct (is_open lib (history st1) k);
    [destruct (outcome lib (history st1 ++ [CloseConnection k])) as [[]|e'] eqn:Hc|]|];
    simpl; eauto.
  right. exists k, e'. auto.
Qed.

End ManagerRuns.

(* ================================================================== *)
(** * Properties of the database calls                                 *)
(* ================================================================== *)

Section DatabaseCalls.

Import Db.

Variable srv : server.
Variable c : Config.conf.

Lemma connect_cached (k : nat) (cs : list call) :
  connect srv c (State (Some k) cs) = (Ok k, State (Some k) cs).
Proof. reflexivity. Qed.

(** With a connection at hand, a request makes none, and calls nothing but
    that connection. *)
Lemma serve_spec (r : request) (k : nat) (cs : list call) :
  let st' := snd (serve srv c r (State (Some k) cs)) in
  DB_CONNECTION st' = Some k
  /\ exists seg, calls st' = cs ++ seg /\ forallb (on_connection k) seg = true.
Proof.
  destruct r; unfold serve, with_cursor, leaving, assert, perform, connect, cache_var.
  all: split_cases; simpl; split; try reflexivity.
  all: try solve [exists []; rewrite app_nil_r; split; reflexivity].
  all: eexists; split; [rewrite <- ?app_assoc; reflexivity|].
  all: simpl; rewrite ?Nat.eqb_refl; reflexivity.
Qed.

(** X26 ([cache_var] and [connect], lines 29-38 and 71-80).  The
    connection is made once: with [DB_CONNECTION] set, no sequence of
    requests, failing or not, connects again; every cursor, statement and
    transaction end is on that connection, and [DB_CONNECTION] stays what it
    was. *)
Theorem connection_is_made_once (rs : list request) (st : state) (k : nat) :
  DB_CONNECTION st = Some k ->
  let st' := snd (serve_all srv c rs st) in
  DB_CONNECTION st' = Some k
  /\ exists seg, calls st' = calls st ++ seg /\ forallb (on_connection k) seg = true.
Proof.
  revert st. induction rs as [|r rs IH]; intros [d cs] H; simpl in H; subst d; simpl.
  - split; [reflexivity|]. exists []. rewrite app_nil_r. split; reflexivity.
  - pose proof (serve_spec r k cs) as S.
    destruct (serve srv c r (State (Some k) cs)) as [x [d1 cs1]]. simpl in S.
    destruct S as (Hd & seg & Hcs & Hseg). subst d1.
    specialize (IH (State (Some k) cs1) eq_refl).
    destruct (serve_all srv c rs (State (Some k) cs1)) as [xs st2]. simpl in *.
    destruct IH as (Hd2 & seg2 & Hcs2 & Hseg2).
    split; [exact Hd2|]. exists (seg ++ seg2).
    rewrite Hcs2, Hcs, app_assoc, forallb_app, Hseg, Hseg2. split; reflexivity.
Qed.

End DatabaseCalls.

(* ================================================================== *)
(** * Properties of the bootstrap helper                               *)
(* ================================================================== *)

Section BootstrapOutput.

Import Bootstrap.

(** X27 ([main], lines 30 and 43-59).  The value of [--secrets] is only
    tested for truth: with any non-empty prefix, the output is the same for
    every prefix and never looks at [conf], and the two connections are the
    fixed paths under [/run/secrets]. *)
Theorem secrets_prefix_is_not_used (conf conf' : Config.conf) (args : arguments)
    (prefix : pyarg) :
  arg_truthy (secrets args) = true ->
  arg_truthy prefix = true ->
  main conf args
  = main conf' (Arguments prefix (queue args) (destination args) (routing_key args))
  /\ exists cfg,
      main conf args = Ok cfg
      /\ Config.get cfg "broker" "connection" = Ok "secret:///run/secrets/mq.connection"
      /\ Config.get cfg "db" "connection" = Ok "secret:///run/secrets/db.connection".
Proof.
  intros H H'. unfold main, connection. simpl. rewrite H, H'. simpl.
  split; [reflexivity|]. eexists. split; [reflexivity|].
  split; reflexivity.
Qed.

(** X28 ([main], lines 47-55, with [fetch_args], lines 83-113).  The
    broker section that is written makes an [amqps] connection verify the
    server certificate against [/etc/ega/CA.cert] and present the client
    certificate, and leaves the host name unchecked and unset, whatever the
    command line and [conf] were. *)
Theorem bootstrap_broker_verifies_the_peer_only (rt : Amqp.runtime)
    (conf cfg : Config.conf) (args : arguments) :
  main conf args = Ok cfg ->
  Amqp.tls_options rt cfg "broker"
  = (Amqp.load_verify_locations rt "/etc/ega/CA.cert" ;;
     Amqp.load_cert_chain rt "/etc/ega/ssl.cert" "/etc/ega/ssl.key" ;;
     Ok (Amqp.SSLOptions
           (Amqp.Context Amqp.CERT_REQUIRED false (Some "/etc/ega/CA.cert")
              (Some ("/etc/ega/ssl.cert", "/etc/ega/ssl.key")))
           PyNone)).
Proof.
  unfold main. intros H.
  destruct (connection conf (secrets args) "mq") as [mq|e]; [|discriminate].
  destruct (connection conf (secrets args) "db") as [db|e]; [|discriminate].
  simpl in H. injection H as <-.
  unfold Amqp.tls_options, Amqp.peer_verification, Amqp.hostname_verification,
    Amqp.client_verification, Config.getboolean, Config.get_or, Config.get,
    Config.unify_values.
  destruct rt as [int verify chain]. vm_compute.
  destruct (verify _) as [[]|e]; [|reflexivity].
  destruct (chain _ _) as [[]|e]; reflexivity.
Qed.

End BootstrapOutput.

Section UnreadOptions.

Import Notions.

Lemma get_with_option (c : Config.conf) (section o v opt : string) :
  opt <> o ->
  is_Some (Config.sections c !! section) ->
  Config.get (with_option c section o v) section opt = Config.get c section opt.
Proof.
  intros Hne [d Hd]. unfold Config.get, Config.unify_values, with_option. simpl.
  destruct (String.eqb section "DEFAULT"); [reflexivity|].
  rewrite lookup_insert_eq, Hd. simpl.
  rewrite !lookup_union, lookup_insert_ne by congruence. reflexivity.
Qed.

(** X29 ([AMQPConnection.fetch_args], lines 68-113).  TLS follows from
    the scheme of the URI alone: the option [enable_ssl] is never read, so
    that setting it, to anything, changes nothing in what [fetch_args] does
    or returns. *)
Theorem enable_ssl_is_never_read (rt : Amqp.runtime) (c : Config.conf)
    (conf_section value : string) (w : Conf.world) :
  is_Some (Config.sections c !! conf_section) ->
  Amqp.fetch_args rt (with_option c conf_section "enable_ssl" value) conf_section w
  = Amqp.fetch_args rt c conf_section w.
Proof.
  intros H.
  unfold Amqp.fetch_args, Amqp.connection_uri, Amqp.tls_options, Amqp.peer_verification,
    Amqp.hostname_verification, Amqp.client_verification, Config.getsensitive,
    Config.getint, Config.getboolean, Config.get_or.
  rewrite !get_with_option by (try discriminate; exact H). reflexivity.
Qed.

End UnreadOptions.

(* ================================================================== *)
(** * Properties of the configuration object                           *)
(* ================================================================== *)

Section ConfigurationObject.

Import Settings.

(** X30 ([Configuration.__init__], [_load_log] and [__repr__], lines
    117-189).  Logging cannot stop the construction: every [Exception] of
    [_load_log] ends as a warning, so that [__init__] raises only what reading
    the configuration file raised, or something that is no [Exception].  What
    [_load_log] returns is dropped: the attribute [logger] is never set, and
    [__repr__] shows the configuration file alone, whatever logging settings
    were loaded. *)
Theorem logging_never_stops_the_configuration (h : host) (ws : list string) :
  let run := __init__ h ws in
  match fst run with
  | Ok self => __repr__ h self = "Configuration file: " +:+ CONF_FILE h
  | Raise e => read h (CONF_FILE h) = Raise e \/ is_Exception (exn_cls e) = false
  end.
Proof.
  unfold __init__, warn. simpl.
  destruct (_load_log h (default EmptyString (LOG_FILE h))) as [l|e] eqn:Hl.
  all: split_cases; simpl; auto.
Qed.

End ConfigurationObject.

(* ================================================================== *)
(** * The properties at the sample inputs                              *)
(* ================================================================== *)

Section ResolverInstances.

Import Conf.

(** The shared URI file has mode [0o644]: it is read, kept, and warned
    about. *)
Lemma file_scheme_warns_on_shared_files_witness :
  let run := convert_sensitive (Some "file:///etc/ega/mq.url") Cases.shared_host in
  fs (snd run) = fs Cases.shared_host
  /\ calls (snd run) = [SysStat "/etc/ega/mq.url"; SysOpen "/etc/ega/mq.url" rt]
  /\ warnings (snd run) = [file_deprecated].
Proof.
  exact (file_scheme_warns_on_shared_files "/etc/ega/mq.url" Cases.shared_host
           Cases.shared_url eq_refl).
Defined.

Lemma secret_is_one_shot_witness :
  let first := convert_sensitive (Some "secret:///run/secrets/mq.connection")
                 Samples.host in
  let second := convert_sensitive (Some "secret:///run/secrets/mq.connection")
                  (snd first) in
  fst first = Ok (Some (SBytes "amqps://u:p@h/v"))
  /\ fs (snd first) = delete "/run/secrets/mq.connection" (fs Samples.host)
  /\ Observe.raised second = Some ValueError
  /\ fs (snd second) = fs (snd first).
Proof.
  exact (secret_is_one_shot "/run/secrets/mq.connection" Samples.host Samples.mq_secret
           eq_refl eq_refl eq_refl).
Defined.

End ResolverInstances.

Section DispatcherInstances.

Import Amqp.

Lemma empty_content_is_only_acked_witness :
  process_request Samples.plain Cases.loads Cases.succeeding Samples.plain_routing
    Cases.empty_object idle
  = (Ok tt, DState (JDict ∅) PyNone [EvAck]).
Proof.
  exact (empty_content_is_only_acked Samples.plain Cases.loads Cases.succeeding
           Samples.plain_routing Cases.empty_object (JDict ∅) eq_refl eq_refl).
Defined.

(** A body that is no JSON, and an empty payload. *)
Lemma malformed_json_is_reported_and_rejected_witness :
  (let run := process_request Samples.plain Cases.loads Cases.succeeding
                Samples.plain_routing Cases.broken idle in
   fst run = Ok tt
   /\ Observe.routing_keys (trace (snd run)) = [PyStr "error.system"]
   /\ Observe.rejected (trace (snd run)) = true)
  /\ process_request Samples.plain Cases.loads Cases.succeeding
       Samples.plain_routing Cases.empty_payload idle
     = (Raise not_serializable, DState (Raw EmptyString) PyNone []).
Proof.
  split.
  - destruct (malformed_json_is_reported_and_rejected Samples.plain Cases.loads
                Cases.succeeding Samples.plain_routing Cases.broken Samples.bad_json
                eq_refl eq_refl) as [H _].
    cbv zeta. rewrite H. repeat split.
  - exact (malformed_json_is_reported_and_rejected Samples.plain Cases.loads
             Cases.succeeding Samples.plain_routing Cases.empty_payload Samples.bad_json
             eq_refl eq_refl).
Defined.

Lemma success_is_acked_and_the_reply_dropped_witness :
  let run := process_request Samples.plain Cases.loads Cases.succeeding
               Samples.plain_routing Samples.delivery idle in
  run = (Ok tt, DState (JDict Samples.request) PyNone [EvAck])
  /\ Notions.published (trace (snd run)) = [].
Proof.
  exact (success_is_acked_and_the_reply_dropped Samples.plain Cases.loads
           Cases.succeeding Samples.plain_routing Samples.delivery
           (JDict Samples.request) (JDict Samples.request) eq_refl eq_refl eq_refl).
Defined.

Lemma reject_message_requeues_witness :
  let run := process_request Samples.plain Cases.loads (Samples.failing Cases.requeue)
               Samples.plain_routing Samples.delivery idle in
  run = (Ok tt, DState (JDict Samples.request) PyNone [EvReject true])
  /\ Notions.published (trace (snd run)) = [].
Proof.
  exact (reject_message_requeues Samples.plain Cases.loads (Samples.failing Cases.requeue)
           Samples.plain_routing Samples.delivery (JDict Samples.request) Cases.requeue
           eq_refl eq_refl eq_refl eq_refl).
Defined.

End DispatcherInstances.

Section TLSInstances.

Import Amqp.

(** Hostname verification alone makes the context require a certificate. *)
Lemma tls_verifies_what_is_asked_for_witness :
  let o := SSLOptions (Context CERT_REQUIRED true None None) (PyStr "mq.example.org") in
  tls_options Samples.python Samples.broker_with_hostname "broker" = Ok o
  /\ verify_mode (context o) = CERT_REQUIRED
  /\ check_hostname (context o) = true
  /\ cafile (context o) = None.
Proof.
  simpl. split; [reflexivity|].
  destruct (tls_verifies_what_is_asked_for Samples.python Samples.broker_with_hostname
              "broker" false true
              (SSLOptions (Context CERT_REQUIRED true None None) (PyStr "mq.example.org"))
              eq_refl eq_refl eq_refl) as (H1 & H2 & H3).
  split; [exact H1|]. split; [exact H2|]. exact (H3 eq_refl).
Defined.

Lemma plain_uri_needs_no_tls_witness :
  fst (fetch_args Samples.python Cases.plain_broker "broker" Cases.shared_host)
  = Ok (Args "amqp://guest@mq/" 1 30 None).
Proof.
  rewrite (plain_uri_needs_no_tls Samples.python Cases.plain_broker "broker"
             Cases.shared_host
             (snd (connection_uri Cases.plain_broker "broker" Cases.shared_host))
             "amqp://guest@mq/" eq_refl
             (Config.no_option "try_interval" "broker") (Config.no_option "try" "broker")
             eq_refl eq_refl eq_refl).
  reflexivity.
Defined.

End TLSInstances.

Section PipelineInstances.

Import Ingest.

Lemma work_calls_in_order_witness :
  exists path uid fid inbox b hd target size,
    insert_file Samples.db (VJson (JStr path)) uid = Ok fid
    /\ get_header (Samples.inbox true)
         (path_join (Samples.inbox true) inbox (lstrip "/" path)) = Ok (b, hd)
    /\ location Samples.vault fid = Ok target
    /\ copy_rest Samples.vault
         (path_join (Samples.inbox true) inbox (lstrip "/" path)) target = Ok size
    /\ trace (snd Samples.happy)
       = [EvInsertFile (VJson (JStr path)) uid;
          EvExists (path_join (Samples.inbox true) inbox (lstrip "/" path));
          EvMarkInProgress fid;
          EvPublish (JDict (<["status" := JStr "PROCESSING"]>
                            (<["file_id" := JInt fid]> Samples.request)))
            (py_or Samples.exchange_name
               (Config.get_or Samples.plain "DEFAULT" "exchange" (PyStr "ingestion.v1")))
            (PyStr "cega") (PyStr "files.processing");
          EvOpen (path_join (Samples.inbox true) inbox (lstrip "/" path));
          EvGetHeader (path_join (Samples.inbox true) inbox (lstrip "/" path));
          EvLocation fid;
          EvCopy (path_join (Samples.inbox true) inbox (lstrip "/" path)) target;
          EvSetInfo fid target size (hex (b +:+ hd))]
    /\ Notions.unhex (hex (b +:+ hd)) = Some (b +:+ hd).
Proof.
  exact (work_calls_in_order Samples.plain Samples.db (Samples.inbox true) Samples.vault
           Samples.exchange_name Samples.request (PyStr "cid-1") 0%nat eq_refl).
Defined.

Lemma reply_echoes_the_request_witness :
  field "header" Samples.archived = Some (JStr "6372797074346768484452")
  /\ field "vault_path" Samples.archived = Some (JStr "/vault/7")
  /\ field "user" Samples.archived = Some (JStr "alice").
Proof.
  destruct (reply_echoes_the_request Samples.plain Samples.db (Samples.inbox true)
              Samples.vault Samples.exchange_name Samples.request (PyStr "cid-1")
              Samples.archived ltac:(vm_compute; reflexivity))
    as (path & uid & fid & inbox & b & hd & target & _ & _ & _ & _ & _ & _ & H).
  split; [reflexivity|]. split; [reflexivity|].
  rewrite (H "user"); [reflexivity|].
  rewrite !elem_of_cons, elem_of_nil. intros [H1|[H1|[H1|[H1|[]]]]]; discriminate.
Defined.

Lemma missing_field_is_a_key_error_witness :
  work Samples.plain Samples.db (Samples.inbox true) Samples.vault Samples.channel 0%nat
    (received ∅ (PyStr "cid-1"))
  = (Raise (key_error "filepath"), received ∅ (PyStr "cid-1"))
  /\ work Samples.plain Samples.db (Samples.inbox true) Samples.vault Samples.channel
       0%nat (received (<["filepath" := JStr "/a/b.c4gh"]> ∅) (PyStr "cid-1"))
     = (Raise (key_error "user"),
        received (<["filepath" := JStr "/a/b.c4gh"]> ∅) (PyStr "cid-1")).
Proof.
  split.
  - exact (proj1 (missing_field_is_a_key_error Samples.plain Samples.db
                    (Samples.inbox true) Samples.vault Samples.channel ∅ (PyStr "cid-1"))
             eq_refl).
  - exact (proj2 (missing_field_is_a_key_error Samples.plain Samples.db
                    (Samples.inbox true) Samples.vault Samples.channel
                    (<["filepath" := JStr "/a/b.c4gh"]> ∅) (PyStr "cid-1"))
             (JStr "/a/b.c4gh") eq_refl eq_refl).
Defined.

End PipelineInstances.

Section ManagerInstances.

Import Connection.

(** A process that calls itself [a)b] is reported as [a]. *)
Lemma process_name_ends_at_first_closing_witness :
  process_name "77 (a)b) S 1 77" = "a".
Proof.
  exact (process_name_ends_at_first_closing "77 " "a" "b) S 1 77" eq_refl eq_refl eq_refl).
Defined.

Lemma publish_reuses_connection_and_channel_witness :
  let st1 := snd (publish Cases.steady Samples.python Cases.plain_broker "broker"
                    (Some (JInt 1)) (PyStr "lega") (PyStr "archived") (PyStr "cid-1")
                    (fresh Cases.shared_host)) in
  exists k ch,
    conn st1 = Some k /\ pub_channel st1 = Some ch
    /\ last (history st1)
       = Some (Publish ch (JInt 1) (PyStr "cid-1") "application/json" 2
                 (PyStr "archived") (PyStr "lega"))
    /\ (is_closed Cases.steady (history st1) k = false ->
        forall body' exchange' routing_key' correlation_id',
          let o := Publish ch body' correlation_id' "application/json" 2
                     routing_key' exchange' in
          publish Cases.steady Samples.python Cases.plain_broker "broker" (Some body')
            exchange' routing_key' correlation_id' st1
          = (outcome Cases.steady (history st1 ++ [o]), add o st1)).
Proof.
  exact (publish_reuses_connection_and_channel Cases.steady Samples.python
           Cases.plain_broker "broker" (fresh Cases.shared_host) _ (JInt 1)
           (PyStr "lega") (PyStr "archived") (PyStr "cid-1")
           ltac:(vm_compute; reflexivity)).
Defined.

Lemma closed_connection_leaves_its_channel_witness :
  let d := Dial (Some "amqp://guest@mq/") None (Some 30) (Some 1) in
  let ch := Channel 0 1 in
  let sent body := Publish ch body (PyStr "cid-1") "application/json" 2
                     (PyStr "archived") (PyStr "lega") in
  history
    (snd ((publish Cases.dropping Samples.python Cases.plain_broker "broker"
             (Some (JInt 1)) (PyStr "lega") (PyStr "archived") (PyStr "cid-1") ;;
           publish Cases.dropping Samples.python Cases.plain_broker "broker"
             (Some (JInt 2)) (PyStr "lega") (PyStr "archived") (PyStr "cid-1"))
            (fresh Cases.shared_host)))
  = [d; OpenChannel 0; sent (JInt 1); d; sent (JInt 2)].
Proof.
  exact (proj1 (proj2
           (closed_connection_leaves_its_channel Cases.dropping Samples.python
              Cases.plain_broker "broker" Cases.shared_host
              (snd (Amqp.fetch_args Samples.python Cases.plain_broker "broker"
                      Cases.shared_host))
              (Amqp.Args "amqp://guest@mq/" 1 30 None) (JInt 1) (JInt 2)
              (PyStr "lega") (PyStr "archived") (PyStr "cid-1")
              ltac:(vm_compute; reflexivity) eq_refl eq_refl eq_refl eq_refl eq_refl
              eq_refl eq_refl))).
Defined.

Lemma arguments_are_read_once_witness :
  world (snd (consume Cases.steady Samples.python Cases.plain_broker "broker" 2 "files"
                Cases.subscribed)) = Cases.shared_host.
Proof.
  exact (proj1 (proj2 (proj2
           (arguments_are_read_once Cases.steady Samples.python Cases.plain_broker "broker"
              Cases.subscribed eq_refl)) 2%nat "files")).
Defined.

Lemma failed_tls_setup_is_not_repeated_witness :
  exists st1,
    connect Cases.steady Samples.python Samples.broker_without_hostname "broker" false
      (fresh Samples.host) = (Raise Amqp.hostname_unset, st1)
    /\ history st1 = []
    /\ connection_params st1 = Some "amqps://u:p@h/v" /\ ssl_options st1 = None
    /\ history (snd (connect Cases.steady Samples.python Samples.broker_without_hostname
                       "broker" false st1))
       = [Dial (Some "amqps://u:p@h/v") None (Some 30) (Some 1)]
    /\ world (snd (connect Cases.steady Samples.python Samples.broker_without_hostname
                     "broker" false st1))
       = snd (Amqp.connection_uri Samples.broker_without_hostname "broker" Samples.host).
Proof.
  exact (failed_tls_setup_is_not_repeated Cases.steady Samples.python
           Samples.broker_without_hostname "broker" Samples.host
           (snd (Amqp.connection_uri Samples.broker_without_hostname "broker" Samples.host))
           "amqps://u:p@h/v" 1 30 Amqp.hostname_unset
           ltac:(vm_compute; reflexivity) eq_refl eq_refl eq_refl
           ltac:(vm_compute; reflexivity)).
Defined.

Lemma consume_sets_qos_first_witness :
  one_at_a_time None
    (history (snd (consume Cases.steady Samples.python Cases.plain_broker "broker" 2
                     "files" (fresh Cases.shared_host)))) = true.
Proof.
  exact (consume_sets_qos_first Cases.steady Samples.python Cases.plain_broker "broker"
           "files" 2 (fresh Cases.shared_host) eq_refl).
Defined.

Lemma consumer_keeps_its_channel_witness :
  let st1 := snd (consume Cases.steady Samples.python Cases.plain_broker "broker" 2
                    "files" Cases.subscribed) in
  pull_channel st1 = Some (Channel 0 1)
  /\ exists seg, history st1 = history Cases.subscribed ++ seg
                 /\ forallb (only_on (Channel 0 1)) seg = true.
Proof.
  exact (consumer_keeps_its_channel Cases.steady Samples.python Cases.plain_broker "broker"
           "files" 2 Cases.subscribed (Channel 0 1) eq_refl).
Defined.

Lemma consume_returns_disconnected_witness :
  fst (consume Cases.interrupted Samples.python Cases.plain_broker "broker" 3 "files"
         Cases.subscribed) = Ok (Some tt)
  /\ conn (snd (consume Cases.interrupted Samples.python Cases.plain_broker "broker" 3
                  "files" Cases.subscribed)) = None.
Proof.
  split; [vm_compute; reflexivity|].
  exact (consume_returns_disconnected Cases.interrupted Samples.python Cases.plain_broker
           "broker" "files" 3 Cases.subscribed _ ltac:(vm_compute; reflexivity)).
Defined.

Lemma serve_bails_out_witness :
  let run := serve Cases.failing Samples.python Cases.plain_broker "broker" 1
               Cases.subscribed in
  (fst run = Raise (system_exit "2") /\ conn (snd run) = None)
  \/ (exists k e',
        conn (snd (consume Cases.failing Samples.python Cases.plain_broker "broker" 1
                     "files" Cases.subscribed)) = Some k
        /\ outcome Cases.failing
             (history (snd (consume Cases.failing Samples.python Cases.plain_broker
                              "broker" 1 "files" Cases.subscribed))
              ++ [CloseConnection k]) = Raise e'
        /\ fst run = Raise e').
Proof.
  exact (serve_bails_out Cases.failing Samples.python Cases.plain_broker "broker" 1
           Cases.subscribed
           (snd (consume Cases.failing Samples.python Cases.plain_broker "broker" 1
                   "files" Cases.subscribed))
           Samples.plain_routing Samples.vault_down
           ltac:(vm_compute; reflexivity) ltac:(vm_compute; reflexivity)).
Defined.

End ManagerInstances.

Section DatabaseInstances.

Import Db.

(** An unknown user, a file id of zero and a lookup: one connection. *)
Lemma connection_is_made_once_witness :
  let st' := snd (serve_all Cases.postgres Samples.plain
                    [get_user (VStr "alice"); set_progress (VInt 0) (VStr "x");
                     get_details (VInt 7)]
                    Cases.connected) in
  DB_CONNECTION st' = Some 0%nat
  /\ exists seg, calls st' = calls Cases.connected ++ seg
                 /\ forallb (on_connection 0) seg = true.
Proof.
  exact (connection_is_made_once Cases.postgres Samples.plain
           [get_user (VStr "alice"); set_progress (VInt 0) (VStr "x");
            get_details (VInt 7)]
           Cases.connected 0%nat eq_refl).
Defined.

End DatabaseInstances.

Section BootstrapInstances.

Import Bootstrap.

Lemma secrets_prefix_is_not_used_witness :
  main Samples.plain Cases.with_secrets
  = main Samples.with_error_option
      (Arguments (PyStr "x") (PyStr "files") (PyStr "vault") (PyStr "archived")).
Proof.
  exact (proj1 (secrets_prefix_is_not_used Samples.plain Samples.with_error_option
                  Cases.with_secrets (PyStr "x") eq_refl eq_refl)).
Defined.

Lemma bootstrap_broker_verifies_the_peer_only_witness :
  Amqp.tls_options Samples.python Cases.generated "broker"
  = Ok (Amqp.SSLOptions
          (Amqp.Context Amqp.CERT_REQUIRED false (Some "/etc/ega/CA.cert")
             (Some ("/etc/ega/ssl.cert", "/etc/ega/ssl.key")))
          PyNone).
Proof.
  exact (bootstrap_broker_verifies_the_peer_only Samples.python Samples.plain
           Cases.generated Cases.with_secrets eq_refl).
Defined.

Lemma enable_ssl_is_never_read_witness :
  Amqp.fetch_args Samples.python
    (Notions.with_option Samples.broker_with_hostname "broker" "enable_ssl" "no")
    "broker" Samples.host
  = Amqp.fetch_args Samples.python Samples.broker_with_hostname "broker" Samples.host.
Proof.
  exact (enable_ssl_is_never_read Samples.python Samples.broker_with_hostname "broker" "no"
           Samples.host ltac:(eexists; reflexivity)).
Defined.

End BootstrapInstances.
